(** * Airplanes in your vicinity: ingestion and proximity engine

    A shallow embedding of [server/services/aircraftService.js] and
    [server/database/init.js], and the properties of the specification
    that concern them.

    Conventions of the embedding.
    - A JavaScript value is a tagged union ([JS.value]); numbers are exact
      rationals, and a number that may be [NaN] is an [option Q]
      ([JS.number], [None] standing for [NaN]).
    - A cell of the SQLite table is a [Sqlite.cell]: SQLite types values,
      not columns.
    - The network, the process environment and the clock are inputs
      ([World]); the table is threaded explicitly ([Database]).
    - [Math.sin] and friends are not rational functions: the proximity
      query takes the distance function as a parameter, and the haversine
      formula itself is studied over the real numbers. *)

From Stdlib Require Import Reals Lra.
From Stdlib Require Import ZArith QArith Lqa Lia Bool List String Ascii.
From Stdlib Require Import DecimalString Sorted Permutation Qround Qreals.
Import ListNotations.

Set Implicit Arguments.

(* ================================================================== *)
(** * Part I: the program *)
(* ================================================================== *)

(** ** JavaScript values *)

Module JS.

Inductive value : Type :=
| JUndefined
| JNull
| JBool (b : bool)
| JNum (q : Q)
| JStr (s : string)
| JArr (items : list Z).

(** A number that may be [NaN]. *)
Definition number : Type := option Q.
Definition NaN : number := None.

(** ToBoolean. *)
Definition truthy (v : value) : bool :=
  match v with
  | JUndefined | JNull => false
  | JBool b => b
  | JNum q => negb (Qeq_bool q 0)
  | JStr s => negb (String.eqb s EmptyString)
  | JArr _ => true
  end.

(** [a || b]. *)
Definition or (a b : value) : value := if truthy a then a else b.

(** [state[i]] on an array: [undefined] past the end. *)
Definition index (a : list value) (i : nat) : value := nth i a JUndefined.

(** [o?.p] where the object [o] may be missing. *)
Definition optional {O : Type} (o : option O) (p : O -> value) : value :=
  match o with
  | Some x => p x
  | None => JUndefined
  end.

(** [v === 'literal']. *)
Definition strict_eq_string (v : value) (literal : string) : bool :=
  match v with
  | JStr s => String.eqb s literal
  | _ => false
  end.

(** [process.env.X] in a condition: set and not empty. *)
Definition env_truthy (x : option string) : bool :=
  match x with
  | Some s => negb (String.eqb s EmptyString)
  | None => false
  end.

Definition string_of_Z (z : Z) : string := NilZero.string_of_int (Z.to_int z).

(** [v.join(sep)]: a [TypeError] ([None]) unless [v] is an array. *)
Definition join (v : value) (sep : string) : option value :=
  match v with
  | JArr items => Some (JStr (String.concat sep (map string_of_Z items)))
  | _ => None
  end.

(** Number comparisons; every comparison with [NaN] is false. *)
Definition le (a b : number) : bool :=
  match a, b with
  | Some x, Some y => Qle_bool x y
  | _, _ => false
  end.

Definition gt (a b : number) : bool :=
  match a, b with
  | Some x, Some y => negb (Qle_bool x y)
  | _, _ => false
  end.

Definition sub (a b : number) : number :=
  match a, b with
  | Some x, Some y => Some (x - y)
  | _, _ => NaN
  end.

Definition mul (a b : number) : number :=
  match a, b with
  | Some x, Some y => Some (x * y)
  | _, _ => NaN
  end.

(** [Array.prototype.sort(compare)].  The sort is stable: a later element
    moves in front of an earlier one only when [compare earlier later] is
    positive, and a [NaN] result counts as [0].  For a consistent
    comparator every stable sort returns the same array, which this
    insertion sort computes. *)
Section Sort.
Variable A : Type.
Variable compare : A -> A -> number.

Definition before (a b : A) : bool := gt (compare b a) (Some 0).

Fixpoint insert (x : A) (sorted : list A) : list A :=
  match sorted with
  | [] => [x]
  | y :: rest => if before y x then y :: insert x rest else x :: y :: rest
  end.

Fixpoint sort (a : list A) : list A :=
  match a with
  | [] => []
  | x :: rest => insert x (sort rest)
  end.
End Sort.

End JS.

Declare Scope js_scope.
Delimit Scope js_scope with js.
Notation "a || b" := (JS.or a b) : js_scope.

(** ** SQLite cells *)

Module Sqlite.

(** The storage classes the service uses. *)
Inductive cell : Type :=
| Null
| Numeric (q : Q)
| Text (s : string).

(** Binding a JavaScript value to a statement parameter: [null] and
    [undefined] become NULL, booleans the integers 0 and 1, an array its
    string form.  The
    conversions of column affinity (numeric text in a REAL column, a
    number in a TEXT column) are not modelled: both providers deliver
    numbers in the numeric columns and strings in the text columns. *)
Definition bind (v : JS.value) : cell :=
  match v with
  | JS.JUndefined | JS.JNull => Null
  | JS.JBool b => Numeric (if b then 1 else 0)
  | JS.JNum q => Numeric q
  | JS.JStr s => Text s
  | JS.JArr items => Text (String.concat "," (map JS.string_of_Z items))
  end.

(** [c = 0] in a WHERE clause. *)
Definition eq_zero (c : cell) : bool :=
  match c with
  | Numeric q => Qeq_bool q 0
  | _ => false
  end.

(** [c > 0] in a WHERE clause; text sorts after every number. *)
Definition gt_zero (c : cell) : bool :=
  match c with
  | Null => false
  | Numeric q => negb (Qle_bool q 0)
  | Text _ => true
  end.

(** [c IS NOT NULL]. *)
Definition is_not_null (c : cell) : bool :=
  match c with
  | Null => false
  | _ => true
  end.

(** Two cells of a UNIQUE column collide; NULL collides with nothing. *)
Definition same_key (a b : cell) : bool :=
  match a, b with
  | Numeric p, Numeric q => Qeq_bool p q
  | Text s, Text t => String.eqb s t
  | _, _ => false
  end.

(** What JavaScript reads from a cell used as a number: text that
    reached a numeric column is not a number. *)
Definition to_number (c : cell) : JS.number :=
  match c with
  | Null => Some 0
  | Numeric q => Some q
  | Text _ => JS.NaN
  end.

End Sqlite.

(** ** The aircraft record and the aircraft table *)

(** The eighteen properties of a canonical aircraft, which are also the
    eighteen columns that [updateDatabase] writes. *)
Record Fields (V : Type) : Type := mkFields {
  icao24 : V;
  callsign : V;
  origin_country : V;
  time_position : V;
  time_velocity : V;
  longitude : V;
  latitude : V;
  altitude : V;
  on_ground : V;
  velocity : V;
  true_track : V;
  vertical_rate : V;
  sensors : V;
  geo_altitude : V;
  squawk : V;
  spi : V;
  position_source : V;
  category : V
}.

Definition Aircraft : Type := Fields JS.value.

(** Seconds, as CURRENT_TIMESTAMP counts them. *)
Definition Timestamp : Type := Z.

Module Database.

(** A row of [aircraft]: [id INTEGER PRIMARY KEY AUTOINCREMENT], the
    eighteen data columns, [last_updated TIMESTAMP DEFAULT
    CURRENT_TIMESTAMP]. *)
Record Row : Type := mkRow {
  id : Z;
  columns : Fields Sqlite.cell;
  last_updated : Timestamp
}.

(** The table in rowid order, and the AUTOINCREMENT counter. *)
Record t : Type := mkDatabase {
  aircraft : list Row;
  sequence : Z
}.

Definition empty : t := {| aircraft := []; sequence := 0 |}.

(** [CREATE TABLE IF NOT EXISTS aircraft (...)]: an existing table is
    kept, a missing one is created empty. *)
Definition initializeDatabase (file : option t) : t :=
  match file with
  | Some db => db
  | None => empty
  end.

Definition key (r : Row) : Sqlite.cell := icao24 (columns r).

(** [INSERT OR REPLACE INTO aircraft (...18 columns...) VALUES (...)] run
    at time [now]: [icao24 TEXT UNIQUE] makes REPLACE delete the rows
    with the same [icao24]; the new row takes the next [id] and,
    [last_updated] not being among the columns, the default
    CURRENT_TIMESTAMP. *)
Definition insert_or_replace (now : Timestamp) (values : Fields Sqlite.cell) (db : t) : t :=
  let next := (sequence db + 1)%Z in
  {| aircraft :=
       filter (fun r => negb (Sqlite.same_key (key r) (icao24 values))) (aircraft db)
       ++ [ {| id := next; columns := values; last_updated := now |} ];
     sequence := next |}.

(** [ORDER BY last_updated DESC]: SQL leaves the order of equal
    timestamps open; here the row written later comes first, as in a
    backward scan of [idx_aircraft_updated]. *)
Definition newer_first (a b : Row) : JS.number :=
  Some (inject_Z (last_updated b - last_updated a)).

Definition order_by_last_updated_desc (rows : list Row) : list Row :=
  JS.sort newer_first (rev rows).

End Database.

(** ** The aircraft service *)

Module AircraftService.

Local Open Scope js_scope.

(** *** The outside world *)

(** What [axios.get] gives a fetcher: a rejection (timeout, transport
    error, status outside 2xx), or a body whose list ([data.states],
    [data.data]) is there or is missing. *)
Inductive Reply (A : Type) : Type :=
| Unavailable
| Responded (items : option (list A)).
Arguments Unavailable {A}.

(** An OpenSky state vector is a positional array. *)
Definition StateVector : Type := list JS.value.

(** An Aviation Stack flight, with the sub-objects the service reads. *)
Record FlightAircraft : Type := { aircraft_icao24 : JS.value }.
Record FlightNumber : Type := { iata : JS.value; icao : JS.value }.
Record FlightAirline : Type := { country : JS.value }.
Record FlightDeparture : Type := { departure_longitude : JS.value; departure_latitude : JS.value }.
Record Flight : Type := {
  aircraft : option FlightAircraft;
  flight : option FlightNumber;
  airline : option FlightAirline;
  departure : option FlightDeparture;
  flight_status : JS.value
}.

Record World : Type := {
  opensky : Reply StateVector;
  aviationstack : Reply Flight;
  AVIATION_API_KEY : option string;
  (** [clock i]: the time at which the statement of the [i]-th record of
      a batch runs. *)
  clock : nat -> Timestamp
}.

(** *** Normalisation *)

(** [None] is the [TypeError] of [state[12].join] on a truthy value
    that is not an array. *)
Definition transformOpenSkyData (state : StateVector) : option Aircraft :=
  let at_ := JS.index state in
  match (if JS.truthy (at_ 12%nat) then JS.join (at_ 12%nat) "," else Some JS.JNull) with
  | None => None
  | Some joined =>
      Some {| icao24 := at_ 0%nat;
              callsign := at_ 1%nat || JS.JNull;
              origin_country := at_ 2%nat || JS.JNull;
              time_position := at_ 3%nat || JS.JNull;
              time_velocity := at_ 4%nat || JS.JNull;
              longitude := at_ 5%nat || JS.JNull;
              latitude := at_ 6%nat || JS.JNull;
              altitude := at_ 7%nat || JS.JNull;
              on_ground := at_ 8%nat || JS.JBool false;
              velocity := at_ 9%nat || JS.JNull;
              true_track := at_ 10%nat || JS.JNull;
              vertical_rate := at_ 11%nat || JS.JNull;
              sensors := joined;
              geo_altitude := at_ 13%nat || JS.JNull;
              squawk := at_ 14%nat || JS.JNull;
              spi := at_ 15%nat || JS.JBool false;
              position_source := at_ 16%nat || JS.JNull;
              category := at_ 17%nat || JS.JNull |}
  end.

Definition transformAviationStackData (f : Flight) : Aircraft :=
  {| icao24 := JS.optional (aircraft f) aircraft_icao24 || JS.JNull;
     callsign := JS.optional (flight f) iata || JS.optional (flight f) icao || JS.JNull;
     origin_country := JS.optional (airline f) country || JS.JNull;
     time_position := JS.JNull;
     time_velocity := JS.JNull;
     longitude := JS.optional (departure f) departure_longitude || JS.JNull;
     latitude := JS.optional (departure f) departure_latitude || JS.JNull;
     altitude := JS.JNull;
     on_ground := JS.JBool (JS.strict_eq_string (flight_status f) "landed");
     velocity := JS.JNull;
     true_track := JS.JNull;
     vertical_rate := JS.JNull;
     sensors := JS.JNull;
     geo_altitude := JS.JNull;
     squawk := JS.JNull;
     spi := JS.JBool false;
     position_source := JS.JNull;
     category := JS.JNull |}.

(** *** The fetchers *)

(** [array.map(f)] with an [f] that may throw: the first exception
    aborts the map. *)
Fixpoint map_throwing {A B : Type} (f : A -> option B) (l : list A) : option (list B) :=
  match l with
  | [] => Some []
  | x :: rest =>
      match f x with
      | None => None
      | Some y =>
          match map_throwing f rest with
          | None => None
          | Some ys => Some (y :: ys)
          end
      end
  end.

(** Every failure is caught and turned into the empty list. *)
Definition fetchFromOpenSky (w : World) : list Aircraft :=
  match opensky w with
  | Unavailable => []
  | Responded None => []
  | Responded (Some states) =>
      match map_throwing transformOpenSkyData states with
      | Some data => data
      | None => []
      end
  end.

Definition fetchFromAviationStack (w : World) : list Aircraft :=
  match aviationstack w with
  | Unavailable => []
  | Responded None => []
  | Responded (Some flights) => map transformAviationStackData flights
  end.

(** *** Writing *)

(** [aircraft.icao24 && aircraft.latitude && aircraft.longitude]. *)
Definition storable (a : Aircraft) : bool :=
  JS.truthy (icao24 a) && JS.truthy (latitude a) && JS.truthy (longitude a).

(** The array of parameters of [stmt.run([...])], in the order of the
    columns of the INSERT. *)
Definition parameters (a : Aircraft) : Fields Sqlite.cell :=
  {| icao24 := Sqlite.bind (icao24 a);
     callsign := Sqlite.bind (callsign a);
     origin_country := Sqlite.bind (origin_country a);
     time_position := Sqlite.bind (time_position a);
     time_velocity := Sqlite.bind (time_velocity a);
     longitude := Sqlite.bind (longitude a);
     latitude := Sqlite.bind (latitude a);
     altitude := Sqlite.bind (altitude a);
     on_ground := Sqlite.bind (on_ground a);
     velocity := Sqlite.bind (velocity a);
     true_track := Sqlite.bind (true_track a);
     vertical_rate := Sqlite.bind (vertical_rate a);
     sensors := Sqlite.bind (sensors a);
     geo_altitude := Sqlite.bind (geo_altitude a);
     squawk := Sqlite.bind (squawk a);
     spi := Sqlite.bind (spi a);
     position_source := Sqlite.bind (position_source a);
     category := Sqlite.bind (category a) |}.

(** [stmt.run([...])]. *)
Definition stmt_run (now : Timestamp) (a : Aircraft) (db : Database.t) : Database.t :=
  Database.insert_or_replace now (parameters a) db.

(** The [forEach] of [updateDatabase], from index [i] on. *)
Fixpoint forEach_from (i : nat) (clock : nat -> Timestamp)
         (aircraftData : list Aircraft) (db : Database.t) : Database.t :=
  match aircraftData with
  | [] => db
  | a :: rest =>
      forEach_from (S i) clock rest
        (if storable a then stmt_run (clock i) a db else db)
  end.

Definition updateDatabase (clock : nat -> Timestamp)
           (aircraftData : list Aircraft) (db : Database.t) : Database.t :=
  forEach_from 0 clock aircraftData db.

(** *** The fetch cycle *)

Inductive Provider : Type := OpenSky | AviationStack.

(** The line the cycle logs. *)
Inductive Report : Type :=
| Updated (count : nat) (source : Provider)
| NoData.

(** What a cycle leaves behind: the table, the providers it asked, in
    order, and its log line. *)
Record Cycle : Type := {
  store : Database.t;
  requests : list Provider;
  report : Report
}.

(** The fetchers catch their own failures and the table of this model
    does not fail, so the outer [catch] has nothing to catch. *)
Definition fetchAircraftData (w : World) (db : Database.t) : Cycle :=
  let aircraftData := fetchFromOpenSky w in
  if (0 <? List.length aircraftData)%nat then
    {| store := updateDatabase (clock w) aircraftData db;
       requests := [OpenSky];
       report := Updated (List.length aircraftData) OpenSky |}
  else if JS.env_truthy (AVIATION_API_KEY w) then
    let aviationData := fetchFromAviationStack w in
    if (0 <? List.length aviationData)%nat then
      {| store := updateDatabase (clock w) aviationData db;
         requests := [OpenSky; AviationStack];
         report := Updated (List.length aviationData) AviationStack |}
    else
      {| store := db; requests := [OpenSky; AviationStack]; report := NoData |}
  else
    {| store := db; requests := [OpenSky]; report := NoData |}.

(** *** The proximity query *)

(** A row of the result: [{ ...row, distance_km }]. *)
Record Nearby : Type := {
  row : Database.Row;
  distance_km : JS.number
}.

(** [row.altitude] read as a number. *)
Definition altitude_of (a : Nearby) : JS.number :=
  Sqlite.to_number (altitude (Database.columns (row a))).

(** [SELECT * FROM aircraft WHERE on_ground = 0 AND altitude > 0 AND
    latitude IS NOT NULL AND longitude IS NOT NULL
    ORDER BY last_updated DESC LIMIT 1000]. *)
Definition flying (r : Database.Row) : bool :=
  Sqlite.eq_zero (on_ground (Database.columns r))
  && Sqlite.gt_zero (altitude (Database.columns r))
  && Sqlite.is_not_null (latitude (Database.columns r))
  && Sqlite.is_not_null (longitude (Database.columns r)).

Definition select_flying (db : Database.t) : list Database.Row :=
  firstn 1000 (Database.order_by_last_updated_desc (filter flying (Database.aircraft db))).

(** The five conditions of the visibility filter, under the names its
    comments give them. *)
Definition within_requested_radius (radiusKm : Q) (a : Nearby) : bool :=
  JS.le (distance_km a) (Some radiusKm).

Definition within_local_area (a : Nearby) : bool :=
  JS.le (distance_km a) (Some 200).

Definition very_high_flying (a : Nearby) : bool :=
  JS.gt (altitude_of a) (Some 10500) && JS.le (distance_km a) (Some 400).

Definition reasonably_close (radiusKm : Q) (a : Nearby) : bool :=
  JS.le (distance_km a) (JS.mul (Some radiusKm) (Some 2)).

Definition high_and_moderately_close (a : Nearby) : bool :=
  JS.gt (altitude_of a) (Some 8000) && JS.le (distance_km a) (Some 300).

(** The callback of [aircraftWithDistance.filter]. *)
Definition visible (radiusKm : Q) (a : Nearby) : bool :=
  if within_requested_radius radiusKm a then true
  else if within_local_area a then true
  else if very_high_flying a then true
  else if reasonably_close radiusKm a then true
  else if high_and_moderately_close a then true
  else false.

(** The comparator of [visibleAircraft.sort]. *)
Definition by_distance (a b : Nearby) : JS.number :=
  JS.sub (distance_km a) (distance_km b).

Section Proximity.

(** [calculateDistance(lat1, lon1, lat2, lon2)] as a JavaScript
    function of four numbers; see [Haversine] for the formula. *)
Variable calculateDistance : JS.number -> JS.number -> JS.number -> JS.number -> JS.number.

Definition with_distance (lat lon : Q) (r : Database.Row) : Nearby :=
  {| row := r;
     distance_km :=
       calculateDistance (Some lat) (Some lon)
         (Sqlite.to_number (latitude (Database.columns r)))
         (Sqlite.to_number (longitude (Database.columns r))) |}.

(** The caller passes [radiusKm]; 100 is the default of an omitted
    argument. *)
Definition getAircraftNearLocation (lat lon radiusKm : Q) (db : Database.t) : list Nearby :=
  let rows := select_flying db in
  let aircraftWithDistance := map (with_distance lat lon) rows in
  let visibleAircraft := filter (visible radiusKm) aircraftWithDistance in
  JS.sort by_distance visibleAircraft.

End Proximity.

(** *** The scheduler *)

(** The service object ([isRunning]), the cron tasks registered so far,
    and the calls of [fetchAircraftData] that have started and have not
    settled yet. *)
Record Scheduler : Type := {
  isRunning : bool;
  schedules : nat;
  in_flight : nat
}.

(** [new AircraftService()]. *)
Definition constructor : Scheduler :=
  {| isRunning := false; schedules := 0; in_flight := 0 |}.

(** [parseInt(process.env.AIRCRAFT_UPDATE_INTERVAL) || 30]. *)
Definition updateInterval (parsed : JS.number) : Q :=
  match parsed with
  | Some q => if Qeq_bool q 0 then 30 else q
  | None => 30
  end.

(** The guard, the initial fetch, [cron.schedule]. *)
Definition startAircraftUpdates (s : Scheduler) : Scheduler :=
  if isRunning s then s
  else {| isRunning := true;
          schedules := S (schedules s);
          in_flight := S (in_flight s) |}.

Definition stopAircraftUpdates (s : Scheduler) : Scheduler :=
  {| isRunning := false; schedules := schedules s; in_flight := in_flight s |}.

(** What can happen to the service: the two calls, a registered cron
    task firing its callback [() => this.fetchAircraftData()], and a
    started fetch cycle settling.  A tick needs a registered task, and
    nothing unregisters one. *)
Inductive Event : Type := Start | Stop | Tick | Settle.

Definition step (s : Scheduler) (e : Event) : Scheduler :=
  match e with
  | Start => startAircraftUpdates s
  | Stop => stopAircraftUpdates s
  | Tick =>
      match schedules s with
      | O => s
      | S _ => {| isRunning := isRunning s;
                  schedules := schedules s;
                  in_flight := S (in_flight s) |}
      end
  | Settle =>
      {| isRunning := isRunning s;
         schedules := schedules s;
         in_flight := pred (in_flight s) |}
  end.

Definition run (events : list Event) : Scheduler := fold_left step events constructor.

Inductive reachable : Scheduler -> Prop :=
| reachable_constructor : reachable constructor
| reachable_step s e : reachable s -> reachable (step s e).

End AircraftService.

(** ** The haversine distance *)

(** [calculateDistance] and [toRadians] over the real numbers; a result
    that JavaScript would compute as [NaN] is [None]. *)
Module Haversine.

Local Open Scope R_scope.

(** [Math.sqrt]: [NaN] below zero. *)
Definition Math_sqrt (x : R) : option R :=
  if Rlt_dec x 0 then None else Some (sqrt x).

(** [Math.atan2(y, x)], the angle of the point [(x, y)]. *)
Definition Math_atan2 (y x : R) : R :=
  match total_order_T x 0 with
  | inright _ => atan (y / x)
  | inleft (left _) => if Rlt_dec y 0 then atan (y / x) - PI else atan (y / x) + PI
  | inleft (right _) =>
      match total_order_T y 0 with
      | inright _ => PI / 2
      | inleft (left _) => - (PI / 2)
      | inleft (right _) => 0
      end
  end.

Definition toRadians (degrees : R) : R := degrees * (PI / 180).

(** The quantity [a] of [calculateDistance]. *)
Definition haversine_a (lat1 lon1 lat2 lon2 : R) : R :=
  let dLat := toRadians (lat2 - lat1) in
  let dLon := toRadians (lon2 - lon1) in
  sin (dLat / 2) * sin (dLat / 2) +
  cos (toRadians lat1) * cos (toRadians lat2) *
  sin (dLon / 2) * sin (dLon / 2).

Definition calculateDistance (lat1 lon1 lat2 lon2 : R) : option R :=
  let R := 6371 in
  let a := haversine_a lat1 lon1 lat2 lon2 in
  match Math_sqrt a, Math_sqrt (1 - a) with
  | Some sqrt_a, Some sqrt_1_a =>
      let c := 2 * Math_atan2 sqrt_a sqrt_1_a in
      Some (R * c)
  | _, _ => None
  end.

(** The coordinates the route accepts. *)
Definition valid (lat lon : R) : Prop :=
  -90 <= lat <= 90 /\ -180 <= lon <= 180.

End Haversine.

(** ** The vocabulary of the properties *)

Module Spec.

Import AircraftService.

(** The aircraft flies above [metres]. *)
Definition above (metres : Q) (a : Nearby) : Prop :=
  exists h, altitude_of a = Some h /\ metres < h.

(** The visibility policy in the words of the specification: the
    candidate has a distance, and one of the five tiers holds. *)
Definition some_tier_holds (radius_km : Q) (a : Nearby) : Prop :=
  exists d, distance_km a = Some d /\
    (d <= radius_km
     \/ d <= 200
     \/ (above 10500 a /\ d <= 400)
     \/ d <= radius_km * 2
     \/ (above 8000 a /\ d <= 300)).

(** Ascending by [distance_km]. *)
Definition ascending (a b : Nearby) : Prop :=
  JS.le (distance_km a) (distance_km b) = true.

(** The rows of the table that hold the key [k]. *)
Definition rows_with (k : Sqlite.cell) (db : Database.t) : list Database.Row :=
  filter (fun r => Sqlite.same_key (Database.key r) k) (Database.aircraft db).

(** At most one row per [icao24]. *)
Definition one_row_per_key (db : Database.t) : Prop :=
  forall k, (List.length (rows_with k db) <= 1)%nat.

End Spec.

(** ** Sample data *)

(** A candidate of the scan at a given distance and altitude, for the
    boundary cases. *)
Definition candidate_at (distance altitude_m : Q) : AircraftService.Nearby :=
  {| AircraftService.row :=
       {| Database.id := 1;
          Database.columns :=
            {| icao24 := Sqlite.Text "abc123";
               callsign := Sqlite.Null;
               origin_country := Sqlite.Null;
               time_position := Sqlite.Null;
               time_velocity := Sqlite.Null;
               longitude := Sqlite.Numeric (-74);
               latitude := Sqlite.Numeric 43;
               altitude := Sqlite.Numeric altitude_m;
               on_ground := Sqlite.Numeric 0;
               velocity := Sqlite.Null;
               true_track := Sqlite.Null;
               vertical_rate := Sqlite.Null;
               sensors := Sqlite.Null;
               geo_altitude := Sqlite.Null;
               squawk := Sqlite.Null;
               spi := Sqlite.Numeric 0;
               position_source := Sqlite.Null;
               category := Sqlite.Null |};
          Database.last_updated := 0%Z |};
     AircraftService.distance_km := Some distance |}.

(** Sample data: a state vector as OpenSky delivers it, the same aircraft
    standing on the apron (altitude and velocity 0), and the same aircraft
    crossing the equator. *)
Definition cruising : AircraftService.StateVector :=
  [ JS.JStr "3c6444"; JS.JStr "DLH9LF"; JS.JStr "Germany";
    JS.JNum 1700000000; JS.JNum 1700000000;
    JS.JNum 8.5623; JS.JNum 50.0379; JS.JNum 10972.8;
    JS.JBool false; JS.JNum 230.5; JS.JNum 270; JS.JNum 0;
    JS.JNull; JS.JNum 11277.6; JS.JStr "1000"; JS.JBool false;
    JS.JNum 0; JS.JNum 0 ].

Definition parked : AircraftService.StateVector :=
  [ JS.JStr "3c6444"; JS.JStr "DLH9LF"; JS.JStr "Germany";
    JS.JNum 1700000000; JS.JNum 1700000000;
    JS.JNum 8.5623; JS.JNum 50.0379; JS.JNum 0;
    JS.JBool true; JS.JNum 0; JS.JNum 270; JS.JNull;
    JS.JNull; JS.JNull; JS.JStr "1000"; JS.JBool false;
    JS.JNum 0; JS.JNum 0 ].

Definition over_the_equator : AircraftService.StateVector :=
  [ JS.JStr "3c6444"; JS.JStr "DLH9LF"; JS.JStr "Germany";
    JS.JNum 1700000000; JS.JNum 1700000000;
    JS.JNum 8.5623; JS.JNum 0; JS.JNum 10972.8;
    JS.JBool false; JS.JNum 230.5; JS.JNum 270; JS.JNum 0;
    JS.JNull; JS.JNum 11277.6; JS.JStr "1000"; JS.JBool false;
    JS.JNum 0; JS.JNum 0 ].

(** The record of a state vector whose transformation does not throw. *)
Definition record_of (state : AircraftService.StateVector) : Aircraft :=
  match AircraftService.transformOpenSkyData state with
  | Some a => a
  | None => AircraftService.transformAviationStackData
              {| AircraftService.aircraft := None; AircraftService.flight := None;
                 AircraftService.airline := None; AircraftService.departure := None;
                 AircraftService.flight_status := JS.JUndefined |}
  end.

(** A canonical record on the prime meridian whose longitude is still the
    number 0. *)
Definition on_the_meridian : Aircraft :=
  {| icao24 := JS.JStr "406a93"; callsign := JS.JStr "BAW117";
     origin_country := JS.JStr "United Kingdom";
     time_position := JS.JNum 1700000000; time_velocity := JS.JNum 1700000000;
     longitude := JS.JNum 0; latitude := JS.JNum 51.4779;
     altitude := JS.JNum 3200; on_ground := JS.JBool false;
     velocity := JS.JNum 140; true_track := JS.JNum 90;
     vertical_rate := JS.JNull; sensors := JS.JNull;
     geo_altitude := JS.JNull; squawk := JS.JNull;
     spi := JS.JBool false; position_source := JS.JNull;
     category := JS.JNull |}.

(** Every write of the sample clock happens at second 1700000000. *)
Definition noon : nat -> Timestamp := fun _ => 1700000000%Z.

(** Three flights as Aviation Stack delivers them, and a fourth whose
    departure has no position. *)
Definition flight_at (hex : string) (lon lat : Q) : AircraftService.Flight :=
  {| AircraftService.aircraft := Some {| AircraftService.aircraft_icao24 := JS.JStr hex |};
     AircraftService.flight :=
       Some {| AircraftService.iata := JS.JStr "LH400"; AircraftService.icao := JS.JStr "DLH400" |};
     AircraftService.airline := Some {| AircraftService.country := JS.JStr "Germany" |};
     AircraftService.departure :=
       Some {| AircraftService.departure_longitude := JS.JNum lon;
               AircraftService.departure_latitude := JS.JNum lat |};
     AircraftService.flight_status := JS.JStr "active" |}.

Definition flight_without_position (hex : string) : AircraftService.Flight :=
  {| AircraftService.aircraft := Some {| AircraftService.aircraft_icao24 := JS.JStr hex |};
     AircraftService.flight :=
       Some {| AircraftService.iata := JS.JStr "LH400"; AircraftService.icao := JS.JStr "DLH400" |};
     AircraftService.airline := Some {| AircraftService.country := JS.JStr "Germany" |};
     AircraftService.departure := None;
     AircraftService.flight_status := JS.JStr "active" |}.

Definition three_flights : list AircraftService.Flight :=
  [ flight_at "3c6444" 8.57 50.03; flight_at "4b1805" 8.55 47.46; flight_at "a0b1c2" (-73.78) 40.64 ].

(** OpenSky is down, Aviation Stack has three flights, no key is set. *)
Definition outage_without_key : AircraftService.World :=
  {| AircraftService.opensky := AircraftService.Unavailable;
     AircraftService.aviationstack := AircraftService.Responded (Some three_flights);
     AircraftService.AVIATION_API_KEY := None;
     AircraftService.clock := noon |}.

(** OpenSky is down, Aviation Stack has three flights, a key is set. *)
Definition outage_with_key : AircraftService.World :=
  {| AircraftService.opensky := AircraftService.Unavailable;
     AircraftService.aviationstack := AircraftService.Responded (Some three_flights);
     AircraftService.AVIATION_API_KEY := Some "0123456789abcdef"%string;
     AircraftService.clock := noon |}.

(** OpenSky answers with an empty list, a key is set, Aviation Stack has
    three flights. *)
Definition quiet_sky (flights : list AircraftService.Flight) : AircraftService.World :=
  {| AircraftService.opensky := AircraftService.Responded (Some []);
     AircraftService.aviationstack := AircraftService.Responded (Some flights);
     AircraftService.AVIATION_API_KEY := Some "0123456789abcdef"%string;
     AircraftService.clock := noon |}.
(** ** More sample data *)

(** A distance function for the examples: 111 km for each degree of
    latitude between the two points. *)
Definition by_latitude (lat1 lon1 lat2 lon2 : JS.number) : JS.number :=
  match lat1, lat2 with
  | Some a, Some b => Some ((if Qle_bool a b then b - a else a - b) * 111)
  | _, _ => JS.NaN
  end.

(** A state vector of an airborne aircraft at a given latitude and
    altitude, on the meridian of 8 degrees east. *)
Definition airborne_at (hex : string) (lat altitude_m : Q) : AircraftService.StateVector :=
  [ JS.JStr hex; JS.JStr "SAMPLE"; JS.JStr "Germany";
    JS.JNum 1700000000; JS.JNum 1700000000;
    JS.JNum 8; JS.JNum lat; JS.JNum altitude_m;
    JS.JBool false; JS.JNum 230; JS.JNum 90; JS.JNum 0;
    JS.JArr [12%Z; 7%Z]; JS.JNum altitude_m; JS.JNull; JS.JBool false;
    JS.JNum 0; JS.JNum 1 ].

(** Four aircraft seen from 50 N 8 E: at 55.5 km, 222 km, 277.5 km (high)
    and 444 km. *)
Definition four_aircraft : list AircraftService.StateVector :=
  [ airborne_at "aaaaaa" 50.5 9000; airborne_at "bbbbbb" 52 5000;
    airborne_at "cccccc" 52.5 9000; airborne_at "dddddd" 54 12000 ].

Definition busy_sky : AircraftService.World :=
  {| AircraftService.opensky := AircraftService.Responded (Some four_aircraft);
     AircraftService.aviationstack := AircraftService.Unavailable;
     AircraftService.AVIATION_API_KEY := None;
     AircraftService.clock := fun i => (1700000000 + Z.of_nat i)%Z |}.

Definition four_aircraft_table : Database.t :=
  AircraftService.store (AircraftService.fetchAircraftData busy_sky Database.empty).

(** ** More vocabulary *)

Module Inventory.

Import AircraftService.

(** The table after a run of fetch cycles, one world per cycle. *)
Definition after_cycles (worlds : list World) (db : Database.t) : Database.t :=
  fold_left (fun table w => store (fetchAircraftData w table)) worlds db.

(** A cell that is neither NULL nor the number 0. *)
Definition nonzero (c : Sqlite.cell) : bool :=
  match c with
  | Sqlite.Null => false
  | Sqlite.Numeric q => negb (Qeq_bool q 0)
  | Sqlite.Text _ => true
  end.

(** A row with a key and a position. *)
Definition positioned (r : Database.Row) : bool :=
  Sqlite.is_not_null (icao24 (Database.columns r))
  && nonzero (latitude (Database.columns r))
  && nonzero (longitude (Database.columns r)).

(** The [id]s grow along the table and stay within the counter. *)
Definition ids_increasing (db : Database.t) : Prop :=
  StronglySorted Z.lt (map Database.id (Database.aircraft db))
  /\ Forall (fun r => (1 <= Database.id r <= Database.sequence db)%Z) (Database.aircraft db)
  /\ (0 <= Database.sequence db)%Z.

(** [state[12]] makes [transformOpenSkyData] throw. *)
Definition bad_sensors (state : StateVector) : bool :=
  JS.truthy (JS.index state 12)
  && match JS.index state 12 with
     | JS.JArr _ => false
     | _ => true
     end.

End Inventory.

(** OpenSky is down, a key is set, and Aviation Stack knows the flight of
    the first of the four aircraft. *)
Definition fallback_for_one : AircraftService.World :=
  {| AircraftService.opensky := AircraftService.Unavailable;
     AircraftService.aviationstack :=
       AircraftService.Responded (Some [flight_at "aaaaaa" 8.57 50.03]);
     AircraftService.AVIATION_API_KEY := Some "0123456789abcdef"%string;
     AircraftService.clock := fun i => (1700000030 + Z.of_nat i)%Z |}.

(** A state vector whose sensors slot holds a string instead of an
    array. *)
Definition garbled : AircraftService.StateVector :=
  [ JS.JStr "eeeeee"; JS.JStr "SAMPLE"; JS.JStr "Germany";
    JS.JNum 1700000000; JS.JNum 1700000000;
    JS.JNum 8; JS.JNum 51; JS.JNum 9000;
    JS.JBool false; JS.JNum 230; JS.JNum 90; JS.JNum 0;
    JS.JStr "12,7"; JS.JNum 9000; JS.JNull; JS.JBool false;
    JS.JNum 0; JS.JNum 1 ].

Definition sky (states : list AircraftService.StateVector) : AircraftService.World :=
  {| AircraftService.opensky := AircraftService.Responded (Some states);
     AircraftService.aviationstack := AircraftService.Unavailable;
     AircraftService.AVIATION_API_KEY := None;
     AircraftService.clock := fun i => (1700000000 + Z.of_nat i)%Z |}.

(** ** The aircraft routes *)

(** [server/routes/aircraft.js].  A query parameter is a string or is
    missing; [parseFloat] and [parseInt] are parameters of the handlers,
    and so are the product and the quotient of doubles with which the
    distance is rounded; the table does not fail, so that no handler
    answers 500. *)
Module AircraftRoutes.

(** What [parseFloat] returns. *)
Inductive parsed : Type :=
| NotANumber
| Infinite (negative : bool)
| Finite (q : Q).

Definition isNaN (p : parsed) : bool :=
  match p with
  | NotANumber => true
  | _ => false
  end.

(** [p < k] and [p > k] for a constant [k]. *)
Definition below (p : parsed) (k : Q) : bool :=
  match p with
  | NotANumber => false
  | Infinite negative => negative
  | Finite q => negb (Qle_bool k q)
  end.

Definition beyond (p : parsed) (k : Q) : bool :=
  match p with
  | NotANumber => false
  | Infinite negative => negb negative
  | Finite q => negb (Qle_bool q k)
  end.

(** [!x] for a parameter: missing or empty. *)
Definition missing (x : option string) : bool :=
  match x with
  | Some s => String.eqb s EmptyString
  | None => true
  end.

(** [Math.round(x)]: the nearest integer, a half going up. *)
Definition Math_round (x : JS.number) : JS.number :=
  match x with
  | Some q => Some (inject_Z (Qfloor (q + (1 # 2))))
  | None => JS.NaN
  end.

(** A cell as JavaScript reads it from a row. *)
Definition read (c : Sqlite.cell) : JS.value :=
  match c with
  | Sqlite.Null => JS.JNull
  | Sqlite.Numeric q => JS.JNum q
  | Sqlite.Text s => JS.JStr s
  end.

Inductive Response (A : Type) : Type :=
| BadRequest (error message : string)
| NotFound (error message : string)
| Ok (data : A).
Arguments BadRequest {A}.
Arguments NotFound {A}.

(** *** GET /nearby *)

Record Query : Type := {
  query_lat : option string;
  query_lon : option string;
  query_radius : option string
}.

Record Plane : Type := {
  plane_id : Z;
  plane_icao24 : JS.value;
  plane_callsign : JS.value;
  plane_origin_country : JS.value;
  plane_latitude : JS.value;
  plane_longitude : JS.value;
  plane_altitude : JS.value;
  plane_velocity : JS.value;
  plane_true_track : JS.value;
  plane_distance_km : JS.number;
  plane_last_updated : Timestamp
}.

Record NearbyData : Type := {
  nearby_aircraft : list Plane;
  user_location : Q * Q;
  search_radius_km : Z;
  nearby_timestamp : Timestamp;
  nearby_count : nat
}.

Section Handlers.

Variable parseFloat : string -> parsed.
Variable parseInt : string -> option Z.
Variable calculateDistance : JS.number -> JS.number -> JS.number -> JS.number -> JS.number.

(** [x * y] and [x / y] on two doubles, each rounded to a double: they are
    parameters, as the numbers here are exact. *)
Variable times : Q -> Q -> Q.
Variable over : Q -> Q -> Q.

(** [x * 100]. *)
Definition hundredfold (x : JS.number) : JS.number :=
  match x with
  | Some q => Some (times q 100)
  | None => JS.NaN
  end.

(** [x / 100]. *)
Definition hundredth (x : JS.number) : JS.number :=
  match x with
  | Some q => Some (over q 100)
  | None => JS.NaN
  end.

(** The callback of [aircraft.map]. *)
Definition transformed (plane : AircraftService.Nearby) : Plane :=
  let columns := Database.columns (AircraftService.row plane) in
  {| plane_id := Database.id (AircraftService.row plane);
     plane_icao24 := read (icao24 columns);
     plane_callsign := JS.or (read (callsign columns)) (JS.JStr "Unknown");
     plane_origin_country := JS.or (read (origin_country columns)) (JS.JStr "Unknown");
     plane_latitude := read (latitude columns);
     plane_longitude := read (longitude columns);
     plane_altitude := read (altitude columns);
     plane_velocity := read (velocity columns);
     plane_true_track := read (true_track columns);
     plane_distance_km :=
       hundredth (Math_round (hundredfold (AircraftService.distance_km plane)));
     plane_last_updated := Database.last_updated (AircraftService.row plane) |}.

(** [parseInt(radius)] with [radius = 100] for a missing parameter. *)
Definition radius_of (query : Query) : option Z :=
  match query_radius query with
  | Some radius => parseInt radius
  | None => Some 100%Z
  end.

(** [now] is the time of the answer. *)
Definition nearby (query : Query) (now : Timestamp) (db : Database.t) : Response NearbyData :=
  if missing (query_lat query) || missing (query_lon query) then
    BadRequest "Missing required parameters"
               "Latitude (lat) and longitude (lon) are required"
  else
    match query_lat query, query_lon query with
    | Some lat, Some lon =>
        let latitude := parseFloat lat in
        let longitude := parseFloat lon in
        match latitude, longitude, radius_of query with
        | Finite la, Finite lo, Some radiusKm =>
            if below latitude (-90) || beyond latitude 90
               || below longitude (-180) || beyond longitude 180 then
              BadRequest "Invalid coordinates"
                "Latitude must be between -90 and 90, longitude between -180 and 180"
            else
              let aircraft :=
                AircraftService.getAircraftNearLocation calculateDistance la lo
                  (inject_Z radiusKm) db in
              let transformedAircraft := map transformed aircraft in
              Ok {| nearby_aircraft := transformedAircraft;
                    user_location := (la, lo);
                    search_radius_km := radiusKm;
                    nearby_timestamp := now;
                    nearby_count := List.length transformedAircraft |}
        | NotANumber, _, _ | _, NotANumber, _ | _, _, None =>
            BadRequest "Invalid parameters"
                       "Latitude, longitude, and radius must be valid numbers"
        | _, _, Some _ =>
            BadRequest "Invalid coordinates"
              "Latitude must be between -90 and 90, longitude between -180 and 180"
        end
    | _, _ =>
        BadRequest "Missing required parameters"
                   "Latitude (lat) and longitude (lon) are required"
    end.

End Handlers.

(** *** GET /all *)

Record AllData : Type := {
  all_aircraft : list Database.Row;
  all_count : nat;
  all_timestamp : Timestamp
}.

(** [WHERE on_ground = 0 AND altitude > 0]. *)
Definition airborne (r : Database.Row) : bool :=
  Sqlite.eq_zero (on_ground (Database.columns r))
  && Sqlite.gt_zero (altitude (Database.columns r)).

Definition all (now : Timestamp) (db : Database.t) : Response AllData :=
  let rows :=
    firstn 100 (Database.order_by_last_updated_desc (filter airborne (Database.aircraft db))) in
  Ok {| all_aircraft := rows; all_count := List.length rows; all_timestamp := now |}.

(** *** GET /:icao24 *)

(** [db.get('SELECT * FROM aircraft WHERE icao24 = ?', [icao24])]: the
    first row of the result, if there is one. *)
Definition by_icao24 (icao24_ : string) (now : Timestamp) (db : Database.t)
  : Response (Database.Row * Timestamp) :=
  if String.eqb icao24_ EmptyString then
    BadRequest "Missing ICAO24 identifier" "ICAO24 identifier is required"
  else
    match find (fun r => Sqlite.same_key (Database.key r) (Sqlite.Text icao24_))
               (Database.aircraft db) with
    | None => NotFound "Aircraft not found" ("No aircraft found with ICAO24: " ++ icao24_)
    | Some row => Ok (row, now)
    end.

(** *** GET /stats/overview *)

(** [c = 1] in a WHERE clause. *)
Definition eq_one (c : Sqlite.cell) : bool :=
  match c with
  | Sqlite.Numeric q => Qeq_bool q 1
  | _ => false
  end.

(** The four counts of the answer.  [by_country] is assigned by a callback
    of [db.all] that runs after the answer has been sent, and is not part
    of it. *)
Record Stats : Type := {
  total : nat;
  stats_airborne : nat;
  stats_on_ground : nat;
  recent_updates : nat
}.

(** [stats[key] = data?.count || 0]: a count of 0 stays 0. *)
Definition stats_overview (now : Timestamp) (db : Database.t) : Response (Stats * Timestamp) :=
  let rows := Database.aircraft db in
  Ok ({| total := List.length rows;
         stats_airborne := List.length (filter airborne rows);
         stats_on_ground :=
           List.length (filter (fun r => eq_one (on_ground (Database.columns r))) rows);
         recent_updates :=
           List.length (filter (fun r => (now - 3600 <? Database.last_updated r)%Z) rows) |},
      now).

End AircraftRoutes.

(** ** The vocabulary of the routes *)

Module RouteSpec.

Import AircraftRoutes.

(** The reported distance, [Math.round(d * 100) / 100], for the product
    [times] and the quotient [over] of doubles. *)
Definition reported (times over : Q -> Q -> Q) (d : Q) : Q :=
  over (inject_Z (Qfloor (times d 100 + (1 # 2)))) 100.

(** [f x 100] does not get smaller when [x] grows: so it is for the product
    and for the quotient of doubles, which round to the nearest double. *)
Definition monotone (f : Q -> Q -> Q) : Prop :=
  forall p q : Q, p <= q -> f p 100 <= f q 100.

(** Ascending by the reported distance. *)
Definition reported_ascending (p q : Plane) : Prop :=
  JS.le (plane_distance_km p) (plane_distance_km q) = true.

End RouteSpec.

(** Parsers for the examples: they know the strings of the examples. *)
Definition sample_parseFloat (s : string) : AircraftRoutes.parsed :=
  if String.eqb s "50" then AircraftRoutes.Finite 50
  else if String.eqb s "8" then AircraftRoutes.Finite 8
  else if String.eqb s "91" then AircraftRoutes.Finite 91
  else if String.eqb s "Infinity" then AircraftRoutes.Infinite false
  else AircraftRoutes.NotANumber.

Definition sample_parseInt (s : string) : option Z :=
  if String.eqb s "25" then Some 25%Z
  else if String.eqb s "250" then Some 250%Z
  else if String.eqb s "-5" then Some (-5)%Z
  else None.

Definition from_frankfurt (radius : option string) : AircraftRoutes.Query :=
  {| AircraftRoutes.query_lat := Some "50"%string;
     AircraftRoutes.query_lon := Some "8"%string;
     AircraftRoutes.query_radius := radius |}.

(** Newest first. *)
Definition newest_first (a b : Database.Row) : Prop :=
  (Database.last_updated b <= Database.last_updated a)%Z.

(** A table with 1001 flying rows, the [i]-th written at second [i]. *)
Definition crowded_row (i : nat) : Database.Row :=
  {| Database.id := Z.of_nat i;
     Database.columns :=
       {| icao24 := Sqlite.Text (JS.string_of_Z (Z.of_nat i));
          callsign := Sqlite.Null;
          origin_country := Sqlite.Null;
          time_position := Sqlite.Null;
          time_velocity := Sqlite.Null;
          longitude := Sqlite.Numeric 8;
          latitude := Sqlite.Numeric 50.5;
          altitude := Sqlite.Numeric 9000;
          on_ground := Sqlite.Numeric 0;
          velocity := Sqlite.Null;
          true_track := Sqlite.Null;
          vertical_rate := Sqlite.Null;
          sensors := Sqlite.Null;
          geo_altitude := Sqlite.Null;
          squawk := Sqlite.Null;
          spi := Sqlite.Numeric 0;
          position_source := Sqlite.Null;
          category := Sqlite.Null |};
     Database.last_updated := Z.of_nat i |}.

Definition crowded_table : Database.t :=
  {| Database.aircraft := map crowded_row (seq 1 1001); Database.sequence := 1001 |}.

(** The record of a batch that leaves the row of the key [k]: the last
    stored one with that key. *)
Fixpoint last_for (k : Sqlite.cell) (batch : list Aircraft) : option Aircraft :=
  match batch with
  | [] => None
  | a :: rest =>
      match last_for k rest with
      | Some b => Some b
      | None =>
          if AircraftService.storable a
             && Sqlite.same_key (icao24 (AircraftService.parameters a)) k
          then Some a else None
      end
  end.

(** ** The location routes *)

(** [server/routes/location.js]: the routes that store and return the
    location of a user, and the route that computes a distance.  A value of
    the request body is a JavaScript value; [parseFloat] on strings is a
    parameter; the table does not fail. *)
Module LocationRoutes.

Import AircraftRoutes.

(** A row of [user_locations]: [id], [user_id TEXT UNIQUE], [latitude REAL
    NOT NULL], [longitude REAL NOT NULL], [timestamp]. *)
Record UserLocation : Type := {
  location_id : Z;
  user_id : Sqlite.cell;
  user_latitude : Q;
  user_longitude : Q;
  location_timestamp : Timestamp
}.

Record Table : Type := {
  user_locations : list UserLocation;
  location_sequence : Z
}.

Definition no_locations : Table := {| user_locations := []; location_sequence := 0 |}.

(** [INSERT OR REPLACE INTO user_locations (user_id, latitude, longitude,
    timestamp) VALUES (?, ?, ?, CURRENT_TIMESTAMP)].  The user id is bound as
    it comes; the TEXT affinity of the column, which would turn a number
    into its digits, is not modelled, and the properties below are about
    user ids that are strings. *)
Definition insert_or_replace (now : Timestamp) (user : Sqlite.cell) (lat lon : Q)
           (table : Table) : Table :=
  let next := (location_sequence table + 1)%Z in
  {| user_locations :=
       filter (fun r => negb (Sqlite.same_key (user_id r) user)) (user_locations table)
       ++ [ {| location_id := next; user_id := user; user_latitude := lat;
               user_longitude := lon; location_timestamp := now |} ];
     location_sequence := next |}.

(** [v === undefined]. *)
Definition is_undefined (v : JS.value) : bool :=
  match v with
  | JS.JUndefined => true
  | _ => false
  end.

Section Handlers.

Variable parseFloat : string -> parsed.

(** [parseFloat(v)]: the string of [v] is parsed; the string of a number
    gives the number back. *)
Definition parseFloat_of (v : JS.value) : parsed :=
  match v with
  | JS.JNum q => Finite q
  | JS.JStr s => parseFloat s
  | JS.JArr items => parseFloat (String.concat "," (map JS.string_of_Z items))
  | JS.JBool _ | JS.JNull | JS.JUndefined => NotANumber
  end.

(** *** POST /store *)

Record StoreBody : Type := {
  body_user_id : JS.value;
  body_latitude : JS.value;
  body_longitude : JS.value
}.

Record Stored : Type := {
  stored_user_id : JS.value;
  stored_latitude : Q;
  stored_longitude : Q;
  stored_timestamp : Timestamp
}.

Definition store (body : StoreBody) (now : Timestamp) (table : Table)
  : Response Stored * Table :=
  if negb (JS.truthy (body_user_id body))
     || is_undefined (body_latitude body) || is_undefined (body_longitude body) then
    (BadRequest "Missing required parameters"
                "user_id, latitude, and longitude are required", table)
  else
    let lat := parseFloat_of (body_latitude body) in
    let lon := parseFloat_of (body_longitude body) in
    if isNaN lat || isNaN lon then
      (BadRequest "Invalid coordinates" "Latitude and longitude must be valid numbers", table)
    else
      match lat, lon with
      | Finite la, Finite lo =>
          if below lat (-90) || beyond lat 90 || below lon (-180) || beyond lon 180 then
            (BadRequest "Invalid coordinates"
               "Latitude must be between -90 and 90, longitude between -180 and 180", table)
          else
            (Ok {| stored_user_id := body_user_id body;
                   stored_latitude := la;
                   stored_longitude := lo;
                   stored_timestamp := now |},
             insert_or_replace now (Sqlite.bind (body_user_id body)) la lo table)
      | _, _ =>
          (BadRequest "Invalid coordinates"
             "Latitude must be between -90 and 90, longitude between -180 and 180", table)
      end.

End Handlers.

(** *** GET /:user_id *)

(** [ORDER BY timestamp DESC], with the row written later first among
    equal timestamps. *)
Definition later_first (a b : UserLocation) : JS.number :=
  Some (inject_Z (location_timestamp b - location_timestamp a)).

(** [SELECT * FROM user_locations WHERE user_id = ? ORDER BY timestamp DESC
    LIMIT 1]. *)
Definition location_of (user : string) (table : Table) : Response UserLocation :=
  if String.eqb user EmptyString then
    BadRequest "Missing user_id" "User ID is required"
  else
    match JS.sort later_first
            (rev (filter (fun r => Sqlite.same_key (user_id r) (Sqlite.Text user))
                         (user_locations table))) with
    | [] => NotFound "Location not found" ("No location found for user: " ++ user)
    | row :: _ => Ok row
    end.

End LocationRoutes.

(** *** POST /distance *)

(** The route computes the great-circle distance itself, with the formula
    written out once more; numbers are real numbers as in [Haversine], and a
    parsed coordinate that is not finite makes every result [NaN]. *)
Module DistanceRoute.

Import AircraftRoutes LocationRoutes.

Local Open Scope R_scope.

Record DistanceBody : Type := {
  lat1 : JS.value;
  lon1 : JS.value;
  lat2 : JS.value;
  lon2 : JS.value
}.

Record Point : Type := {
  point_latitude : parsed;
  point_longitude : parsed
}.

Record Distance : Type := {
  point1 : Point;
  point2 : Point;
  distance_km : option R;
  distance_miles : option R
}.

(** A parsed number in the arithmetic of the formula. *)
Definition real_of (p : parsed) : option R :=
  match p with
  | Finite q => Some (Q2R q)
  | _ => None
  end.

(** Lines 227-235 of the route, on finite numbers. *)
Definition inline_a (lat1Num lon1Num lat2Num lon2Num : R) : R :=
  let dLat := (lat2Num - lat1Num) * PI / 180 in
  let dLon := (lon2Num - lon1Num) * PI / 180 in
  sin (dLat / 2) * sin (dLat / 2) +
  cos (lat1Num * PI / 180) * cos (lat2Num * PI / 180) *
  sin (dLon / 2) * sin (dLon / 2).

Definition inline_distance (lat1Num lon1Num lat2Num lon2Num : R) : option R :=
  let R := 6371 in
  let a := inline_a lat1Num lon1Num lat2Num lon2Num in
  match Haversine.Math_sqrt a, Haversine.Math_sqrt (1 - a) with
  | Some sqrt_a, Some sqrt_1_a =>
      let c := 2 * Haversine.Math_atan2 sqrt_a sqrt_1_a in
      Some (R * c)
  | _, _ => None
  end.

(** [Math.round(x * 100) / 100]. *)
Definition rounded (x : option R) : option R :=
  match x with
  | Some r => Some (IZR (Int_part (r * 100 + / 2)) / 100)
  | None => None
  end.

(** [x * 0.621371]. *)
Definition miles (x : option R) : option R :=
  match x with
  | Some r => Some (r * (621371 / 1000000))
  | None => None
  end.

Section Handler.

Variable parseFloat : string -> parsed.

Definition distance (body : DistanceBody) : Response Distance :=
  if negb (JS.truthy (lat1 body)) || negb (JS.truthy (lon1 body))
     || negb (JS.truthy (lat2 body)) || negb (JS.truthy (lon2 body)) then
    BadRequest "Missing required parameters" "lat1, lon1, lat2, and lon2 are required"
  else
    let lat1Num := parseFloat_of parseFloat (lat1 body) in
    let lon1Num := parseFloat_of parseFloat (lon1 body) in
    let lat2Num := parseFloat_of parseFloat (lat2 body) in
    let lon2Num := parseFloat_of parseFloat (lon2 body) in
    if existsb isNaN [lat1Num; lon1Num; lat2Num; lon2Num] then
      BadRequest "Invalid coordinates" "All coordinates must be valid numbers"
    else
      let d :=
        match real_of lat1Num, real_of lon1Num, real_of lat2Num, real_of lon2Num with
        | Some la1, Some lo1, Some la2, Some lo2 => inline_distance la1 lo1 la2 lo2
        | _, _, _, _ => None
        end in
      Ok {| point1 := {| point_latitude := lat1Num; point_longitude := lon1Num |};
            point2 := {| point_latitude := lat2Num; point_longitude := lon2Num |};
            distance_km := rounded d;
            distance_miles := rounded (miles d) |}.

End Handler.

End DistanceRoute.

(** ** The vocabulary of the location routes *)

Module LocationSpec.

Import AircraftRoutes LocationRoutes.

Section Requests.

Variable parseFloat : string -> parsed.

(** The table after a sequence of POST /store requests, each with the time
    at which it is served. *)
Fixpoint after_requests (requests : list (StoreBody * Timestamp)) (table : Table) : Table :=
  match requests with
  | [] => table
  | (body, now) :: rest => after_requests rest (snd (store parseFloat body now table))
  end.

End Requests.

(** The user id of the request, if it is given at all, is a string: the
    requests for which the table of the model is the table of SQLite. *)
Definition string_if_given (body : StoreBody) : Prop :=
  JS.truthy (body_user_id body) = true -> exists s, body_user_id body = JS.JStr s.

(** The request names its user by a string. *)
Definition named (request : StoreBody * Timestamp) : Prop :=
  exists s, body_user_id (fst request) = JS.JStr s.

(** The request names a user other than [s] by a string. *)
Definition of_another_user (s : string) (request : StoreBody * Timestamp) : Prop :=
  exists t, body_user_id (fst request) = JS.JStr t /\ t <> s.

(** The rows of the table that hold the user [k]. *)
Definition locations_of (k : Sqlite.cell) (table : Table) : list UserLocation :=
  filter (fun r => Sqlite.same_key (user_id r) k) (user_locations table).

(** At most one row per [user_id]. *)
Definition one_location_per_user (table : Table) : Prop :=
  forall k, (List.length (locations_of k table) <= 1)%nat.

End LocationSpec.

(** Requests for the examples. *)
Definition in_frankfurt (user : string) : LocationRoutes.StoreBody :=
  {| LocationRoutes.body_user_id := JS.JStr user;
     LocationRoutes.body_latitude := JS.JStr "50";
     LocationRoutes.body_longitude := JS.JNum 8 |}.

Definition on_null_island (user : string) : LocationRoutes.StoreBody :=
  {| LocationRoutes.body_user_id := JS.JStr user;
     LocationRoutes.body_latitude := JS.JNum 0;
     LocationRoutes.body_longitude := JS.JNum 0 |}.

Definition beyond_the_pole (user : string) : LocationRoutes.StoreBody :=
  {| LocationRoutes.body_user_id := JS.JStr user;
     LocationRoutes.body_latitude := JS.JStr "91";
     LocationRoutes.body_longitude := JS.JNum 8 |}.

Definition without_user : LocationRoutes.StoreBody :=
  {| LocationRoutes.body_user_id := JS.JUndefined;
     LocationRoutes.body_latitude := JS.JNum 50;
     LocationRoutes.body_longitude := JS.JNum 8 |}.

Definition between (a b c d : JS.value) : DistanceRoute.DistanceBody :=
  {| DistanceRoute.lat1 := a; DistanceRoute.lon1 := b;
     DistanceRoute.lat2 := c; DistanceRoute.lon2 := d |}.

(* ================================================================== *)
(** * Part II: properties *)
(* ================================================================== *)

(** ** Sorting *)

Module SortFacts.

Section Sorting.
Variable A : Type.
Variable compare : A -> A -> JS.number.

Lemma insert_Permutation (x : A) (l : list A) :
  Permutation (JS.insert compare x l) (x :: l).
Proof.
  induction l as [| y rest IH]; simpl.
  - apply Permutation_refl.
  - destruct (JS.before compare y x).
    + apply Permutation_trans with (y :: x :: rest).
      * now apply perm_skip.
      * apply perm_swap.
    + apply Permutation_refl.
Qed.

Lemma sort_Permutation (l : list A) : Permutation (JS.sort compare l) l.
Proof.
  induction l as [| x rest IH]; simpl.
  - apply perm_nil.
  - apply Permutation_trans with (x :: JS.sort compare rest).
    + apply insert_Permutation.
    + now apply perm_skip.
Qed.

Lemma sort_In (l : list A) (x : A) : In x (JS.sort compare l) <-> In x l.
Proof.
  split; apply Permutation_in;
    [ apply sort_Permutation | apply Permutation_sym, sort_Permutation ].
Qed.

(** On a domain [dom] where the comparator decides an order [ord], the
    sort puts the list in that order. *)
Variable dom : A -> Prop.
Variable ord : A -> A -> Prop.
Hypothesis smaller_first : forall x y, dom x -> dom y ->
  JS.before compare y x = true -> ord y x.
Hypothesis otherwise_kept : forall x y, dom x -> dom y ->
  JS.before compare y x = false -> ord x y.

Lemma insert_HdRel (z x : A) (l : list A) :
  ord z x -> HdRel ord z l -> HdRel ord z (JS.insert compare x l).
Proof.
  intros Hzx Hl. destruct l as [| y rest]; simpl.
  - now constructor.
  - destruct (JS.before compare y x); constructor; trivial.
    now inversion Hl.
Qed.

Lemma insert_Sorted (x : A) (l : list A) :
  dom x -> Forall dom l -> Sorted ord l -> Sorted ord (JS.insert compare x l).
Proof.
  intros Hx Hdom Hsorted. induction Hsorted as [| y rest Hrest IH Hhd]; simpl.
  - repeat constructor.
  - inversion Hdom as [| ? ? Hy Hdom']; subst.
    destruct (JS.before compare y x) eqn:E.
    + constructor.
      * now apply IH.
      * apply insert_HdRel; trivial. now apply smaller_first.
    + constructor.
      * now constructor.
      * constructor. now apply otherwise_kept.
Qed.

Lemma sort_Sorted (l : list A) : Forall dom l -> Sorted ord (JS.sort compare l).
Proof.
  induction l as [| x rest IH]; simpl; intros Hdom.
  - constructor.
  - inversion Hdom as [| ? ? Hx Hrest]; subst.
    apply insert_Sorted; auto.
    rewrite Forall_forall in *. intros y Hy.
    apply Hrest. now apply sort_In.
Qed.

End Sorting.

End SortFacts.

(** ** The proximity query *)

Module ProximityFacts.

Import AircraftService Spec.

Lemma le_iff (x y : Q) : JS.le (Some x) (Some y) = true <-> x <= y.
Proof. simpl. apply Qle_bool_iff. Qed.

Lemma gt_iff (x y : Q) : JS.gt (Some x) (Some y) = true <-> y < x.
Proof.
  simpl. rewrite negb_true_iff, <- not_true_iff_false, Qle_bool_iff.
  split; [apply Qnot_le_lt | apply Qlt_not_le].
Qed.

Lemma le_number (a b : JS.number) :
  JS.le a b = true -> exists x y, a = Some x /\ b = Some y /\ x <= y.
Proof.
  destruct a as [x |], b as [y |]; simpl; try discriminate.
  intros H. exists x, y. repeat split. now apply Qle_bool_iff.
Qed.

Lemma gt_number (a : JS.number) (k : Q) :
  JS.gt a (Some k) = true <-> exists h, a = Some h /\ k < h.
Proof.
  destruct a as [h |].
  - rewrite gt_iff. split.
    + intros H. now exists h.
    + intros [h' [E H]]. now inversion E; subst.
  - simpl. split; [discriminate | intros [h [E _]]; discriminate].
Qed.

Lemma visible_orb (radiusKm : Q) (a : Nearby) :
  visible radiusKm a =
  within_requested_radius radiusKm a || within_local_area a || very_high_flying a
  || reasonably_close radiusKm a || high_and_moderately_close a.
Proof.
  unfold visible.
  destruct (within_requested_radius radiusKm a), (within_local_area a),
    (very_high_flying a), (reasonably_close radiusKm a),
    (high_and_moderately_close a); reflexivity.
Qed.

Lemma visible_iff (radiusKm : Q) (a : Nearby) :
  visible radiusKm a = true <-> some_tier_holds radiusKm a.
Proof.
  rewrite visible_orb, !orb_true_iff.
  unfold within_requested_radius, within_local_area, very_high_flying,
    reasonably_close, high_and_moderately_close, some_tier_holds, above.
  rewrite !andb_true_iff, !gt_number.
  destruct (distance_km a) as [d |]; simpl JS.mul.
  - rewrite !le_iff. split.
    + intros H. exists d. split; [reflexivity | tauto].
    + intros [d' [E H]]. inversion E; subst d'. tauto.
  - simpl. split.
    + intros H. exfalso. intuition discriminate.
    + intros [d [E _]]. discriminate.
Qed.

Lemma visible_has_distance (radiusKm : Q) (a : Nearby) :
  visible radiusKm a = true -> exists d, distance_km a = Some d.
Proof.
  rewrite visible_iff. intros [d [E _]]. now exists d.
Qed.

Lemma by_distance_smaller_first (x y : Nearby) :
  (exists d, distance_km x = Some d) -> (exists d, distance_km y = Some d) ->
  JS.before by_distance y x = true -> ascending y x.
Proof.
  intros [dx Ex] [dy Ey]. unfold JS.before, by_distance, ascending.
  rewrite Ex, Ey. simpl JS.sub. rewrite gt_iff, le_iff. Lqa.lra.
Qed.

Lemma by_distance_otherwise_kept (x y : Nearby) :
  (exists d, distance_km x = Some d) -> (exists d, distance_km y = Some d) ->
  JS.before by_distance y x = false -> ascending x y.
Proof.
  intros [dx Ex] [dy Ey]. unfold JS.before, by_distance, ascending.
  rewrite Ex, Ey. simpl JS.sub. rewrite le_iff.
  intros H. destruct (Qlt_le_dec dy dx) as [Hlt | Hle]; [| exact Hle].
  exfalso. rewrite <- not_true_iff_false in H. apply H.
  apply gt_iff. Lqa.lra.
Qed.

Lemma ascending_trans (a b c : Nearby) : ascending a b -> ascending b c -> ascending a c.
Proof.
  unfold ascending. intros Hab Hbc.
  destruct (le_number _ _ Hab) as [x [y [Ea [Eb Hxy]]]].
  destruct (le_number _ _ Hbc) as [y' [z [Eb' [Ec Hyz]]]].
  rewrite Ea, Ec. apply le_iff. rewrite Eb in Eb'. inversion Eb'; subst y'.
  now apply Qle_trans with y.
Qed.

Lemma In_firstn (A : Type) (n : nat) (l : list A) (x : A) : In x (firstn n l) -> In x l.
Proof.
  revert l. induction n as [| n IH]; intros [| y l]; simpl; try tauto.
  intros [E | H]; [now left | right; now apply IH].
Qed.

(** The candidates are flying rows of the table, and all of them when
    there are at most a thousand. *)
Lemma select_flying_sound (db : Database.t) (r : Database.Row) :
  In r (select_flying db) -> In r (Database.aircraft db) /\ flying r = true.
Proof.
  unfold select_flying, Database.order_by_last_updated_desc. intros H.
  apply In_firstn, SortFacts.sort_In, in_rev in H. now apply filter_In.
Qed.

Lemma select_flying_complete (db : Database.t) (r : Database.Row) :
  (List.length (filter flying (Database.aircraft db)) <= 1000)%nat ->
  In r (Database.aircraft db) -> flying r = true -> In r (select_flying db).
Proof.
  unfold select_flying, Database.order_by_last_updated_desc. intros Hsize Hr Hflying.
  rewrite firstn_all2.
  - apply SortFacts.sort_In. rewrite <- in_rev. now apply filter_In.
  - rewrite (Permutation_length (SortFacts.sort_Permutation _ _)), length_rev. exact Hsize.
Qed.

End ProximityFacts.

(** C1: the nearby query returns exactly the candidates of the scan
    for which one of the five tiers holds, each with its computed distance,
    and returns them sorted ascending by [distance_km]; the candidates are
    flying rows of the table. *)
Theorem getAircraftNearLocation_tiers_sorted :
  forall (calculateDistance : JS.number -> JS.number -> JS.number -> JS.number -> JS.number)
         (lat lon radius_km : Q) (db : Database.t),
    let candidates :=
      map (AircraftService.with_distance calculateDistance lat lon)
          (AircraftService.select_flying db) in
    let result :=
      AircraftService.getAircraftNearLocation calculateDistance lat lon radius_km db in
    (forall a, In a result <->
               In a candidates /\ Spec.some_tier_holds radius_km a)
    /\ StronglySorted Spec.ascending result
    /\ (forall r, In r (AircraftService.select_flying db) ->
                  In r (Database.aircraft db) /\ AircraftService.flying r = true).
Proof.
  intros calculateDistance lat lon radius_km db candidates result.
  split; [| split; [| apply ProximityFacts.select_flying_sound]].
  - intros a. unfold result, AircraftService.getAircraftNearLocation.
    rewrite SortFacts.sort_In, filter_In, ProximityFacts.visible_iff.
    reflexivity.
  - apply Sorted_StronglySorted.
    + intros a b c. apply ProximityFacts.ascending_trans.
    + unfold result, AircraftService.getAircraftNearLocation.
      apply SortFacts.sort_Sorted
        with (dom := fun a => exists d, AircraftService.distance_km a = Some d).
      * apply ProximityFacts.by_distance_smaller_first.
      * apply ProximityFacts.by_distance_otherwise_kept.
      * apply Forall_forall. intros a Ha. apply filter_In in Ha.
        destruct Ha as [_ Ha]. now apply ProximityFacts.visible_has_distance in Ha.
Qed.

Lemma getAircraftNearLocation_tiers_sorted_witness :
  let calculateDistance : JS.number -> JS.number -> JS.number -> JS.number -> JS.number :=
    fun _ _ _ _ => Some 50 in
  let r := {| Database.id := 1;
              Database.columns :=
                {| icao24 := Sqlite.Text "3c6444"; callsign := Sqlite.Text "DLH9LF";
                   origin_country := Sqlite.Text "Germany";
                   time_position := Sqlite.Numeric 1700000000;
                   time_velocity := Sqlite.Numeric 1700000000;
                   longitude := Sqlite.Numeric (-73.5); latitude := Sqlite.Numeric 40.9;
                   altitude := Sqlite.Numeric 9000; on_ground := Sqlite.Numeric 0;
                   velocity := Sqlite.Numeric 230.5; true_track := Sqlite.Numeric 270;
                   vertical_rate := Sqlite.Null; sensors := Sqlite.Null;
                   geo_altitude := Sqlite.Numeric 9100; squawk := Sqlite.Text "1000";
                   spi := Sqlite.Numeric 0; position_source := Sqlite.Null;
                   category := Sqlite.Null |};
              Database.last_updated := 1700000000%Z |} in
  let db := {| Database.aircraft := [r]; Database.sequence := 1 |} in
  In (AircraftService.with_distance calculateDistance 40.7128 (-74.006) r)
     (AircraftService.getAircraftNearLocation calculateDistance 40.7128 (-74.006) 100 db)
  /\ AircraftService.flying r = true.
Proof.
  intros calculateDistance r db.
  destruct (getAircraftNearLocation_tiers_sorted calculateDistance 40.7128 (-74.006) 100 db)
    as [Hin [_ Hflying]].
  split.
  - apply Hin. split.
    + left. reflexivity.
    + exists 50. split; [reflexivity |]. left. discriminate.
  - apply (Hflying r). left. reflexivity.
Defined.

(** C2, as the specification states it, fails for the very radius of its
    second case: with [radius_km + 0.01 = 300] the candidate at 300 km and
    8000 m does not pass the moderate-altitude tier, and the candidate at
    301 km and 8000 m is included. *)
Lemma visibility_boundary_counterexample :
  let radius_km := 29999 # 100 in
  radius_km + 0.01 == 300
  /\ AircraftService.high_and_moderately_close (candidate_at 300 8000) = false
  /\ AircraftService.visible radius_km (candidate_at 301 8000) = true.
Proof. repeat split. Qed.

(** C2, amended: a candidate at exactly [radius_km] is included; the
    candidate at 300 km = [radius_km + 0.01] and 8000 m is included, by the
    margin of twice the radius and not by the moderate-altitude tier, which
    asks for an altitude strictly above 8000 m; a candidate at 301 km and
    8000 m is excluded exactly when twice the radius is below 301 km. *)
Theorem visibility_boundary :
  (forall (radius_km : Q) (a : AircraftService.Nearby),
      AircraftService.distance_km a = Some radius_km ->
      AircraftService.visible radius_km a = true)
  /\ (forall (radius_km d h : Q) (a : AircraftService.Nearby),
         AircraftService.distance_km a = Some d ->
         AircraftService.altitude_of a = Some h ->
         d == radius_km + 0.01 -> d == 300 -> h == 8000 ->
         AircraftService.visible radius_km a = true
         /\ AircraftService.reasonably_close radius_km a = true
         /\ AircraftService.high_and_moderately_close a = false)
  /\ (forall (radius_km d h : Q) (a : AircraftService.Nearby),
         AircraftService.distance_km a = Some d ->
         AircraftService.altitude_of a = Some h ->
         d == 301 -> h == 8000 ->
         (AircraftService.visible radius_km a = false <-> radius_km * 2 < 301)).
Proof.
  split; [| split].
  - intros radius_km a Hd.
    rewrite ProximityFacts.visible_orb.
    unfold AircraftService.within_requested_radius. rewrite Hd.
    assert (E : JS.le (Some radius_km) (Some radius_km) = true)
      by (apply ProximityFacts.le_iff; Lqa.lra).
    now rewrite E.
  - intros radius_km d h a Hd Hh Hr H300 H8000.
    assert (Hclose : AircraftService.reasonably_close radius_km a = true).
    { unfold AircraftService.reasonably_close. rewrite Hd. simpl JS.mul.
      apply ProximityFacts.le_iff. Lqa.lra. }
    split; [| split]; trivial.
    + rewrite ProximityFacts.visible_orb, Hclose.
      now rewrite !orb_true_r.
    + unfold AircraftService.high_and_moderately_close. rewrite Hh.
      apply andb_false_iff. left.
      apply not_true_iff_false. rewrite ProximityFacts.gt_iff. Lqa.lra.
  - intros radius_km d h a Hd Hh H301 H8000.
    rewrite <- not_true_iff_false, ProximityFacts.visible_iff.
    unfold Spec.some_tier_holds, Spec.above.
    rewrite Hd, Hh. split.
    + intros Hnone. destruct (Qlt_le_dec (radius_km * 2) 301) as [Hlt | Hle]; trivial.
      exfalso. apply Hnone. exists d. split; trivial.
      right; right; right; left. Lqa.lra.
    + intros Hlt [d' [E Htier]]. inversion E; subst d'.
      destruct Htier as [H | [H | [[[h' [E' H]] _] | [H | [[h' [E' H]] _]]]]];
        try (inversion E'; subst h'); Lqa.lra.
Qed.

Lemma visibility_boundary_witness :
  AircraftService.visible 100 (candidate_at 100 5000) = true
  /\ (AircraftService.visible (29999 # 100) (candidate_at 300 8000) = true
      /\ AircraftService.reasonably_close (29999 # 100) (candidate_at 300 8000) = true
      /\ AircraftService.high_and_moderately_close (candidate_at 300 8000) = false)
  /\ (AircraftService.visible 100 (candidate_at 301 8000) = false <-> 100 * 2 < 301).
Proof.
  destruct visibility_boundary as [Hexact [Hmargin Hfar]].
  split; [| split].
  - apply Hexact. reflexivity.
  - apply (Hmargin (29999 # 100) 300 8000); reflexivity.
  - apply (Hfar 100 301 8000); reflexivity.
Defined.

(** ** The aircraft table *)

Module StoreFacts.

Import AircraftService Spec.

Lemma same_key_sym (a b : Sqlite.cell) : Sqlite.same_key a b = Sqlite.same_key b a.
Proof.
  destruct a as [| p | s], b as [| q | t]; simpl; trivial.
  - destruct (Qeq_bool p q) eqn:E.
    + symmetry. now apply Qeq_bool_sym.
    + destruct (Qeq_bool q p) eqn:E'; trivial.
      apply Qeq_bool_sym in E'. congruence.
  - apply String.eqb_sym.
Qed.

Lemma same_key_trans (a b c : Sqlite.cell) :
  Sqlite.same_key a b = true -> Sqlite.same_key b c = true -> Sqlite.same_key a c = true.
Proof.
  destruct a as [| p | s], b as [| q | t], c as [| r | u]; simpl; try discriminate.
  - apply Qeq_bool_trans.
  - rewrite !String.eqb_eq. congruence.
Qed.

Lemma same_key_refl (a : Sqlite.cell) :
  Sqlite.is_not_null a = true -> Sqlite.same_key a a = true.
Proof.
  destruct a as [| p | s]; simpl; try discriminate; intros _.
  - apply Qeq_bool_refl.
  - apply String.eqb_refl.
Qed.

Lemma bind_truthy (v : JS.value) :
  JS.truthy v = true -> Sqlite.is_not_null (Sqlite.bind v) = true.
Proof. destruct v; simpl; trivial. Qed.

Lemma storable_key (a : Aircraft) :
  storable a = true -> Sqlite.same_key (icao24 (parameters a)) (icao24 (parameters a)) = true.
Proof.
  unfold storable. rewrite !andb_true_iff. intros [[Hkey _] _].
  apply same_key_refl. now apply bind_truthy.
Qed.

Section Replace.
Variable now : Timestamp.
Variable values : Fields Sqlite.cell.
Variable db : Database.t.

Let fresh_row : Database.Row :=
  {| Database.id := (Database.sequence db + 1)%Z;
     Database.columns := values;
     Database.last_updated := now |}.

Lemma rows_with_replaced (k : Sqlite.cell) :
  Sqlite.same_key (icao24 values) k = true ->
  rows_with k (Database.insert_or_replace now values db) = [fresh_row].
Proof.
  intros Hk. unfold rows_with, Database.insert_or_replace. simpl.
  rewrite filter_app. unfold Database.key. cbn [filter Database.columns]. rewrite Hk.
  replace (filter _ (filter _ (Database.aircraft db))) with (@nil Database.Row); trivial.
  symmetry. induction (Database.aircraft db) as [| r rest IH]; simpl; trivial.
  destruct (Sqlite.same_key (icao24 (Database.columns r)) (icao24 values)) eqn:E;
    simpl; trivial.
  destruct (Sqlite.same_key (icao24 (Database.columns r)) k) eqn:E'; trivial.
  rewrite same_key_sym in Hk.
  rewrite (same_key_trans _ _ _ E' Hk) in E. discriminate.
Qed.

Lemma rows_with_untouched (k : Sqlite.cell) :
  Sqlite.same_key (icao24 values) k = false ->
  rows_with k (Database.insert_or_replace now values db) = rows_with k db.
Proof.
  intros Hk. unfold rows_with, Database.insert_or_replace. simpl.
  rewrite filter_app. unfold Database.key. cbn [filter Database.columns].
  rewrite Hk, app_nil_r.
  induction (Database.aircraft db) as [| r rest IH]; simpl; trivial.
  destruct (Sqlite.same_key (icao24 (Database.columns r)) (icao24 values)) eqn:E; simpl.
  - destruct (Sqlite.same_key (icao24 (Database.columns r)) k) eqn:E'; trivial.
    rewrite same_key_sym in E.
    rewrite (same_key_trans _ _ _ E E') in Hk. discriminate.
  - now rewrite IH.
Qed.

Lemma replace_keeps_one_row_per_key :
  one_row_per_key db -> one_row_per_key (Database.insert_or_replace now values db).
Proof.
  intros Hdb k. destruct (Sqlite.same_key (icao24 values) k) eqn:E.
  - now rewrite rows_with_replaced.
  - rewrite rows_with_untouched; trivial.
Qed.

End Replace.

Lemma forEach_keeps_one_row_per_key (clock : nat -> Timestamp) (batch : list Aircraft) :
  forall (i : nat) (db : Database.t),
    one_row_per_key db -> one_row_per_key (forEach_from i clock batch db).
Proof.
  induction batch as [| a rest IH]; simpl; intros i db Hdb; trivial.
  apply IH. destruct (storable a); trivial.
  now apply replace_keeps_one_row_per_key.
Qed.

Lemma cycle_store (w : World) (db : Database.t) :
  store (fetchAircraftData w db) = db
  \/ exists batch, store (fetchAircraftData w db) = updateDatabase (clock w) batch db.
Proof.
  unfold fetchAircraftData.
  destruct (0 <? List.length (fetchFromOpenSky w))%nat; simpl; eauto.
  destruct (JS.env_truthy (AVIATION_API_KEY w)); simpl; eauto.
  destruct (0 <? List.length (fetchFromAviationStack w))%nat; simpl; eauto.
Qed.

Lemma cycle_keeps_one_row_per_key (w : World) (db : Database.t) :
  one_row_per_key db -> one_row_per_key (store (fetchAircraftData w db)).
Proof.
  intros Hdb. destruct (cycle_store w db) as [E | [batch E]]; rewrite E; trivial.
  now apply forEach_keeps_one_row_per_key.
Qed.

End StoreFacts.

(** C7: after any sequence of ingestion cycles on a fresh table there
    is at most one row per [icao24]; a write leaves exactly one row for
    its key, the row it wrote, stamped with the time of the write, and
    leaves the rows of other keys alone; writing over an existing key does
    not change the number of rows; the same observation ingested twice
    leaves one row, stamped with the later write. *)
Theorem upsert_one_row_per_icao24 :
  (forall worlds : list AircraftService.World,
      Spec.one_row_per_key
        (fold_left (fun db w => AircraftService.store (AircraftService.fetchAircraftData w db))
                   worlds (Database.initializeDatabase None)))
  /\ (forall (now : Timestamp) (a : Aircraft) (db : Database.t),
         AircraftService.storable a = true ->
         Spec.rows_with (icao24 (AircraftService.parameters a))
                              (AircraftService.stmt_run now a db)
         = [ {| Database.id := (Database.sequence db + 1)%Z;
                Database.columns := AircraftService.parameters a;
                Database.last_updated := now |} ]
         /\ (forall k, Sqlite.same_key (icao24 (AircraftService.parameters a)) k = false ->
                       Spec.rows_with k (AircraftService.stmt_run now a db)
                       = Spec.rows_with k db))
  /\ (forall (now : Timestamp) (a : Aircraft) (db : Database.t),
         AircraftService.storable a = true ->
         List.length (Spec.rows_with (icao24 (AircraftService.parameters a)) db) = 1%nat ->
         List.length (Database.aircraft (AircraftService.stmt_run now a db))
         = List.length (Database.aircraft db))
  /\ (forall (first second : nat -> Timestamp) (a : Aircraft) (db : Database.t),
         AircraftService.storable a = true ->
         Spec.rows_with (icao24 (AircraftService.parameters a))
           (AircraftService.updateDatabase second [a]
              (AircraftService.updateDatabase first [a] db))
         = [ {| Database.id := (Database.sequence db + 1 + 1)%Z;
                Database.columns := AircraftService.parameters a;
                Database.last_updated := second 0%nat |} ]).
Proof.
  split; [| split; [| split]].
  - intros worlds.
    assert (Hfresh : Spec.one_row_per_key (Database.initializeDatabase None))
      by (intros k; unfold Spec.rows_with; simpl; lia).
    revert Hfresh. generalize (Database.initializeDatabase None).
    induction worlds as [| w rest IH]; simpl; intros db Hdb; trivial.
    apply IH. now apply StoreFacts.cycle_keeps_one_row_per_key.
  - intros now a db Ha. split.
    + unfold AircraftService.stmt_run.
      apply StoreFacts.rows_with_replaced. now apply StoreFacts.storable_key.
    + intros k Hk. unfold AircraftService.stmt_run.
      now apply StoreFacts.rows_with_untouched.
  - intros now a db Ha Hone.
    unfold AircraftService.stmt_run, Database.insert_or_replace.
    cbn [Database.aircraft]. rewrite length_app. cbn [List.length].
    rewrite <- (filter_length
                  (fun r => Sqlite.same_key (Database.key r) (icao24 (AircraftService.parameters a)))
                  (Database.aircraft db)).
    cbv beta. unfold Spec.rows_with in Hone. rewrite Hone. lia.
  - intros first second a db Ha.
    unfold AircraftService.updateDatabase. simpl. rewrite Ha.
    unfold AircraftService.stmt_run.
    rewrite StoreFacts.rows_with_replaced by now apply StoreFacts.storable_key.
    reflexivity.
Qed.

Lemma upsert_one_row_per_icao24_witness :
  AircraftService.storable (record_of cruising) = true
  /\ List.length
       (Spec.rows_with (Sqlite.Text "3c6444")
          (AircraftService.updateDatabase noon [record_of cruising] Database.empty)) = 1%nat
  /\ List.length
       (Database.aircraft
          (AircraftService.stmt_run 1700000030%Z (record_of parked)
             (AircraftService.updateDatabase noon [record_of cruising] Database.empty)))
     = 1%nat
  /\ map Database.last_updated
       (Spec.rows_with (Sqlite.Text "3c6444")
          (AircraftService.updateDatabase (fun _ => 1700000030%Z) [record_of cruising]
             (AircraftService.updateDatabase noon [record_of cruising] Database.empty)))
     = [1700000030%Z].
Proof.
  destruct upsert_one_row_per_icao24 as [_ [Hwrite [Hsize Htwice]]].
  split; [reflexivity | split; [| split]].
  - change (AircraftService.updateDatabase noon [record_of cruising] Database.empty)
      with (AircraftService.stmt_run 1700000000%Z (record_of cruising) Database.empty).
    change (Sqlite.Text "3c6444") with (icao24 (AircraftService.parameters (record_of cruising))).
    destruct (Hwrite 1700000000%Z (record_of cruising) Database.empty) as [E _];
      [reflexivity |].
    now rewrite E.
  - rewrite (Hsize 1700000030%Z (record_of parked)); reflexivity.
  - change (Sqlite.Text "3c6444") with (icao24 (AircraftService.parameters (record_of cruising))).
    rewrite (Htwice noon (fun _ => 1700000030%Z) (record_of cruising) Database.empty);
      reflexivity.
Defined.

(** Two scenarios of the specification: a query on an empty table returns
    the empty list, and a table with one airborne aircraft, 50 km away at
    10972.8 m, returns that aircraft with its distance. *)
Example nearby_on_empty_table :
  forall (calculateDistance : JS.number -> JS.number -> JS.number -> JS.number -> JS.number)
         (lat lon radius_km : Q),
    AircraftService.getAircraftNearLocation calculateDistance lat lon radius_km Database.empty = [].
Proof. reflexivity. Qed.

Example nearby_single_aircraft :
  map (fun a => (icao24 (Database.columns (AircraftService.row a)), AircraftService.distance_km a))
      (AircraftService.getAircraftNearLocation (fun _ _ _ _ => Some 50) 40.7128 (-74.006) 100
         (AircraftService.updateDatabase noon [record_of cruising] Database.empty))
  = [(Sqlite.Text "3c6444", Some 50)].
Proof. reflexivity. Qed.

(** ** Normalisation *)

Module NormalizerFacts.

Import AircraftService.

(** The fields of a transformed state vector that the properties below
    look at. *)
Lemma transformOpenSkyData_fields (state : StateVector) (a : Aircraft) :
  transformOpenSkyData state = Some a ->
  icao24 a = JS.index state 0
  /\ longitude a = JS.or (JS.index state 5) JS.JNull
  /\ latitude a = JS.or (JS.index state 6) JS.JNull
  /\ altitude a = JS.or (JS.index state 7) JS.JNull
  /\ velocity a = JS.or (JS.index state 9) JS.JNull.
Proof.
  unfold transformOpenSkyData.
  destruct (if JS.truthy (JS.index state 12) then JS.join (JS.index state 12) "," else Some JS.JNull);
    [| discriminate].
  intros E. inversion E; subst a. simpl. repeat split.
Qed.

Lemma or_null_zero (q : Q) : q == 0 -> JS.or (JS.JNum q) JS.JNull = JS.JNull.
Proof.
  intros Hq. unfold JS.or. simpl.
  apply Qeq_bool_iff in Hq. now rewrite Hq.
Qed.

Lemma or_null_nonzero (q : Q) : ~ q == 0 -> JS.or (JS.JNum q) JS.JNull = JS.JNum q.
Proof.
  intros Hq. unfold JS.or. simpl.
  destruct (Qeq_bool q 0) eqn:E; trivial.
  apply Qeq_bool_iff in E. contradiction.
Qed.

Lemma not_storable_without_latitude (a : Aircraft) :
  JS.truthy (latitude a) = false -> storable a = false.
Proof.
  intros H. unfold storable. rewrite H. now rewrite andb_false_r.
Qed.

Lemma not_storable_without_longitude (a : Aircraft) :
  JS.truthy (longitude a) = false -> storable a = false.
Proof.
  intros H. unfold storable. rewrite H. now rewrite andb_false_r.
Qed.

Lemma skipped (a : Aircraft) :
  storable a = false ->
  forall (i : nat) (clock : nat -> Timestamp) (rest : list Aircraft) (db : Database.t),
    forEach_from i clock (a :: rest) db = forEach_from (S i) clock rest db.
Proof. intros H i clock rest db. simpl. now rewrite H. Qed.

End NormalizerFacts.

(** C9: an observation whose longitude or latitude is the number 0 is
    never written.  Both transformations turn the coordinate into [null],
    the filter of [updateDatabase] rejects a record whose coordinate is the
    number 0 or [null], and the batch goes on as if the record were not
    there. *)
Theorem zero_coordinate_never_written :
  (forall (state : AircraftService.StateVector) (a : Aircraft) (q : Q),
      AircraftService.transformOpenSkyData state = Some a ->
      JS.index state 5 = JS.JNum q \/ JS.index state 6 = JS.JNum q ->
      q == 0 ->
      (longitude a = JS.JNull \/ latitude a = JS.JNull)
      /\ AircraftService.storable a = false)
  /\ (forall (f : AircraftService.Flight) (d : AircraftService.FlightDeparture) (q : Q),
         AircraftService.departure f = Some d ->
         AircraftService.departure_longitude d = JS.JNum q
         \/ AircraftService.departure_latitude d = JS.JNum q ->
         q == 0 ->
         AircraftService.storable (AircraftService.transformAviationStackData f) = false)
  /\ (forall (a : Aircraft) (q : Q),
         longitude a = JS.JNum q \/ latitude a = JS.JNum q ->
         q == 0 ->
         AircraftService.storable a = false)
  /\ (forall a : Aircraft,
         AircraftService.storable a = false ->
         forall (i : nat) (clock : nat -> Timestamp) (rest : list Aircraft) (db : Database.t),
           AircraftService.forEach_from i clock (a :: rest) db
           = AircraftService.forEach_from (S i) clock rest db).
Proof.
  split; [| split; [| split]].
  - intros state a q Ha Hcoord Hq.
    destruct (NormalizerFacts.transformOpenSkyData_fields _ Ha)
      as [_ [Hlon [Hlat _]]].
    destruct Hcoord as [E | E]; rewrite E, (NormalizerFacts.or_null_zero Hq) in *.
    + split; [now left |].
      apply NormalizerFacts.not_storable_without_longitude. now rewrite Hlon.
    + split; [now right |].
      apply NormalizerFacts.not_storable_without_latitude. now rewrite Hlat.
  - intros f d q Hd Hcoord Hq. destruct Hcoord as [E | E].
    + apply NormalizerFacts.not_storable_without_longitude. simpl.
      rewrite Hd. simpl. now rewrite E, (NormalizerFacts.or_null_zero Hq).
    + apply NormalizerFacts.not_storable_without_latitude. simpl.
      rewrite Hd. simpl. now rewrite E, (NormalizerFacts.or_null_zero Hq).
  - intros a q Hcoord Hq. apply Qeq_bool_iff in Hq. destruct Hcoord as [E | E].
    + apply NormalizerFacts.not_storable_without_longitude. rewrite E. simpl.
      now rewrite Hq.
    + apply NormalizerFacts.not_storable_without_latitude. rewrite E. simpl.
      now rewrite Hq.
  - exact NormalizerFacts.skipped.
Qed.

Lemma zero_coordinate_never_written_witness :
  AircraftService.storable (record_of over_the_equator) = false
  /\ AircraftService.storable
       (AircraftService.transformAviationStackData (flight_at "406a93" 0 51.4779)) = false
  /\ AircraftService.storable on_the_meridian = false
  /\ AircraftService.updateDatabase noon [record_of over_the_equator; record_of cruising]
       Database.empty
     = AircraftService.forEach_from 1 noon [record_of cruising] Database.empty.
Proof.
  destruct zero_coordinate_never_written as [Hopensky [Hflight [Hrecord Hskip]]].
  assert (Hdrop : AircraftService.storable (record_of over_the_equator) = false).
  { apply (Hopensky over_the_equator (record_of over_the_equator) 0).
    - reflexivity.
    - right. reflexivity.
    - reflexivity. }
  split; [exact Hdrop | split; [| split]].
  - eapply (Hflight (flight_at "406a93" 0 51.4779) _ 0).
    + reflexivity.
    + left. reflexivity.
    + reflexivity.
  - apply (Hrecord on_the_meridian 0).
    + left. reflexivity.
    + reflexivity.
  - apply (Hskip (record_of over_the_equator) Hdrop 0%nat noon).
Defined.

(** What [|| null] does to the altitude and the velocity of a state
    vector: a number other than 0 is kept, and bound as it is; the number
    0 becomes [null], and is bound as NULL. *)
Lemma altitude_and_velocity_when_truthy :
  forall (state : AircraftService.StateVector) (a : Aircraft),
    AircraftService.transformOpenSkyData state = Some a ->
    (forall q : Q, JS.index state 7 = JS.JNum q ->
        (~ q == 0 -> altitude a = JS.JNum q
                     /\ altitude (AircraftService.parameters a) = Sqlite.Numeric q)
        /\ (q == 0 -> altitude a = JS.JNull
                      /\ altitude (AircraftService.parameters a) = Sqlite.Null))
    /\ (forall q : Q, JS.index state 9 = JS.JNum q ->
           (~ q == 0 -> velocity a = JS.JNum q
                        /\ velocity (AircraftService.parameters a) = Sqlite.Numeric q)
           /\ (q == 0 -> velocity a = JS.JNull
                         /\ velocity (AircraftService.parameters a) = Sqlite.Null)).
Proof.
  intros state a Ha.
  destruct (NormalizerFacts.transformOpenSkyData_fields _ Ha)
    as [_ [_ [_ [Halt Hvel]]]].
  split.
  - intros q E. rewrite E in Halt. split; intros Hq.
    + rewrite (NormalizerFacts.or_null_nonzero Hq) in Halt.
      simpl. now rewrite Halt.
    + rewrite (NormalizerFacts.or_null_zero Hq) in Halt.
      simpl. now rewrite Halt.
  - intros q E. rewrite E in Hvel. split; intros Hq.
    + rewrite (NormalizerFacts.or_null_nonzero Hq) in Hvel.
      simpl. now rewrite Hvel.
    + rewrite (NormalizerFacts.or_null_zero Hq) in Hvel.
      simpl. now rewrite Hvel.
Qed.

(** C3 does not hold of the code.  The state vector of a parked aircraft
    has altitude 0 and velocity 0; its record is stored, the
    transformation has turned both into [null], and both cells of the row
    are NULL. *)
Theorem zero_altitude_is_stored_as_null :
  JS.index parked 7 = JS.JNum 0
  /\ JS.index parked 9 = JS.JNum 0
  /\ exists a : Aircraft,
       AircraftService.transformOpenSkyData parked = Some a
       /\ AircraftService.storable a = true
       /\ altitude a = JS.JNull
       /\ velocity a = JS.JNull
       /\ map (fun r => (altitude (Database.columns r), velocity (Database.columns r)))
              (Database.aircraft (AircraftService.updateDatabase noon [a] Database.empty))
          = [(Sqlite.Null, Sqlite.Null)].
Proof.
  split; [reflexivity | split; [reflexivity |]].
  exists (record_of parked). repeat split.
Qed.

(** ** The fetch cycle *)

Module CycleFacts.

Import AircraftService.

Lemma nonempty_iff (A : Type) (l : list A) : (0 <? List.length l)%nat = false <-> l = [].
Proof. destruct l; unfold Nat.ltb; simpl; split; congruence. Qed.

Lemma primary_unavailable (w : World) : opensky w = Unavailable -> fetchFromOpenSky w = [].
Proof. intros E. unfold fetchFromOpenSky. now rewrite E. Qed.

Lemma secondary_unavailable (w : World) :
  aviationstack w = Unavailable -> fetchFromAviationStack w = [].
Proof. intros E. unfold fetchFromAviationStack. now rewrite E. Qed.

(** The three ways a cycle can go. *)
Lemma primary_wins (w : World) (db : Database.t) :
  fetchFromOpenSky w <> [] ->
  fetchAircraftData w db =
  {| store := updateDatabase (clock w) (fetchFromOpenSky w) db;
     requests := [OpenSky];
     report := Updated (List.length (fetchFromOpenSky w)) OpenSky |}.
Proof.
  intros H. unfold fetchAircraftData.
  destruct (0 <? List.length (fetchFromOpenSky w))%nat eqn:E; trivial.
  apply nonempty_iff in E. contradiction.
Qed.

Lemma secondary_asked (w : World) (db : Database.t) :
  fetchFromOpenSky w = [] ->
  JS.env_truthy (AVIATION_API_KEY w) = true ->
  store (fetchAircraftData w db) = updateDatabase (clock w) (fetchFromAviationStack w) db
  /\ requests (fetchAircraftData w db) = [OpenSky; AviationStack].
Proof.
  intros Hprimary Hkey. unfold fetchAircraftData. rewrite Hprimary, Hkey. simpl.
  destruct (0 <? List.length (fetchFromAviationStack w))%nat eqn:E; simpl; split; trivial.
  apply nonempty_iff in E. now rewrite E.
Qed.

Lemma secondary_not_asked (w : World) (db : Database.t) :
  fetchFromOpenSky w = [] ->
  JS.env_truthy (AVIATION_API_KEY w) = false ->
  fetchAircraftData w db = {| store := db; requests := [OpenSky]; report := NoData |}.
Proof.
  intros Hprimary Hkey. unfold fetchAircraftData. now rewrite Hprimary, Hkey.
Qed.

(** Every statement that runs takes the next [id]. *)
Lemma forEach_sequence (clock : nat -> Timestamp) (batch : list Aircraft) :
  forall (i : nat) (db : Database.t),
    Database.sequence (forEach_from i clock batch db)
    = (Database.sequence db + Z.of_nat (List.length (filter storable batch)))%Z.
Proof.
  induction batch as [| a rest IH]; intros i db; simpl.
  - lia.
  - rewrite IH. destruct (storable a); simpl List.length; simpl Database.sequence; lia.
Qed.

Lemma filter_filter (A : Type) (f g : A -> bool) (l : list A) :
  filter g (filter f l) = filter (fun x => f x && g x) l.
Proof.
  induction l as [| x rest IH]; simpl; trivial.
  destruct (f x); simpl; [destruct (g x) |]; now rewrite IH.
Qed.

(** Three statements for three records with different keys: the rows of
    the three keys go, the other rows stay, and three rows are appended. *)
Lemma three_statements (clock : nat -> Timestamp) (a1 a2 a3 : Aircraft) (db : Database.t) :
  storable a1 = true -> storable a2 = true -> storable a3 = true ->
  Sqlite.same_key (icao24 (parameters a1)) (icao24 (parameters a2)) = false ->
  Sqlite.same_key (icao24 (parameters a1)) (icao24 (parameters a3)) = false ->
  Sqlite.same_key (icao24 (parameters a2)) (icao24 (parameters a3)) = false ->
  Database.aircraft (updateDatabase clock [a1; a2; a3] db)
  = filter (fun r => negb (Sqlite.same_key (Database.key r) (icao24 (parameters a1)))
                     && negb (Sqlite.same_key (Database.key r) (icao24 (parameters a2)))
                     && negb (Sqlite.same_key (Database.key r) (icao24 (parameters a3))))
           (Database.aircraft db)
    ++ [ {| Database.id := (Database.sequence db + 1)%Z;
            Database.columns := parameters a1;
            Database.last_updated := clock 0%nat |};
         {| Database.id := (Database.sequence db + 2)%Z;
            Database.columns := parameters a2;
            Database.last_updated := clock 1%nat |};
         {| Database.id := (Database.sequence db + 3)%Z;
            Database.columns := parameters a3;
            Database.last_updated := clock 2%nat |} ].
Proof.
  intros H1 H2 H3 H12 H13 H23.
  unfold updateDatabase. cbn [forEach_from]. rewrite H1, H2, H3.
  unfold stmt_run, Database.insert_or_replace. cbn [Database.aircraft Database.sequence].
  rewrite !filter_app. unfold Database.key.
  cbn [filter Database.columns]. rewrite H12. cbn [negb filter Database.columns].
  rewrite H13, H23. cbn [negb app].
  rewrite !filter_filter, <- !app_assoc. cbn [app].
  replace (Database.sequence db + 1 + 1 + 1)%Z with (Database.sequence db + 3)%Z by lia.
  replace (Database.sequence db + 1 + 1)%Z with (Database.sequence db + 2)%Z by lia.
  f_equal. apply filter_ext. intros r. now rewrite andb_assoc.
Qed.

End CycleFacts.

(** C5, as the specification states it, fails when no key is configured:
    the primary fetch fails, the secondary has three records to give, and
    the table stays empty. *)
Lemma fallback_counterexample :
  AircraftService.opensky outage_without_key = AircraftService.Unavailable
  /\ List.length (AircraftService.fetchFromAviationStack outage_without_key) = 3%nat
  /\ AircraftService.store (AircraftService.fetchAircraftData outage_without_key Database.empty)
     = Database.empty
  /\ AircraftService.store (AircraftService.fetchAircraftData outage_without_key Database.empty)
     <> AircraftService.updateDatabase (AircraftService.clock outage_without_key)
          (AircraftService.fetchFromAviationStack outage_without_key) Database.empty.
Proof.
  repeat split. intros E.
  apply (f_equal Database.sequence) in E. vm_compute in E. discriminate.
Qed.

(** C5, amended: if the primary fetch fails and AVIATION_API_KEY is
    configured, the secondary's results are the ones committed; if both
    fail or yield no records, the table after the cycle is the table
    before it. *)
Theorem fallback_when_key_configured :
  (forall (w : AircraftService.World) (db : Database.t),
      AircraftService.opensky w = AircraftService.Unavailable ->
      JS.env_truthy (AircraftService.AVIATION_API_KEY w) = true ->
      AircraftService.store (AircraftService.fetchAircraftData w db)
      = AircraftService.updateDatabase (AircraftService.clock w)
          (AircraftService.fetchFromAviationStack w) db)
  /\ (forall (w : AircraftService.World) (db : Database.t),
         AircraftService.fetchFromOpenSky w = [] ->
         AircraftService.fetchFromAviationStack w = [] ->
         AircraftService.store (AircraftService.fetchAircraftData w db) = db).
Proof.
  split.
  - intros w db Hdown Hkey.
    now apply CycleFacts.secondary_asked; [apply CycleFacts.primary_unavailable |].
  - intros w db Hprimary Hsecondary.
    destruct (JS.env_truthy (AircraftService.AVIATION_API_KEY w)) eqn:Hkey.
    + destruct (CycleFacts.secondary_asked w db Hprimary Hkey) as [E _].
      rewrite E, Hsecondary. reflexivity.
    + now rewrite CycleFacts.secondary_not_asked.
Qed.

Lemma fallback_when_key_configured_witness :
  map Database.key
      (Database.aircraft
         (AircraftService.store (AircraftService.fetchAircraftData outage_with_key Database.empty)))
  = [Sqlite.Text "3c6444"; Sqlite.Text "4b1805"; Sqlite.Text "a0b1c2"]
  /\ AircraftService.store
       (AircraftService.fetchAircraftData
          {| AircraftService.opensky := AircraftService.Unavailable;
             AircraftService.aviationstack := AircraftService.Unavailable;
             AircraftService.AVIATION_API_KEY := Some "0123456789abcdef"%string;
             AircraftService.clock := noon |}
          Database.empty)
     = Database.empty.
Proof.
  destruct fallback_when_key_configured as [Hfallback Hnone].
  split.
  - rewrite (Hfallback outage_with_key Database.empty); reflexivity.
  - apply Hnone; reflexivity.
Defined.

(** C6, as the specification states it, fails in its closing scenario:
    the primary returns an empty list and the secondary returns three
    records, one of them without a position; the cycle reports three
    records and commits two. *)
Lemma three_records_counterexample :
  let w := quiet_sky [ flight_at "3c6444" 8.57 50.03;
                       flight_at "4b1805" 8.55 47.46;
                       flight_without_position "a0b1c2" ] in
  let cycle := AircraftService.fetchAircraftData w Database.empty in
  AircraftService.opensky w = AircraftService.Responded (Some [])
  /\ List.length (AircraftService.fetchFromAviationStack w) = 3%nat
  /\ AircraftService.report cycle = AircraftService.Updated 3 AircraftService.AviationStack
  /\ Database.sequence (AircraftService.store cycle) = 2%Z
  /\ map Database.key (Database.aircraft (AircraftService.store cycle))
     = [Sqlite.Text "3c6444"; Sqlite.Text "4b1805"].
Proof. repeat split. Qed.

(** Three records of one aircraft are three statements and one row: each
    statement replaces the row of the one before. *)
Example one_aircraft_three_times :
  let w := quiet_sky [ flight_at "3c6444" 8.57 50.03;
                       flight_at "3c6444" 8.6 50.1;
                       flight_at "3c6444" 8.7 50.2 ] in
  let cycle := AircraftService.fetchAircraftData w Database.empty in
  AircraftService.report cycle = AircraftService.Updated 3 AircraftService.AviationStack
  /\ Database.sequence (AircraftService.store cycle) = 3%Z
  /\ map (fun r => (Database.id r, Database.key r))
         (Database.aircraft (AircraftService.store cycle))
     = [(3%Z, Sqlite.Text "3c6444")].
Proof. repeat split. Qed.

(** C6, amended: the cycle asks OpenSky first and, when OpenSky returns
    records, commits them and asks nobody else; when OpenSky returns none
    and AVIATION_API_KEY is configured, it asks Aviation Stack next and
    commits what that returns.  In particular, if then the secondary
    returns three records that each have an [icao24], a latitude and a
    longitude that are truthy, the [icao24]s being three different
    strings, exactly three records are committed: the table after the
    cycle is the rows of other aircraft that it held before, followed by
    one new row for each of the three records, in their order; three
    statements run and the cycle reports three records. *)
Theorem first_nonempty_adapter_wins :
  (forall (w : AircraftService.World) (db : Database.t),
      AircraftService.fetchFromOpenSky w <> [] ->
      AircraftService.store (AircraftService.fetchAircraftData w db)
      = AircraftService.updateDatabase (AircraftService.clock w)
          (AircraftService.fetchFromOpenSky w) db
      /\ AircraftService.requests (AircraftService.fetchAircraftData w db)
         = [AircraftService.OpenSky])
  /\ (forall (w : AircraftService.World) (db : Database.t),
         AircraftService.fetchFromOpenSky w = [] ->
         JS.env_truthy (AircraftService.AVIATION_API_KEY w) = true ->
         AircraftService.store (AircraftService.fetchAircraftData w db)
         = AircraftService.updateDatabase (AircraftService.clock w)
             (AircraftService.fetchFromAviationStack w) db
         /\ AircraftService.requests (AircraftService.fetchAircraftData w db)
            = [AircraftService.OpenSky; AircraftService.AviationStack])
  /\ (forall (w : AircraftService.World) (db : Database.t) (a1 a2 a3 : Aircraft)
            (s1 s2 s3 : string),
         AircraftService.fetchFromOpenSky w = [] ->
         JS.env_truthy (AircraftService.AVIATION_API_KEY w) = true ->
         AircraftService.fetchFromAviationStack w = [a1; a2; a3] ->
         AircraftService.storable a1 = true ->
         AircraftService.storable a2 = true ->
         AircraftService.storable a3 = true ->
         icao24 a1 = JS.JStr s1 -> icao24 a2 = JS.JStr s2 -> icao24 a3 = JS.JStr s3 ->
         s1 <> s2 -> s1 <> s3 -> s2 <> s3 ->
         Database.aircraft (AircraftService.store (AircraftService.fetchAircraftData w db))
         = filter (fun r =>
                     negb (Sqlite.same_key (Database.key r) (Sqlite.Text s1))
                     && negb (Sqlite.same_key (Database.key r) (Sqlite.Text s2))
                     && negb (Sqlite.same_key (Database.key r) (Sqlite.Text s3)))
                  (Database.aircraft db)
           ++ [ {| Database.id := (Database.sequence db + 1)%Z;
                   Database.columns := AircraftService.parameters a1;
                   Database.last_updated := AircraftService.clock w 0%nat |};
                {| Database.id := (Database.sequence db + 2)%Z;
                   Database.columns := AircraftService.parameters a2;
                   Database.last_updated := AircraftService.clock w 1%nat |};
                {| Database.id := (Database.sequence db + 3)%Z;
                   Database.columns := AircraftService.parameters a3;
                   Database.last_updated := AircraftService.clock w 2%nat |} ]
         /\ Database.sequence (AircraftService.store (AircraftService.fetchAircraftData w db))
            = (Database.sequence db + 3)%Z
         /\ AircraftService.report (AircraftService.fetchAircraftData w db)
            = AircraftService.Updated 3 AircraftService.AviationStack).
Proof.
  split; [| split].
  - intros w db H. now rewrite CycleFacts.primary_wins.
  - intros w db. apply CycleFacts.secondary_asked.
  - intros w db a1 a2 a3 s1 s2 s3 Hprimary Hkey Hsecondary H1 H2 H3 E1 E2 E3 H12 H13 H23.
    destruct (CycleFacts.secondary_asked w db Hprimary Hkey) as [E _].
    assert (K1 : Sqlite.Text s1 = icao24 (AircraftService.parameters a1))
      by (simpl; now rewrite E1).
    assert (K2 : Sqlite.Text s2 = icao24 (AircraftService.parameters a2))
      by (simpl; now rewrite E2).
    assert (K3 : Sqlite.Text s3 = icao24 (AircraftService.parameters a3))
      by (simpl; now rewrite E3).
    split; [| split].
    + rewrite E, Hsecondary, K1, K2, K3.
      apply CycleFacts.three_statements; trivial;
        rewrite <- ?K1, <- ?K2, <- ?K3; simpl; now apply String.eqb_neq.
    + rewrite E, Hsecondary. unfold AircraftService.updateDatabase.
      rewrite CycleFacts.forEach_sequence. simpl. now rewrite H1, H2, H3.
    + unfold AircraftService.fetchAircraftData.
      now rewrite Hprimary, Hkey, Hsecondary.
Qed.

Lemma first_nonempty_adapter_wins_witness :
  AircraftService.requests
    (AircraftService.fetchAircraftData
       {| AircraftService.opensky := AircraftService.Responded (Some [cruising]);
          AircraftService.aviationstack := AircraftService.Responded (Some three_flights);
          AircraftService.AVIATION_API_KEY := Some "0123456789abcdef"%string;
          AircraftService.clock := noon |}
       Database.empty)
  = [AircraftService.OpenSky]
  /\ AircraftService.requests
       (AircraftService.fetchAircraftData (quiet_sky three_flights) Database.empty)
     = [AircraftService.OpenSky; AircraftService.AviationStack]
  /\ map (fun r => (Database.id r, Database.key r))
         (Database.aircraft
            (AircraftService.store
               (AircraftService.fetchAircraftData (quiet_sky three_flights)
                  (AircraftService.updateDatabase noon
                     [record_of (airborne_at "aaaaaa" 50.5 9000); record_of cruising]
                     Database.empty))))
     = [ (1%Z, Sqlite.Text "aaaaaa");
         (3%Z, Sqlite.Text "3c6444"); (4%Z, Sqlite.Text "4b1805");
         (5%Z, Sqlite.Text "a0b1c2") ]
  /\ Database.sequence
       (AircraftService.store
          (AircraftService.fetchAircraftData (quiet_sky three_flights) Database.empty))
     = (0 + 3)%Z.
Proof.
  destruct first_nonempty_adapter_wins as [Hprimary [Hsecondary Hthree]].
  split; [| split; [| split]].
  - apply Hprimary. discriminate.
  - apply Hsecondary; reflexivity.
  - destruct (Hthree (quiet_sky three_flights)
                (AircraftService.updateDatabase noon
                   [record_of (airborne_at "aaaaaa" 50.5 9000); record_of cruising]
                   Database.empty)
                (AircraftService.transformAviationStackData (flight_at "3c6444" 8.57 50.03))
                (AircraftService.transformAviationStackData (flight_at "4b1805" 8.55 47.46))
                (AircraftService.transformAviationStackData (flight_at "a0b1c2" (-73.78) 40.64))
                "3c6444"%string "4b1805"%string "a0b1c2"%string
                eq_refl eq_refl eq_refl eq_refl eq_refl eq_refl eq_refl eq_refl eq_refl
                ltac:(discriminate) ltac:(discriminate) ltac:(discriminate))
      as [Hrows _].
    rewrite Hrows. reflexivity.
  - eapply (Hthree (quiet_sky three_flights) Database.empty _ _ _
              "3c6444"%string "4b1805"%string "a0b1c2"%string);
      try reflexivity; discriminate.
Defined.

(** C10: without AVIATION_API_KEY a cycle whose primary fetch fails or
    returns nothing ends with the table as it was, having asked OpenSky
    only, whatever Aviation Stack would have answered; and a cycle that
    asks Aviation Stack has the key configured. *)
Theorem secondary_needs_key :
  (forall (w : AircraftService.World) (db : Database.t),
      JS.env_truthy (AircraftService.AVIATION_API_KEY w) = false ->
      AircraftService.fetchFromOpenSky w = [] ->
      AircraftService.store (AircraftService.fetchAircraftData w db) = db
      /\ AircraftService.requests (AircraftService.fetchAircraftData w db)
         = [AircraftService.OpenSky]
      /\ AircraftService.report (AircraftService.fetchAircraftData w db)
         = AircraftService.NoData)
  /\ (forall (w : AircraftService.World) (db : Database.t),
         In AircraftService.AviationStack
            (AircraftService.requests (AircraftService.fetchAircraftData w db)) ->
         JS.env_truthy (AircraftService.AVIATION_API_KEY w) = true).
Proof.
  split.
  - intros w db Hkey Hprimary.
    now rewrite CycleFacts.secondary_not_asked.
  - intros w db. unfold AircraftService.fetchAircraftData.
    destruct (0 <? List.length (AircraftService.fetchFromOpenSky w))%nat; simpl.
    + intros [H | []]. discriminate.
    + destruct (JS.env_truthy (AircraftService.AVIATION_API_KEY w)); trivial.
      simpl. intros [H | []]. discriminate.
Qed.

Lemma secondary_needs_key_witness :
  (AircraftService.store (AircraftService.fetchAircraftData outage_without_key Database.empty)
   = Database.empty
   /\ AircraftService.requests (AircraftService.fetchAircraftData outage_without_key Database.empty)
      = [AircraftService.OpenSky]
   /\ AircraftService.report (AircraftService.fetchAircraftData outage_without_key Database.empty)
      = AircraftService.NoData)
  /\ JS.env_truthy (AircraftService.AVIATION_API_KEY outage_with_key) = true.
Proof.
  destruct secondary_needs_key as [Hnokey Hasked].
  split.
  - apply Hnokey; reflexivity.
  - apply (Hasked outage_with_key Database.empty). simpl. tauto.
Defined.

(** ** The scheduler *)

Module SchedulerFacts.

Import AircraftService.

Lemma run_snoc (events : list Event) (e : Event) :
  run (events ++ [e]) = step (run events) e.
Proof. unfold run. now rewrite fold_left_app. Qed.

Lemma run_reachable (events : list Event) : reachable (run events).
Proof.
  induction events as [| e events IH] using rev_ind.
  - constructor.
  - rewrite run_snoc. now constructor.
Qed.

(** A running service has a schedule. *)
Lemma running_has_schedule (s : Scheduler) :
  reachable s -> isRunning s = true -> (0 < schedules s)%nat.
Proof.
  induction 1 as [| s e Hs IH]; [discriminate |].
  destruct e; simpl; trivial.
  - unfold startAircraftUpdates. destruct (isRunning s) eqn:E; simpl; [auto | lia].
  - discriminate.
  - destruct (schedules s) eqn:E; simpl; [now rewrite E | lia].
Qed.

Lemma start_then_ticks (n : nat) :
  run (Start :: repeat Tick n)
  = {| isRunning := true; schedules := 1; in_flight := S n |}.
Proof.
  induction n as [| n IH].
  - reflexivity.
  - replace (Start :: repeat Tick (S n)) with ((Start :: repeat Tick n) ++ [Tick])
      by (simpl; f_equal; symmetry; apply repeat_cons).
    now rewrite run_snoc, IH.
Qed.

End SchedulerFacts.

(** C4, as the specification states it, fails right after the start: the
    initial fetch is in flight when the first tick fires, the tick is not
    skipped, and two fetch cycles are in flight. *)
Lemma single_flight_counterexample :
  let started := AircraftService.run [AircraftService.Start] in
  AircraftService.reachable started
  /\ AircraftService.in_flight started = 1%nat
  /\ AircraftService.step started AircraftService.Tick <> started
  /\ AircraftService.in_flight (AircraftService.step started AircraftService.Tick) = 2%nat.
Proof.
  repeat split.
  - apply (SchedulerFacts.run_reachable [AircraftService.Start]).
  - discriminate.
Qed.

(** C4, amended: the scheduler guards the start, not the ticks.  A call of
    [startAircraftUpdates] on a running service changes nothing; every
    tick of a registered schedule starts one more fetch cycle, whatever
    is in flight; a running service has a schedule; and any number of
    cycles can be in flight. *)
Theorem start_guarded_ticks_unguarded :
  (forall s : AircraftService.Scheduler,
      AircraftService.isRunning s = true ->
      AircraftService.step s AircraftService.Start = s)
  /\ (forall s : AircraftService.Scheduler,
         (0 < AircraftService.schedules s)%nat ->
         AircraftService.in_flight (AircraftService.step s AircraftService.Tick)
         = S (AircraftService.in_flight s))
  /\ (forall s : AircraftService.Scheduler,
         AircraftService.reachable s ->
         AircraftService.isRunning s = true ->
         (0 < AircraftService.schedules s)%nat)
  /\ (forall n : nat,
         exists s, AircraftService.reachable s /\ AircraftService.in_flight s = S n).
Proof.
  split; [| split; [| split]].
  - intros s H. simpl. unfold AircraftService.startAircraftUpdates. now rewrite H.
  - intros s H. simpl. destruct (AircraftService.schedules s); [lia | reflexivity].
  - exact SchedulerFacts.running_has_schedule.
  - intros n. exists (AircraftService.run (AircraftService.Start :: repeat AircraftService.Tick n)).
    split; [apply SchedulerFacts.run_reachable | now rewrite SchedulerFacts.start_then_ticks].
Qed.

Lemma start_guarded_ticks_unguarded_witness :
  AircraftService.step (AircraftService.run [AircraftService.Start]) AircraftService.Start
  = AircraftService.run [AircraftService.Start]
  /\ AircraftService.in_flight
       (AircraftService.step (AircraftService.run [AircraftService.Start; AircraftService.Tick])
          AircraftService.Tick)
     = 3%nat
  /\ (0 < AircraftService.schedules (AircraftService.run [AircraftService.Start]))%nat.
Proof.
  destruct start_guarded_ticks_unguarded as [Hstart [Htick [Hschedule _]]].
  split; [| split].
  - apply Hstart. reflexivity.
  - rewrite Htick; [reflexivity | simpl; lia].
  - apply Hschedule; [| reflexivity].
    apply (AircraftService.reachable_step AircraftService.Start
             AircraftService.reachable_constructor).
Defined.

(** ** Haversine *)

Module HaversineFacts.

Import Haversine.
Local Open Scope R_scope.

Lemma sin_sqr_flip (x y k : R) :
  sin ((x - y) * k / 2) * sin ((x - y) * k / 2) =
  sin ((y - x) * k / 2) * sin ((y - x) * k / 2).
Proof.
  replace ((x - y) * k / 2) with (- ((y - x) * k / 2)) by Lra.lra.
  rewrite sin_neg. ring.
Qed.

Lemma haversine_a_sym (lat1 lon1 lat2 lon2 : R) :
  haversine_a lat1 lon1 lat2 lon2 = haversine_a lat2 lon2 lat1 lon1.
Proof.
  unfold haversine_a, toRadians.
  rewrite (sin_sqr_flip lat2 lat1).
  rewrite !Rmult_assoc.
  rewrite (sin_sqr_flip lon2 lon1).
  ring.
Qed.

Lemma haversine_a_same (lat lon : R) : haversine_a lat lon lat lon = 0.
Proof.
  unfold haversine_a, toRadians.
  replace ((lat - lat) * (PI / 180) / 2) with 0 by Lra.lra.
  replace ((lon - lon) * (PI / 180) / 2) with 0 by Lra.lra.
  rewrite sin_0. ring.
Qed.

Lemma Math_sqrt_0 : Math_sqrt 0 = Some 0.
Proof.
  unfold Math_sqrt. destruct (Rlt_dec 0 0) as [H | _]; [Lra.lra |].
  now rewrite sqrt_0.
Qed.

Lemma Math_sqrt_1 : Math_sqrt 1 = Some 1.
Proof.
  unfold Math_sqrt. destruct (Rlt_dec 1 0) as [H | _]; [Lra.lra |].
  now rewrite sqrt_1.
Qed.

Lemma Math_atan2_0_1 : Math_atan2 0 1 = 0.
Proof.
  unfold Math_atan2.
  destruct (total_order_T 1 0) as [[H | H] | H]; try Lra.lra.
  replace (0 / 1) with 0 by Lra.lra. apply atan_0.
Qed.

Lemma cos_latitude_nonneg (lat : R) : -90 <= lat <= 90 -> 0 <= cos (toRadians lat).
Proof.
  intros H. unfold toRadians. pose proof PI_RGT_0 as Hpi.
  apply cos_ge_0; Lra.nra.
Qed.

Lemma sin_sqr_le_1 (x : R) : sin x * sin x <= 1.
Proof. pose proof (sin2_cos2 x) as H. unfold Rsqr in H. Lra.nra. Qed.

Lemma cos_product_bound (u v : R) : cos (v - u) * cos (v + u) <= cos u * cos u.
Proof.
  rewrite cos_minus, cos_plus.
  pose proof (sin2_cos2 u) as Hu. pose proof (sin2_cos2 v) as Hv. unfold Rsqr in *.
  Lra.nra.
Qed.

(** For latitudes between the poles [a] lies between 0 and 1, so that
    neither square root is taken of a negative number. *)
Lemma haversine_a_range (lat1 lon1 lat2 lon2 : R) :
  -90 <= lat1 <= 90 -> -90 <= lat2 <= 90 ->
  0 <= haversine_a lat1 lon1 lat2 lon2 <= 1.
Proof.
  intros H1 H2. unfold haversine_a.
  pose proof (cos_latitude_nonneg H1) as C1.
  pose proof (cos_latitude_nonneg H2) as C2.
  set (s := sin (toRadians (lon2 - lon1) / 2)).
  set (t := sin (toRadians (lat2 - lat1) / 2)).
  assert (Hs : 0 <= s * s <= 1) by (split; [Lra.nra | apply sin_sqr_le_1]).
  assert (Ht : 0 <= t * t) by Lra.nra.
  assert (Hc : 0 <= cos (toRadians lat1) * cos (toRadians lat2)) by Lra.nra.
  split.
  - Lra.nra.
  - set (u := toRadians (lat2 - lat1) / 2) in *.
    set (v := (toRadians lat1 + toRadians lat2) / 2).
    assert (E1 : toRadians lat1 = v - u) by (unfold u, v, toRadians; Lra.lra).
    assert (E2 : toRadians lat2 = v + u) by (unfold u, v, toRadians; Lra.lra).
    pose proof (cos_product_bound u v) as B. rewrite <- E1, <- E2 in B.
    pose proof (sin2_cos2 u) as Su. unfold Rsqr in Su. fold t in Su.
    set (P := cos (toRadians lat1) * cos (toRadians lat2)) in *.
    assert (HP : P * (s * s) <= P * 1) by (apply Rmult_le_compat_l; Lra.lra).
    replace (P * s * s) with (P * (s * s)) by ring.
    Lra.lra.
Qed.

(** Between valid coordinates the distance is a number. *)
Lemma calculateDistance_is_a_number (lat1 lon1 lat2 lon2 : R) :
  valid lat1 lon1 -> valid lat2 lon2 ->
  exists d : R, calculateDistance lat1 lon1 lat2 lon2 = Some d.
Proof.
  intros [H1 _] [H2 _].
  destruct (haversine_a_range lon1 lon2 H1 H2) as [Hlow Hhigh].
  unfold calculateDistance, Math_sqrt.
  destruct (Rlt_dec (haversine_a lat1 lon1 lat2 lon2) 0) as [H | _]; [Lra.lra |].
  destruct (Rlt_dec (1 - haversine_a lat1 lon1 lat2 lon2) 0) as [H | _]; [Lra.lra |].
  eexists. reflexivity.
Qed.

End HaversineFacts.

(** C8: the haversine distance is symmetric in its two points, and
    it is zero from a point to itself. *)
Theorem calculateDistance_symmetric_and_zero :
  (forall lat1 lon1 lat2 lon2 : R,
      Haversine.calculateDistance lat1 lon1 lat2 lon2 =
      Haversine.calculateDistance lat2 lon2 lat1 lon1)
  /\ (forall lat lon : R, Haversine.calculateDistance lat lon lat lon = Some 0%R).
Proof.
  split.
  - intros lat1 lon1 lat2 lon2. unfold Haversine.calculateDistance.
    now rewrite (HaversineFacts.haversine_a_sym lat1 lon1 lat2 lon2).
  - intros lat lon. unfold Haversine.calculateDistance.
    rewrite HaversineFacts.haversine_a_same.
    replace (1 - 0)%R with 1%R by Lra.lra.
    rewrite HaversineFacts.Math_sqrt_0, HaversineFacts.Math_sqrt_1.
    rewrite HaversineFacts.Math_atan2_0_1. f_equal. Lra.lra.
Qed.

(* ================================================================== *)
(** * Part III: further properties of the code *)
(* ================================================================== *)

(** ** The radius of the proximity query *)

Module RadiusFacts.

Import AircraftService Spec.

Lemma visible_eq (r r' : Q) (a : Nearby) :
  (some_tier_holds r a <-> some_tier_holds r' a) -> visible r a = visible r' a.
Proof.
  intros H. apply eq_true_iff_eq. now rewrite !ProximityFacts.visible_iff.
Qed.

(** Up to 100 km the radius adds nothing to the 200 km of the local
    area. *)
Lemma visible_small_radius (r : Q) (a : Nearby) :
  r <= 100 -> visible r a = visible 100 a.
Proof.
  intros Hr. apply visible_eq. unfold some_tier_holds.
  split; intros [d [E H]]; exists d; (split; [exact E |]).
  - destruct H as [H | [H | [H | [H | H]]]]; try tauto; right; left; Lqa.lra.
  - destruct H as [H | [H | [H | [H | H]]]]; try tauto; right; left; Lqa.lra.
Qed.

Lemma visible_monotone (r r' : Q) (a : Nearby) :
  r <= r' -> visible r a = true -> visible r' a = true.
Proof.
  intros Hr. rewrite !ProximityFacts.visible_iff. unfold some_tier_holds.
  intros [d [E H]]. exists d. split; [exact E |].
  destruct H as [H | [H | [H | [H | H]]]]; try tauto.
  - left. Lqa.lra.
  - right; right; right; left. Lqa.lra.
Qed.

Lemma visible_reach (r : Q) (a : Nearby) :
  visible r a = true ->
  exists d, distance_km a = Some d /\ (d <= 400 \/ d <= r * 2).
Proof.
  rewrite ProximityFacts.visible_iff. intros [d [E H]]. exists d. split; [exact E |].
  destruct (Qlt_le_dec r 0) as [Hneg | Hpos];
    destruct H as [H | [H | [[_ H] | [H | [_ H]]]]]; try (left; Lqa.lra); right; Lqa.lra.
Qed.

Lemma visible_local (r d : Q) (a : Nearby) :
  distance_km a = Some d -> d <= 200 -> visible r a = true.
Proof.
  intros E H. apply ProximityFacts.visible_iff. exists d. tauto.
Qed.

End RadiusFacts.

(** X1: a radius of at most 100 km is as good as 100 km: the query returns
    the same list. *)
Theorem radius_up_to_100_is_100 :
  forall (calculateDistance : JS.number -> JS.number -> JS.number -> JS.number -> JS.number)
         (lat lon radiusKm : Q) (db : Database.t),
    radiusKm <= 100 ->
    AircraftService.getAircraftNearLocation calculateDistance lat lon radiusKm db
    = AircraftService.getAircraftNearLocation calculateDistance lat lon 100 db.
Proof.
  intros calculateDistance lat lon radiusKm db Hr.
  unfold AircraftService.getAircraftNearLocation. f_equal.
  apply filter_ext. intros a. now apply RadiusFacts.visible_small_radius.
Qed.

Lemma radius_up_to_100_is_100_witness :
  map (fun a => icao24 (Database.columns (AircraftService.row a)))
      (AircraftService.getAircraftNearLocation by_latitude 50 8 1 four_aircraft_table)
  = [Sqlite.Text "aaaaaa"; Sqlite.Text "cccccc"].
Proof.
  rewrite (radius_up_to_100_is_100 by_latitude 50 8 (radiusKm := 1) four_aircraft_table).
  - reflexivity.
  - discriminate.
Defined.

(** X2: a larger radius never loses an aircraft. *)
Theorem larger_radius_keeps_every_aircraft :
  forall (calculateDistance : JS.number -> JS.number -> JS.number -> JS.number -> JS.number)
         (lat lon radiusKm wider : Q) (db : Database.t) (a : AircraftService.Nearby),
    radiusKm <= wider ->
    In a (AircraftService.getAircraftNearLocation calculateDistance lat lon radiusKm db) ->
    In a (AircraftService.getAircraftNearLocation calculateDistance lat lon wider db).
Proof.
  intros calculateDistance lat lon radiusKm wider db a Hr.
  unfold AircraftService.getAircraftNearLocation.
  rewrite !SortFacts.sort_In, !filter_In. intros [Ha Hv]. split; [exact Ha |].
  now apply RadiusFacts.visible_monotone with radiusKm.
Qed.

Lemma larger_radius_keeps_every_aircraft_witness :
  In (AircraftService.with_distance by_latitude 50 8
        (nth 0 (Database.aircraft four_aircraft_table)
             (AircraftService.row (candidate_at 0 0))))
     (AircraftService.getAircraftNearLocation by_latitude 50 8 250 four_aircraft_table).
Proof.
  apply (larger_radius_keeps_every_aircraft by_latitude 50 8 (radiusKm := 100)).
  - discriminate.
  - left. reflexivity.
Defined.

(** X3: the query never returns an aircraft that is farther than 400 km
    and farther than twice the radius, and it returns every candidate
    within 200 km whatever the radius. *)
Theorem reach_of_the_query :
  forall (calculateDistance : JS.number -> JS.number -> JS.number -> JS.number -> JS.number)
         (lat lon radiusKm : Q) (db : Database.t),
    (forall a,
        In a (AircraftService.getAircraftNearLocation calculateDistance lat lon radiusKm db) ->
        exists d, AircraftService.distance_km a = Some d /\ (d <= 400 \/ d <= radiusKm * 2))
    /\ (forall r d,
           In r (AircraftService.select_flying db) ->
           AircraftService.distance_km (AircraftService.with_distance calculateDistance lat lon r)
           = Some d ->
           d <= 200 ->
           In (AircraftService.with_distance calculateDistance lat lon r)
              (AircraftService.getAircraftNearLocation calculateDistance lat lon radiusKm db)).
Proof.
  intros calculateDistance lat lon radiusKm db.
  unfold AircraftService.getAircraftNearLocation. split.
  - intros a. rewrite SortFacts.sort_In, filter_In. intros [_ Hv].
    now apply RadiusFacts.visible_reach.
  - intros r d Hr E Hd. rewrite SortFacts.sort_In, filter_In. split.
    + now apply in_map.
    + now apply RadiusFacts.visible_local with d.
Qed.

Lemma reach_of_the_query_witness :
  (exists d, Some 55.5 = Some d /\ (d <= 400 \/ d <= -5 * 2))
  /\ In (AircraftService.with_distance by_latitude 50 8
           (nth 0 (Database.aircraft four_aircraft_table)
                (AircraftService.row (candidate_at 0 0))))
        (AircraftService.getAircraftNearLocation by_latitude 50 8 (-5) four_aircraft_table).
Proof.
  destruct (reach_of_the_query by_latitude 50 8 (-5) four_aircraft_table) as [Hfar Hnear].
  split.
  - apply (Hfar (AircraftService.with_distance by_latitude 50 8
                   (nth 0 (Database.aircraft four_aircraft_table)
                        (AircraftService.row (candidate_at 0 0))))).
    left. reflexivity.
  - apply (Hnear _ 55.5).
    + right. right. right. left. reflexivity.
    + reflexivity.
    + discriminate.
Defined.

Module ResultFacts.

Import AircraftService Spec.

Lemma result_length
      (calculateDistance : JS.number -> JS.number -> JS.number -> JS.number -> JS.number)
      (lat lon radiusKm : Q) (db : Database.t) :
  (List.length (getAircraftNearLocation calculateDistance lat lon radiusKm db) <= 1000)%nat
  /\ (List.length (getAircraftNearLocation calculateDistance lat lon radiusKm db)
      <= List.length (Database.aircraft db))%nat.
Proof.
  unfold getAircraftNearLocation.
  rewrite (Permutation_length (SortFacts.sort_Permutation _ _)).
  pose proof (filter_length_le (visible radiusKm)
                (map (with_distance calculateDistance lat lon)
                     (select_flying db))) as Hfilter.
  rewrite length_map in Hfilter.
  unfold select_flying in *.
  rewrite length_firstn in Hfilter.
  unfold Database.order_by_last_updated_desc in *.
  rewrite (Permutation_length (SortFacts.sort_Permutation _ _)), length_rev in Hfilter.
  pose proof (filter_length_le flying (Database.aircraft db)) as Hflying.
  split; lia.
Qed.

Lemma result_sorted
      (calculateDistance : JS.number -> JS.number -> JS.number -> JS.number -> JS.number)
      (lat lon radiusKm : Q) (db : Database.t) :
  StronglySorted ascending (getAircraftNearLocation calculateDistance lat lon radiusKm db).
Proof.
  apply Sorted_StronglySorted.
  - intros a b c. apply ProximityFacts.ascending_trans.
  - unfold getAircraftNearLocation.
    apply SortFacts.sort_Sorted with (dom := fun a => exists d, distance_km a = Some d).
    + apply ProximityFacts.by_distance_smaller_first.
    + apply ProximityFacts.by_distance_otherwise_kept.
    + apply Forall_forall. intros a Ha. apply filter_In in Ha.
      destruct Ha as [_ Ha]. now apply ProximityFacts.visible_has_distance in Ha.
Qed.

Lemma result_has_distance
      (calculateDistance : JS.number -> JS.number -> JS.number -> JS.number -> JS.number)
      (lat lon radiusKm : Q) (db : Database.t) (a : Nearby) :
  In a (getAircraftNearLocation calculateDistance lat lon radiusKm db) ->
  exists d, distance_km a = Some d.
Proof.
  unfold getAircraftNearLocation. rewrite SortFacts.sort_In, filter_In.
  intros [_ Hv]. now apply ProximityFacts.visible_has_distance in Hv.
Qed.

End ResultFacts.

(** X4: the query returns at most a thousand aircraft, and never more
    than the table has rows. *)
Theorem at_most_a_thousand :
  forall (calculateDistance : JS.number -> JS.number -> JS.number -> JS.number -> JS.number)
         (lat lon radiusKm : Q) (db : Database.t),
    (List.length (AircraftService.getAircraftNearLocation calculateDistance lat lon radiusKm db)
     <= 1000)%nat
    /\ (List.length (AircraftService.getAircraftNearLocation calculateDistance lat lon radiusKm db)
        <= List.length (Database.aircraft db))%nat.
Proof. exact ResultFacts.result_length. Qed.

(** ** What the writes leave in the table *)

Module IngestionFacts.

Import AircraftService Spec Inventory.

Lemma forEach_app (clock : nat -> Timestamp) (first : list Aircraft) :
  forall (i : nat) (rest : list Aircraft) (db : Database.t),
    forEach_from i clock (first ++ rest) db
    = forEach_from (i + List.length first) clock rest (forEach_from i clock first db).
Proof.
  induction first as [| a first IH]; intros i rest db; simpl.
  - now rewrite Nat.add_0_r.
  - rewrite IH. f_equal. lia.
Qed.

(** Where the rows of the table after a batch come from: a row was there
    before and no stored record of the batch has its key, or a stored
    record of the batch wrote it. *)
Lemma forEach_rows (clock : nat -> Timestamp) (batch : list Aircraft) :
  forall (i : nat) (db : Database.t) (r : Database.Row),
    In r (Database.aircraft (forEach_from i clock batch db)) ->
    (In r (Database.aircraft db)
     /\ forall a, In a batch -> storable a = true ->
                  Sqlite.same_key (Database.key r) (icao24 (parameters a)) = false)
    \/ (exists a, In a batch /\ storable a = true /\ Database.columns r = parameters a).
Proof.
  induction batch as [| a rest IH]; intros i db r Hr; simpl in Hr.
  - left. split; [exact Hr | intros a []].
  - apply IH in Hr. destruct Hr as [[Hr Hrest] | [a' [Ha' H]]].
    + destruct (storable a) eqn:Ha.
      * unfold stmt_run, Database.insert_or_replace in Hr. cbn [Database.aircraft] in Hr.
        apply in_app_or in Hr. destruct Hr as [Hr | [Hr | []]].
        -- apply filter_In in Hr. destruct Hr as [Hr Hkey].
           apply negb_true_iff in Hkey. left. split; [exact Hr |].
           intros a' [E | Ha'] Hs; [now subst a' | now apply Hrest].
        -- right. exists a. subst r. repeat split; trivial. now left.
      * left. split; [exact Hr |].
        intros a' [E | Ha'] Hs; [subst a'; congruence | now apply Hrest].
    + right. exists a'. split; [now right | exact H].
Qed.

Lemma cycle_rows (w : World) (db : Database.t) (r : Database.Row) :
  In r (Database.aircraft (store (fetchAircraftData w db))) ->
  In r (Database.aircraft db)
  \/ (exists a, storable a = true /\ Database.columns r = parameters a
                /\ (In a (fetchFromOpenSky w) \/ In a (fetchFromAviationStack w))).
Proof.
  unfold fetchAircraftData.
  destruct (0 <? List.length (fetchFromOpenSky w))%nat; simpl.
  - intros Hr. apply forEach_rows in Hr. destruct Hr as [[Hr _] | [a [Ha [Hs E]]]];
      [now left | right; exists a; tauto].
  - destruct (JS.env_truthy (AVIATION_API_KEY w)); simpl; [| now left].
    destruct (0 <? List.length (fetchFromAviationStack w))%nat; simpl; [| now left].
    intros Hr. apply forEach_rows in Hr. destruct Hr as [[Hr _] | [a [Ha [Hs E]]]];
      [now left | right; exists a; tauto].
Qed.

(** The cells of a stored record. *)
Lemma bind_nonzero (v : JS.value) : JS.truthy v = true -> nonzero (Sqlite.bind v) = true.
Proof. destruct v as [| | [|] | q | s | l]; simpl; trivial; discriminate. Qed.

Lemma stored_is_positioned (a : Aircraft) (n : Z) (now : Timestamp) :
  storable a = true ->
  positioned {| Database.id := n; Database.columns := parameters a;
                Database.last_updated := now |} = true.
Proof.
  unfold storable, positioned. rewrite !andb_true_iff. intros [[Hkey Hlat] Hlon].
  cbn [Database.columns parameters icao24 latitude longitude].
  repeat split; [now apply StoreFacts.bind_truthy | now apply bind_nonzero ..].
Qed.

Lemma aviationstack_has_no_altitude (a : Aircraft) (w : World) :
  In a (fetchFromAviationStack w) -> altitude a = JS.JNull.
Proof.
  unfold fetchFromAviationStack.
  destruct (aviationstack w) as [| [flights |]]; simpl; try tauto.
  intros H. apply in_map_iff in H. destruct H as [f [E _]]. now subst a.
Qed.

End IngestionFacts.

(** X5: a cycle that OpenSky does not serve adds no candidate to the
    proximity query.  Aviation Stack records carry no altitude, so the
    rows they write never pass [altitude > 0]: the candidates after the
    cycle were rows before it, none of them has the key of a record the
    cycle stored, and on an empty table the query returns nothing. *)
Theorem fallback_cycle_adds_no_candidate :
  (forall (w : AircraftService.World) (db : Database.t) (r : Database.Row),
      AircraftService.fetchFromOpenSky w = [] ->
      In r (AircraftService.select_flying
              (AircraftService.store (AircraftService.fetchAircraftData w db))) ->
      In r (Database.aircraft db))
  /\ (forall (w : AircraftService.World) (db : Database.t) (a : Aircraft) (r : Database.Row),
         AircraftService.fetchFromOpenSky w = [] ->
         JS.env_truthy (AircraftService.AVIATION_API_KEY w) = true ->
         In a (AircraftService.fetchFromAviationStack w) ->
         AircraftService.storable a = true ->
         In r (AircraftService.select_flying
                 (AircraftService.store (AircraftService.fetchAircraftData w db))) ->
         Sqlite.same_key (Database.key r) (icao24 (AircraftService.parameters a)) = false)
  /\ (forall (calculateDistance : JS.number -> JS.number -> JS.number -> JS.number -> JS.number)
            (lat lon radiusKm : Q) (w : AircraftService.World),
         AircraftService.fetchFromOpenSky w = [] ->
         AircraftService.getAircraftNearLocation calculateDistance lat lon radiusKm
           (AircraftService.store (AircraftService.fetchAircraftData w Database.empty))
         = []).
Proof.
  assert (Hgrounded : forall (w : AircraftService.World) (a : Aircraft) (r : Database.Row),
             In a (AircraftService.fetchFromAviationStack w) ->
             Database.columns r = AircraftService.parameters a ->
             AircraftService.flying r = true -> False).
  { intros w a r Ha E Hflying. unfold AircraftService.flying in Hflying.
    rewrite E in Hflying. cbn [AircraftService.parameters altitude] in Hflying.
    rewrite (IngestionFacts.aviationstack_has_no_altitude _ _ Ha) in Hflying.
    simpl in Hflying. rewrite andb_false_r in Hflying. discriminate. }
  assert (Hold : forall (w : AircraftService.World) (db : Database.t) (r : Database.Row),
             AircraftService.fetchFromOpenSky w = [] ->
             In r (AircraftService.select_flying
                     (AircraftService.store (AircraftService.fetchAircraftData w db))) ->
             In r (Database.aircraft db)).
  { intros w db r Hprimary Hr.
    apply ProximityFacts.select_flying_sound in Hr. destruct Hr as [Hr Hflying].
    apply IngestionFacts.cycle_rows in Hr.
    destruct Hr as [Hr | [a [_ [E [Ha | Ha]]]]]; trivial.
    - rewrite Hprimary in Ha. destruct Ha.
    - exfalso. exact (Hgrounded w a r Ha E Hflying). }
  split; [exact Hold | split].
  - intros w db a r Hprimary Hkey Ha Hs Hr.
    apply ProximityFacts.select_flying_sound in Hr. destruct Hr as [Hr Hflying].
    destruct (CycleFacts.secondary_asked w db Hprimary Hkey) as [E _].
    rewrite E in Hr. unfold AircraftService.updateDatabase in Hr.
    apply IngestionFacts.forEach_rows in Hr.
    destruct Hr as [[_ Hfree] | [a' [Ha' [_ E']]]].
    + now apply Hfree.
    + exfalso. exact (Hgrounded w a' r Ha' E' Hflying).
  - intros calculateDistance lat lon radiusKm w Hprimary.
    unfold AircraftService.getAircraftNearLocation.
    destruct (AircraftService.select_flying
                (AircraftService.store (AircraftService.fetchAircraftData w Database.empty)))
      as [| r rest] eqn:E; [reflexivity |].
    exfalso. apply (Hold w Database.empty r Hprimary). rewrite E. now left.
Qed.

Lemma fallback_cycle_adds_no_candidate_witness :
  forallb (fun r => negb (Sqlite.same_key (Database.key r) (Sqlite.Text "aaaaaa")))
          (AircraftService.select_flying
             (AircraftService.store
                (AircraftService.fetchAircraftData fallback_for_one four_aircraft_table)))
  = true
  /\ AircraftService.getAircraftNearLocation by_latitude 50 8 100
       (AircraftService.store (AircraftService.fetchAircraftData fallback_for_one Database.empty))
     = [].
Proof.
  destruct fallback_cycle_adds_no_candidate as [_ [Hgone Hnone]].
  split.
  - apply forallb_forall. intros r Hr. apply negb_true_iff.
    apply (Hgone fallback_for_one four_aircraft_table
             (AircraftService.transformAviationStackData (flight_at "aaaaaa" 8.57 50.03)) r);
      trivial.
    now left.
  - now apply Hnone.
Defined.

(** A look at the table of that witness: the aircraft that the fallback
    cycle updated is in the table and is no candidate any more. *)
Example fallback_hides_an_aircraft :
  map Database.key
      (Database.aircraft
         (AircraftService.store
            (AircraftService.fetchAircraftData fallback_for_one four_aircraft_table)))
  = [Sqlite.Text "bbbbbb"; Sqlite.Text "cccccc"; Sqlite.Text "dddddd"; Sqlite.Text "aaaaaa"]
  /\ map Database.key
       (AircraftService.select_flying
          (AircraftService.store
             (AircraftService.fetchAircraftData fallback_for_one four_aircraft_table)))
     = [Sqlite.Text "dddddd"; Sqlite.Text "cccccc"; Sqlite.Text "bbbbbb"].
Proof. split; reflexivity. Qed.

Module TableFacts.

Import AircraftService Spec Inventory.

Lemma replace_keeps_keys (now : Timestamp) (values : Fields Sqlite.cell)
      (db : Database.t) (k : Sqlite.cell) :
  rows_with k db <> [] -> rows_with k (Database.insert_or_replace now values db) <> [].
Proof.
  intros H. destruct (Sqlite.same_key (icao24 values) k) eqn:E.
  - rewrite StoreFacts.rows_with_replaced by exact E. discriminate.
  - now rewrite StoreFacts.rows_with_untouched.
Qed.

Lemma forEach_keeps_keys (clock : nat -> Timestamp) (batch : list Aircraft) (k : Sqlite.cell) :
  forall (i : nat) (db : Database.t),
    rows_with k db <> [] -> rows_with k (forEach_from i clock batch db) <> [].
Proof.
  induction batch as [| a rest IH]; simpl; intros i db H; trivial.
  apply IH. destruct (storable a); trivial. now apply replace_keeps_keys.
Qed.

Lemma replace_does_not_shrink (now : Timestamp) (values : Fields Sqlite.cell) (db : Database.t) :
  one_row_per_key db ->
  (List.length (Database.aircraft db)
   <= List.length (Database.aircraft (Database.insert_or_replace now values db)))%nat.
Proof.
  intros Hone. pose proof (Hone (icao24 values)) as Hkey. unfold rows_with in Hkey.
  unfold Database.insert_or_replace. cbn [Database.aircraft].
  rewrite length_app. cbn [List.length].
  rewrite <- (filter_length (fun r => Sqlite.same_key (Database.key r) (icao24 values))
                            (Database.aircraft db)) at 1.
  cbv beta. lia.
Qed.

Lemma forEach_does_not_shrink (clock : nat -> Timestamp) (batch : list Aircraft) :
  forall (i : nat) (db : Database.t),
    one_row_per_key db ->
    (List.length (Database.aircraft db)
     <= List.length (Database.aircraft (forEach_from i clock batch db)))%nat.
Proof.
  induction batch as [| a rest IH]; simpl; intros i db Hone; [lia |].
  destruct (storable a).
  - apply Nat.le_trans with
      (List.length (Database.aircraft (stmt_run (clock i) a db))).
    + now apply replace_does_not_shrink.
    + apply IH. now apply StoreFacts.replace_keeps_one_row_per_key.
  - now apply IH.
Qed.

(** Rows of keys that no stored record of the batch has stay as they
    are. *)
Lemma forEach_untouched (clock : nat -> Timestamp) (batch : list Aircraft) (k : Sqlite.cell) :
  (forall b, In b batch -> storable b = true ->
             Sqlite.same_key (icao24 (parameters b)) k = false) ->
  forall (i : nat) (db : Database.t),
    rows_with k (forEach_from i clock batch db) = rows_with k db.
Proof.
  induction batch as [| a rest IH]; simpl; intros Hfree i db; trivial.
  rewrite IH by (intros b Hb; apply Hfree; now right).
  destruct (storable a) eqn:Ha; trivial.
  apply StoreFacts.rows_with_untouched. apply Hfree; [now left | exact Ha].
Qed.

(** The [id]s under a write. *)
Lemma sorted_filter (p : Database.Row -> bool) (rows : list Database.Row) :
  StronglySorted Z.lt (map Database.id rows) ->
  StronglySorted Z.lt (map Database.id (filter p rows)).
Proof.
  induction rows as [| r rows IH]; simpl; intros H; trivial.
  inversion H as [| ? ? Hrest Hall]; subst.
  destruct (p r); simpl; [| now apply IH].
  constructor; [now apply IH |].
  rewrite Forall_forall in *. intros n Hn. apply Hall.
  apply in_map_iff in Hn. destruct Hn as [x [E Hx]].
  apply in_map_iff. exists x. split; trivial. now apply filter_In in Hx.
Qed.

Lemma sorted_snoc (ids : list Z) (n : Z) :
  StronglySorted Z.lt ids -> Forall (fun m => (m < n)%Z) ids ->
  StronglySorted Z.lt (ids ++ [n]).
Proof.
  induction ids as [| m ids IH]; simpl; intros Hsorted Hbelow.
  - repeat constructor.
  - inversion Hsorted as [| ? ? Hrest Hall]; subst.
    inversion Hbelow as [| ? ? Hm Hbelow']; subst.
    constructor; [now apply IH |].
    apply Forall_app. split; [exact Hall | now repeat constructor].
Qed.

Lemma replace_keeps_ids_increasing (now : Timestamp) (values : Fields Sqlite.cell)
      (db : Database.t) :
  ids_increasing db -> ids_increasing (Database.insert_or_replace now values db).
Proof.
  intros [Hsorted [Hbound Hcounter]]. unfold ids_increasing, Database.insert_or_replace.
  cbn [Database.aircraft Database.sequence]. split; [| split].
  - rewrite map_app. cbn [map Database.id]. apply sorted_snoc.
    + now apply sorted_filter.
    + rewrite Forall_forall in *. intros n Hn.
      apply in_map_iff in Hn. destruct Hn as [r [E Hr]]. subst n.
      apply filter_In in Hr. destruct Hr as [Hr _]. specialize (Hbound r Hr). lia.
  - apply Forall_app. split.
    + rewrite Forall_forall in *. intros r Hr. apply filter_In in Hr.
      destruct Hr as [Hr _]. specialize (Hbound r Hr). simpl. lia.
    + repeat constructor; simpl; lia.
  - lia.
Qed.

Lemma forEach_keeps_ids_increasing (clock : nat -> Timestamp) (batch : list Aircraft) :
  forall (i : nat) (db : Database.t),
    ids_increasing db -> ids_increasing (forEach_from i clock batch db).
Proof.
  induction batch as [| a rest IH]; simpl; intros i db H; trivial.
  apply IH. destruct (storable a); trivial. now apply replace_keeps_ids_increasing.
Qed.

Lemma sorted_NoDup (ids : list Z) : StronglySorted Z.lt ids -> NoDup ids.
Proof.
  induction 1 as [| n ids Hsorted IH Hall]; constructor; trivial.
  intros Hn. rewrite Forall_forall in Hall. specialize (Hall n Hn). lia.
Qed.

(** An invariant of the writes holds after any run of cycles. *)
Lemma after_cycles_invariant (P : Database.t -> Prop) :
  (forall (clock : nat -> Timestamp) (batch : list Aircraft) (db : Database.t),
      P db -> P (updateDatabase clock batch db)) ->
  forall (worlds : list World) (db : Database.t), P db -> P (after_cycles worlds db).
Proof.
  intros Hwrite worlds. unfold after_cycles.
  induction worlds as [| w rest IH]; simpl; intros db Hdb; trivial.
  apply IH. destruct (StoreFacts.cycle_store w db) as [E | [batch E]]; rewrite E; auto.
Qed.

End TableFacts.

(** X6: a fetch cycle never forgets an aircraft.  A key that has a row
    before the cycle has one after it, and a table with one row per key
    does not get shorter. *)
Theorem cycle_never_forgets :
  (forall (w : AircraftService.World) (db : Database.t) (k : Sqlite.cell),
      Spec.rows_with k db <> [] ->
      Spec.rows_with k (AircraftService.store (AircraftService.fetchAircraftData w db)) <> [])
  /\ (forall (w : AircraftService.World) (db : Database.t),
         Spec.one_row_per_key db ->
         (List.length (Database.aircraft db)
          <= List.length
               (Database.aircraft
                  (AircraftService.store (AircraftService.fetchAircraftData w db))))%nat).
Proof.
  split.
  - intros w db k H.
    destruct (StoreFacts.cycle_store w db) as [E | [batch E]]; rewrite E; trivial.
    now apply TableFacts.forEach_keeps_keys.
  - intros w db Hone.
    destruct (StoreFacts.cycle_store w db) as [E | [batch E]]; rewrite E; [lia |].
    now apply TableFacts.forEach_does_not_shrink.
Qed.

Lemma cycle_never_forgets_witness :
  Spec.rows_with (Sqlite.Text "dddddd")
    (AircraftService.store (AircraftService.fetchAircraftData fallback_for_one four_aircraft_table))
  <> []
  /\ (4 <= List.length
             (Database.aircraft
                (AircraftService.store
                   (AircraftService.fetchAircraftData fallback_for_one four_aircraft_table))))%nat.
Proof.
  destruct cycle_never_forgets as [Hkeys Hsize].
  split.
  - apply Hkeys. discriminate.
  - apply (Hsize fallback_for_one four_aircraft_table).
    apply (StoreFacts.cycle_keeps_one_row_per_key busy_sky (db := Database.empty)).
    intros k. simpl. lia.
Defined.

(** X7: on a table that fetch cycles filled, the [id]s grow along the
    table and lie between 1 and the counter, so that no two rows share an
    [id]; and every write gives its row an [id] above all the [id]s that
    were in the table, so that an aircraft changes its [id] whenever it is
    updated. *)
Theorem ids_grow_with_every_write :
  (forall worlds : list AircraftService.World,
      Inventory.ids_increasing
        (Inventory.after_cycles worlds (Database.initializeDatabase None))
      /\ NoDup (map Database.id
                    (Database.aircraft
                       (Inventory.after_cycles worlds (Database.initializeDatabase None)))))
  /\ (forall (now : Timestamp) (a : Aircraft) (db : Database.t) (old new : Database.Row),
         Inventory.ids_increasing db ->
         AircraftService.storable a = true ->
         In old (Database.aircraft db) ->
         In new (Spec.rows_with (icao24 (AircraftService.parameters a))
                                (AircraftService.stmt_run now a db)) ->
         (Database.id old < Database.id new)%Z).
Proof.
  split.
  - intros worlds.
    assert (H : Inventory.ids_increasing
                  (Inventory.after_cycles worlds (Database.initializeDatabase None))).
    { apply TableFacts.after_cycles_invariant.
      - intros clock batch db. apply TableFacts.forEach_keeps_ids_increasing.
      - repeat split; simpl; try constructor; lia. }
    split; [exact H |]. apply TableFacts.sorted_NoDup. apply H.
  - intros now a db old new [_ [Hbound _]] Ha Hold Hnew.
    unfold AircraftService.stmt_run in Hnew.
    rewrite StoreFacts.rows_with_replaced in Hnew by now apply StoreFacts.storable_key.
    destruct Hnew as [E | []]. subst new. simpl.
    rewrite Forall_forall in Hbound. specialize (Hbound old Hold). lia.
Qed.

Lemma ids_grow_with_every_write_witness :
  map Database.id
      (Spec.rows_with (Sqlite.Text "aaaaaa")
         (AircraftService.stmt_run 1700000060%Z (record_of (airborne_at "aaaaaa" 50.6 9100))
            four_aircraft_table))
  = [5%Z]
  /\ (1 < 5)%Z.
Proof.
  destruct ids_grow_with_every_write as [Hcycles Hwrite].
  split; [reflexivity |].
  apply (Hwrite 1700000060%Z (record_of (airborne_at "aaaaaa" 50.6 9100)) four_aircraft_table
           (nth 0 (Database.aircraft four_aircraft_table)
                (AircraftService.row (candidate_at 0 0)))
           (Database.mkRow 5
              (AircraftService.parameters (record_of (airborne_at "aaaaaa" 50.6 9100)))
              1700000060%Z)).
  - apply (Hcycles [busy_sky]).
  - reflexivity.
  - left. reflexivity.
  - left. reflexivity.
Defined.

(** X8: no row that a fetch cycle wrote lacks its key or its position:
    [icao24] is not NULL, and latitude and longitude are neither NULL nor
    the number 0. *)
Theorem every_row_has_key_and_position :
  (forall (w : AircraftService.World) (db : Database.t),
      Forall (fun r => Inventory.positioned r = true) (Database.aircraft db) ->
      Forall (fun r => Inventory.positioned r = true)
             (Database.aircraft (AircraftService.store (AircraftService.fetchAircraftData w db))))
  /\ (forall worlds : list AircraftService.World,
         Forall (fun r => Inventory.positioned r = true)
                (Database.aircraft
                   (Inventory.after_cycles worlds (Database.initializeDatabase None)))).
Proof.
  assert (Hcycle : forall (w : AircraftService.World) (db : Database.t),
             Forall (fun r => Inventory.positioned r = true) (Database.aircraft db) ->
             Forall (fun r => Inventory.positioned r = true)
                    (Database.aircraft
                       (AircraftService.store (AircraftService.fetchAircraftData w db)))).
  { intros w db Hdb. rewrite Forall_forall in *. intros r Hr.
    apply IngestionFacts.cycle_rows in Hr. destruct Hr as [Hr | [a [Ha [E _]]]]; auto.
    pose proof IngestionFacts.stored_is_positioned as H.
    specialize (H a 0%Z 0%Z Ha).
    unfold Inventory.positioned in *. cbn [Database.columns] in H. now rewrite E. }
  split; [exact Hcycle |].
  intros worlds. unfold Inventory.after_cycles.
  assert (Hfresh : Forall (fun r => Inventory.positioned r = true)
                          (Database.aircraft (Database.initializeDatabase None)))
    by constructor.
  revert Hfresh. generalize (Database.initializeDatabase None).
  induction worlds as [| w rest IH]; simpl; intros db Hdb; auto.
Qed.

Lemma every_row_has_key_and_position_witness :
  Forall (fun r => Inventory.positioned r = true)
         (Database.aircraft
            (AircraftService.store
               (AircraftService.fetchAircraftData fallback_for_one four_aircraft_table))).
Proof.
  destruct every_row_has_key_and_position as [Hcycle Hfresh].
  apply Hcycle. apply (Hfresh [busy_sky]).
Defined.

(** X9: within a batch the last record of a key wins.  If no stored record
    behind [a] in the batch has the key of [a], the one row of that key
    after the batch is the row that [a] wrote, at its own time. *)
Theorem last_record_of_a_key_wins :
  forall (clock : nat -> Timestamp) (earlier later : list Aircraft) (a : Aircraft)
         (db : Database.t),
    AircraftService.storable a = true ->
    (forall b, In b later -> AircraftService.storable b = true ->
               Sqlite.same_key (icao24 (AircraftService.parameters b))
                               (icao24 (AircraftService.parameters a)) = false) ->
    Spec.rows_with (icao24 (AircraftService.parameters a))
                   (AircraftService.updateDatabase clock (earlier ++ a :: later) db)
    = [ {| Database.id :=
             (Database.sequence (AircraftService.updateDatabase clock earlier db) + 1)%Z;
           Database.columns := AircraftService.parameters a;
           Database.last_updated := clock (List.length earlier) |} ].
Proof.
  intros clock earlier later a db Ha Hlater.
  unfold AircraftService.updateDatabase.
  rewrite IngestionFacts.forEach_app. simpl. rewrite Ha.
  rewrite TableFacts.forEach_untouched by exact Hlater.
  unfold AircraftService.stmt_run.
  now rewrite StoreFacts.rows_with_replaced by now apply StoreFacts.storable_key.
Qed.

Lemma last_record_of_a_key_wins_witness :
  map (fun r => (latitude (Database.columns r), Database.last_updated r))
      (Spec.rows_with (Sqlite.Text "aaaaaa")
         (AircraftService.updateDatabase (fun i => Z.of_nat i)
            [ record_of (airborne_at "aaaaaa" 50.5 9000);
              record_of (airborne_at "aaaaaa" 50.6 9100);
              record_of (airborne_at "bbbbbb" 52 5000) ]
            Database.empty))
  = [(Sqlite.Numeric 50.6, 1%Z)].
Proof.
  pose proof (last_record_of_a_key_wins (fun i => Z.of_nat i)
                [record_of (airborne_at "aaaaaa" 50.5 9000)]
                [record_of (airborne_at "bbbbbb" 52 5000)]
                (record_of (airborne_at "aaaaaa" 50.6 9100)) Database.empty eq_refl) as H.
  assert (Hlater : forall b, In b [record_of (airborne_at "bbbbbb" 52 5000)] ->
                             AircraftService.storable b = true ->
                             Sqlite.same_key (icao24 (AircraftService.parameters b))
                               (icao24 (AircraftService.parameters
                                          (record_of (airborne_at "aaaaaa" 50.6 9100)))) = false)
    by (intros b [E | []] _; now subst b).
  exact (f_equal (map (fun r => (latitude (Database.columns r), Database.last_updated r)))
                 (H Hlater)).
Defined.

(** ** The OpenSky fetcher *)

Module FetchFacts.

Import AircraftService Inventory.

Lemma transform_throws_iff (state : StateVector) :
  transformOpenSkyData state = None <-> bad_sensors state = true.
Proof.
  unfold transformOpenSkyData, bad_sensors.
  destruct (JS.truthy (JS.index state 12)) eqn:E; simpl.
  - destruct (JS.index state 12); simpl; split; congruence.
  - split; congruence.
Qed.

Lemma map_throwing_None (states : list StateVector) :
  existsb bad_sensors states = true -> map_throwing transformOpenSkyData states = None.
Proof.
  induction states as [| state rest IH]; simpl; [discriminate |].
  rewrite orb_true_iff. intros [H | H].
  - apply transform_throws_iff in H. now rewrite H.
  - destruct (transformOpenSkyData state); trivial. now rewrite IH.
Qed.

Lemma map_throwing_Some (states : list StateVector) :
  existsb bad_sensors states = false ->
  exists data, map_throwing transformOpenSkyData states = Some data
               /\ List.length data = List.length states
               /\ map (@icao24 JS.value) data = map (fun state => JS.index state 0) states.
Proof.
  induction states as [| state rest IH]; simpl.
  - intros _. exists []. repeat split.
  - rewrite orb_false_iff. intros [Hstate Hrest].
    destruct (IH Hrest) as [data [E [Hlen Hkeys]]].
    destruct (transformOpenSkyData state) as [a |] eqn:Ea.
    + rewrite E. exists (a :: data). simpl. repeat split; [now rewrite Hlen |].
      rewrite Hkeys. f_equal.
      now destruct (NormalizerFacts.transformOpenSkyData_fields _ Ea) as [Hkey _].
    + apply transform_throws_iff in Ea. congruence.
Qed.

Lemma truthy_or_null (v : JS.value) : JS.truthy (JS.or v JS.JNull) = JS.truthy v.
Proof. unfold JS.or. destruct (JS.truthy v) eqn:E; trivial. Qed.

Lemma index_beyond (state : StateVector) (i : nat) :
  (List.length state <= i)%nat -> JS.index state i = JS.JUndefined.
Proof. intros H. unfold JS.index. now apply nth_overflow. Qed.

End FetchFacts.

(** X10: one state vector whose sensors slot holds a truthy value that is
    not an array empties the whole OpenSky fetch, good records included;
    without such a vector the fetch returns one record for each state
    vector, in order, with the [icao24] of its first slot. *)
Theorem one_bad_state_vector_empties_the_fetch :
  (forall (w : AircraftService.World) (states : list AircraftService.StateVector),
      AircraftService.opensky w = AircraftService.Responded (Some states) ->
      existsb Inventory.bad_sensors states = true ->
      AircraftService.fetchFromOpenSky w = [])
  /\ (forall (w : AircraftService.World) (states : list AircraftService.StateVector),
         AircraftService.opensky w = AircraftService.Responded (Some states) ->
         existsb Inventory.bad_sensors states = false ->
         List.length (AircraftService.fetchFromOpenSky w) = List.length states
         /\ map (@icao24 JS.value) (AircraftService.fetchFromOpenSky w)
            = map (fun state => JS.index state 0) states).
Proof.
  split; intros w states Hw H; unfold AircraftService.fetchFromOpenSky; rewrite Hw.
  - now rewrite FetchFacts.map_throwing_None.
  - destruct (FetchFacts.map_throwing_Some _ H) as [data [E Hdata]]. now rewrite E.
Qed.

Lemma one_bad_state_vector_empties_the_fetch_witness :
  AircraftService.fetchFromOpenSky (sky (four_aircraft ++ [garbled])) = []
  /\ AircraftService.store
       (AircraftService.fetchAircraftData (sky (four_aircraft ++ [garbled])) Database.empty)
     = Database.empty
  /\ List.length (AircraftService.fetchFromOpenSky (sky four_aircraft)) = 4%nat.
Proof.
  destruct one_bad_state_vector_empties_the_fetch as [Hbad Hgood].
  assert (E : AircraftService.fetchFromOpenSky (sky (four_aircraft ++ [garbled])) = [])
    by (apply (Hbad _ (four_aircraft ++ [garbled])); reflexivity).
  split; [exact E | split].
  - unfold AircraftService.fetchAircraftData. now rewrite E.
  - apply (Hgood (sky four_aircraft) four_aircraft); reflexivity.
Defined.

(** X11: an OpenSky state vector is stored exactly when its slots 0, 5 and
    6 ([icao24], longitude, latitude) are truthy; a vector with fewer than
    seven slots, the empty one included, is transformed without an error
    and is not stored. *)
Theorem which_state_vectors_are_stored :
  (forall (state : AircraftService.StateVector) (a : Aircraft),
      AircraftService.transformOpenSkyData state = Some a ->
      AircraftService.storable a
      = JS.truthy (JS.index state 0) && JS.truthy (JS.index state 6)
        && JS.truthy (JS.index state 5))
  /\ (forall state : AircraftService.StateVector,
         (List.length state <= 6)%nat ->
         exists a, AircraftService.transformOpenSkyData state = Some a
                   /\ AircraftService.storable a = false).
Proof.
  assert (Hstored : forall (state : AircraftService.StateVector) (a : Aircraft),
             AircraftService.transformOpenSkyData state = Some a ->
             AircraftService.storable a
             = JS.truthy (JS.index state 0) && JS.truthy (JS.index state 6)
               && JS.truthy (JS.index state 5)).
  { intros state a Ha.
    destruct (NormalizerFacts.transformOpenSkyData_fields _ Ha) as [Hkey [Hlon [Hlat _]]].
    unfold AircraftService.storable.
    now rewrite Hkey, Hlon, Hlat, !FetchFacts.truthy_or_null. }
  split; [exact Hstored |].
  intros state Hshort.
  destruct (AircraftService.transformOpenSkyData state) as [a |] eqn:Ea.
  - exists a. split; trivial. rewrite (Hstored _ _ Ea).
    rewrite (FetchFacts.index_beyond state (i := 6)) by exact Hshort.
    simpl. now rewrite andb_false_r.
  - apply FetchFacts.transform_throws_iff in Ea. unfold Inventory.bad_sensors in Ea.
    rewrite (FetchFacts.index_beyond state (i := 12)) in Ea by lia. discriminate.
Qed.

Lemma which_state_vectors_are_stored_witness :
  AircraftService.storable (record_of cruising) = true
  /\ exists a, AircraftService.transformOpenSkyData
                 [JS.JStr "3c6444"; JS.JStr "DLH9LF"; JS.JStr "Germany"] = Some a
               /\ AircraftService.storable a = false.
Proof.
  destruct which_state_vectors_are_stored as [Hstored Hshort].
  split.
  - now rewrite (Hstored cruising (record_of cruising)).
  - apply Hshort. simpl. lia.
Defined.

(** X12: the number in the log line of a cycle counts the records that the
    provider returned, not the rows written.  The cycle runs one statement
    for each record that has a key and a position, which may be fewer; a
    cycle that logs no data leaves the table as it was. *)
Theorem report_counts_fetched_records :
  (forall (w : AircraftService.World) (db : Database.t) (n : nat) (p : AircraftService.Provider),
      AircraftService.report (AircraftService.fetchAircraftData w db)
      = AircraftService.Updated n p ->
      let batch := match p with
                   | AircraftService.OpenSky => AircraftService.fetchFromOpenSky w
                   | AircraftService.AviationStack => AircraftService.fetchFromAviationStack w
                   end in
      n = List.length batch
      /\ (0 < n)%nat
      /\ Database.sequence (AircraftService.store (AircraftService.fetchAircraftData w db))
         = (Database.sequence db
            + Z.of_nat (List.length (filter AircraftService.storable batch)))%Z
      /\ (List.length (filter AircraftService.storable batch) <= n)%nat)
  /\ (forall (w : AircraftService.World) (db : Database.t),
         AircraftService.report (AircraftService.fetchAircraftData w db)
         = AircraftService.NoData ->
         AircraftService.store (AircraftService.fetchAircraftData w db) = db).
Proof.
  split.
  - intros w db n p. unfold AircraftService.fetchAircraftData.
    destruct (0 <? List.length (AircraftService.fetchFromOpenSky w))%nat eqn:E1; simpl.
    + intros H. inversion H; subst n p. simpl. apply Nat.ltb_lt in E1.
      repeat split; trivial.
      * apply CycleFacts.forEach_sequence.
      * apply filter_length_le.
    + destruct (JS.env_truthy (AircraftService.AVIATION_API_KEY w)); simpl; [| discriminate].
      destruct (0 <? List.length (AircraftService.fetchFromAviationStack w))%nat eqn:E2;
        simpl; [| discriminate].
      intros H. inversion H; subst n p. simpl. apply Nat.ltb_lt in E2.
      repeat split; trivial.
      * apply CycleFacts.forEach_sequence.
      * apply filter_length_le.
  - intros w db. unfold AircraftService.fetchAircraftData.
    destruct (0 <? List.length (AircraftService.fetchFromOpenSky w))%nat; simpl;
      [discriminate |].
    destruct (JS.env_truthy (AircraftService.AVIATION_API_KEY w)); simpl; trivial.
    destruct (0 <? List.length (AircraftService.fetchFromAviationStack w))%nat; simpl;
      [discriminate | trivial].
Qed.

Lemma report_counts_fetched_records_witness :
  Database.sequence
    (AircraftService.store
       (AircraftService.fetchAircraftData (sky [cruising; over_the_equator; parked])
          Database.empty))
  = (0 + Z.of_nat 2)%Z
  /\ AircraftService.store (AircraftService.fetchAircraftData outage_without_key four_aircraft_table)
     = four_aircraft_table.
Proof.
  destruct report_counts_fetched_records as [Hupdated Hnone].
  split.
  - destruct (Hupdated (sky [cruising; over_the_equator; parked]) Database.empty
                       3%nat AircraftService.OpenSky eq_refl) as [_ [_ [E _]]].
    exact E.
  - apply Hnone. reflexivity.
Defined.

(** ** Stopping the scheduler *)

(** X13: [stopAircraftUpdates] stops nothing.  No event takes a schedule
    away; a tick after the stop starts a fetch cycle as before; and the
    stop opens the guard of the start, so that stopping and starting again
    leaves one schedule more, each of which fires on its own. *)
Theorem stop_stops_nothing :
  (forall (s : AircraftService.Scheduler) (e : AircraftService.Event),
      (AircraftService.schedules s <= AircraftService.schedules (AircraftService.step s e))%nat)
  /\ (forall s : AircraftService.Scheduler,
         (0 < AircraftService.schedules s)%nat ->
         AircraftService.in_flight
           (AircraftService.step (AircraftService.stopAircraftUpdates s) AircraftService.Tick)
         = S (AircraftService.in_flight s))
  /\ (forall s : AircraftService.Scheduler,
         AircraftService.schedules
           (AircraftService.startAircraftUpdates (AircraftService.stopAircraftUpdates s))
         = S (AircraftService.schedules s)
         /\ AircraftService.in_flight
              (AircraftService.startAircraftUpdates (AircraftService.stopAircraftUpdates s))
            = S (AircraftService.in_flight s)).
Proof.
  split; [| split].
  - intros s e. destruct e; simpl; try lia.
    + unfold AircraftService.startAircraftUpdates.
      destruct (AircraftService.isRunning s); simpl; lia.
    + destruct (AircraftService.schedules s); simpl; lia.
  - intros s H. simpl. destruct (AircraftService.schedules s); [lia | reflexivity].
  - intros s. split; reflexivity.
Qed.

Lemma stop_stops_nothing_witness :
  AircraftService.in_flight
    (AircraftService.run [AircraftService.Start; AircraftService.Settle;
                          AircraftService.Stop; AircraftService.Tick])
  = 1%nat.
Proof.
  destruct stop_stops_nothing as [_ [Htick _]].
  apply (Htick (AircraftService.run [AircraftService.Start; AircraftService.Settle])).
  simpl. lia.
Defined.

(** ** The range of the haversine distance *)

Module RangeFacts.

Import Haversine.
Local Open Scope R_scope.

Lemma atan_nonneg (x : R) : 0 <= x -> 0 <= atan x.
Proof.
  intros [H | H].
  - left. rewrite <- atan_0. now apply atan_increasing.
  - subst x. rewrite atan_0. Lra.lra.
Qed.

(** In the first quadrant the angle lies between 0 and a right angle. *)
Lemma Math_atan2_quadrant (y x : R) :
  0 <= y -> 0 <= x -> 0 <= Math_atan2 y x <= PI / 2.
Proof.
  intros Hy Hx. unfold Math_atan2. pose proof PI_RGT_0 as Hpi.
  destruct (total_order_T x 0) as [[H | H] | H].
  - Lra.lra.
  - destruct (total_order_T y 0) as [[H' | H'] | H']; Lra.lra.
  - split.
    + apply atan_nonneg. apply Rmult_le_pos; [exact Hy |].
      left. now apply Rinv_0_lt_compat.
    + left. apply atan_bound.
Qed.

End RangeFacts.

(** X14: [calculateDistance] never returns a negative distance: whatever
    the four arguments are, valid coordinates or not, a result that is a
    number is at least 0. *)
Theorem calculateDistance_never_negative :
  forall lat1 lon1 lat2 lon2 d : R,
    Haversine.calculateDistance lat1 lon1 lat2 lon2 = Some d ->
    (0 <= d)%R.
Proof.
  intros lat1 lon1 lat2 lon2 d.
  unfold Haversine.calculateDistance, Haversine.Math_sqrt.
  destruct (Rlt_dec (Haversine.haversine_a lat1 lon1 lat2 lon2) 0) as [H | _];
    [discriminate |].
  destruct (Rlt_dec (1 - Haversine.haversine_a lat1 lon1 lat2 lon2) 0) as [H | _];
    [discriminate |].
  intros [= <-].
  pose proof (RangeFacts.Math_atan2_quadrant
                (sqrt_pos (Haversine.haversine_a lat1 lon1 lat2 lon2))
                (sqrt_pos (1 - Haversine.haversine_a lat1 lon1 lat2 lon2))) as Hangle.
  Lra.lra.
Qed.

Lemma calculateDistance_never_negative_witness :
  exists d : R,
    Haversine.calculateDistance 40.7128 (-74.006) 51.5074 (-0.1278) = Some d
    /\ (0 <= d)%R.
Proof.
  destruct (@HaversineFacts.calculateDistance_is_a_number
              40.7128%R (-74.006)%R 51.5074%R (-0.1278)%R) as [d E].
  - unfold Haversine.valid. Lra.lra.
  - unfold Haversine.valid. Lra.lra.
  - exists d. split; [exact E |].
    exact (calculateDistance_never_negative _ _ _ _ E).
Defined.

(** ** The aircraft routes *)

Module RouteFacts.

Import AircraftService AircraftRoutes RouteSpec.

Section Rounding.

Variable times : Q -> Q -> Q.
Variable over : Q -> Q -> Q.

Lemma reported_distance (a : Nearby) (d : Q) :
  distance_km a = Some d ->
  plane_distance_km (transformed times over a) = Some (reported times over d).
Proof. intros E. unfold transformed. cbn [plane_distance_km]. now rewrite E. Qed.

Hypothesis times_monotone : monotone times.
Hypothesis over_monotone : monotone over.

Lemma reported_monotone (d d' : Q) :
  d <= d' -> reported times over d <= reported times over d'.
Proof.
  intros H. unfold reported. apply over_monotone.
  rewrite <- Zle_Qle. apply Qfloor_resp_le.
  pose proof (times_monotone H). Lqa.lra.
Qed.

Lemma transformed_ascending (a b : Nearby) :
  Spec.ascending a b ->
  reported_ascending (transformed times over a) (transformed times over b).
Proof.
  unfold Spec.ascending, reported_ascending. intros H.
  destruct (ProximityFacts.le_number _ _ H) as [x [y [Ea [Eb Hxy]]]].
  rewrite (reported_distance _ Ea), (reported_distance _ Eb).
  apply ProximityFacts.le_iff. now apply reported_monotone.
Qed.

Lemma map_sorted (l : list Nearby) :
  StronglySorted Spec.ascending l ->
  StronglySorted reported_ascending (map (transformed times over) l).
Proof.
  induction 1 as [| a l Hsorted IH Hall]; simpl; constructor; trivial.
  rewrite Forall_forall in *. intros p Hp.
  apply in_map_iff in Hp. destruct Hp as [b [E Hb]]. subst p.
  apply transformed_ascending. now apply Hall.
Qed.

End Rounding.

(** Exact arithmetic is monotone. *)
Lemma exact_product_monotone : monotone Qmult.
Proof. intros p q H. Lqa.lra. Qed.

Lemma exact_quotient_monotone : monotone Qdiv.
Proof.
  intros p q H. unfold Qdiv. apply Qmult_le_compat_r; [exact H | discriminate].
Qed.

Lemma missing_false (x : option string) :
  missing x = false <-> exists s, x = Some s /\ s <> EmptyString.
Proof.
  destruct x as [s |]; simpl.
  - rewrite String.eqb_neq. split.
    + intros H. now exists s.
    + intros [s' [E H]]. now inversion E; subst.
  - split; [discriminate | intros [s [E _]]; discriminate].
Qed.

Lemma in_range (q low high : Q) :
  below (Finite q) low || beyond (Finite q) high = false <-> low <= q <= high.
Proof.
  simpl. rewrite orb_false_iff, !negb_false_iff, !Qle_bool_iff. tauto.
Qed.

End RouteFacts.

Module NearbyFacts.

Lemma nearby_Ok_iff :
  forall (parseFloat : string -> AircraftRoutes.parsed) (parseInt : string -> option Z)
         (calculateDistance : JS.number -> JS.number -> JS.number -> JS.number -> JS.number)
         (times over : Q -> Q -> Q)
         (query : AircraftRoutes.Query) (now : Timestamp) (db : Database.t)
         (data : AircraftRoutes.NearbyData),
    AircraftRoutes.nearby parseFloat parseInt calculateDistance times over query now db
    = AircraftRoutes.Ok data
    <->
    exists (lat lon : string) (la lo : Q) (radiusKm : Z),
      AircraftRoutes.query_lat query = Some lat /\ lat <> EmptyString
      /\ AircraftRoutes.query_lon query = Some lon /\ lon <> EmptyString
      /\ parseFloat lat = AircraftRoutes.Finite la
      /\ parseFloat lon = AircraftRoutes.Finite lo
      /\ match AircraftRoutes.query_radius query with
         | Some radius => parseInt radius
         | None => Some 100%Z
         end = Some radiusKm
      /\ -90 <= la <= 90 /\ -180 <= lo <= 180
      /\ data
         = {| AircraftRoutes.nearby_aircraft :=
                map (AircraftRoutes.transformed times over)
                    (AircraftService.getAircraftNearLocation calculateDistance la lo
                       (inject_Z radiusKm) db);
              AircraftRoutes.user_location := (la, lo);
              AircraftRoutes.search_radius_km := radiusKm;
              AircraftRoutes.nearby_timestamp := now;
              AircraftRoutes.nearby_count :=
                List.length
                  (AircraftService.getAircraftNearLocation calculateDistance la lo
                     (inject_Z radiusKm) db) |}.
Proof.
  intros parseFloat parseInt calculateDistance times over query now db data.
  unfold AircraftRoutes.nearby, AircraftRoutes.radius_of. split.
  - destruct (AircraftRoutes.missing (AircraftRoutes.query_lat query)
              || AircraftRoutes.missing (AircraftRoutes.query_lon query)) eqn:Hgiven;
      [discriminate |].
    apply orb_false_iff in Hgiven. destruct Hgiven as [Hlat Hlon].
    apply RouteFacts.missing_false in Hlat. destruct Hlat as [lat [Elat Hlat]].
    apply RouteFacts.missing_false in Hlon. destruct Hlon as [lon [Elon Hlon]].
    rewrite Elat, Elon.
    destruct (parseFloat lat) as [| ? | la] eqn:Ela;
      destruct (parseFloat lon) as [| ? | lo] eqn:Elo;
      destruct (match AircraftRoutes.query_radius query with
                | Some radius => parseInt radius
                | None => Some 100%Z
                end) as [radiusKm |] eqn:Er;
      try discriminate.
    destruct (AircraftRoutes.below (AircraftRoutes.Finite la) (-90)
              || AircraftRoutes.beyond (AircraftRoutes.Finite la) 90
              || AircraftRoutes.below (AircraftRoutes.Finite lo) (-180)
              || AircraftRoutes.beyond (AircraftRoutes.Finite lo) 180) eqn:Hrange;
      [discriminate |].
    rewrite <- orb_assoc in Hrange. apply orb_false_iff in Hrange.
    destruct Hrange as [Hla Hlo].
    apply RouteFacts.in_range in Hla. apply RouteFacts.in_range in Hlo.
    intros E. inversion E; subst data. rewrite length_map.
    exists lat, lon, la, lo, radiusKm. repeat split; tauto.
  - intros [lat [lon [la [lo [radiusKm
      [Elat [Hlat [Elon [Hlon [Ela [Elo [Er [Hla [Hlo Hdata]]]]]]]]]]]]]].
    assert (Hgiven : AircraftRoutes.missing (AircraftRoutes.query_lat query)
                     || AircraftRoutes.missing (AircraftRoutes.query_lon query) = false).
    { apply orb_false_iff. split; apply RouteFacts.missing_false; eauto. }
    rewrite Hgiven, Elat, Elon, Ela, Elo, Er.
    apply RouteFacts.in_range in Hla. apply RouteFacts.in_range in Hlo.
    rewrite <- orb_assoc, Hla, Hlo. simpl. rewrite length_map. now subst data.
Qed.

End NearbyFacts.

(** X15: GET /nearby answers with data exactly for the queries whose [lat]
    and [lon] are given, not empty, parse to numbers between -90 and 90 and
    between -180 and 180, and whose [radius] is missing or parses to a
    number.  The data are then the result of the proximity query for the
    parsed numbers, with 100 for a missing radius, each aircraft
    transformed, with the parsed numbers echoed and the aircraft
    counted. *)
Theorem nearby_answers_valid_queries :
  forall (parseFloat : string -> AircraftRoutes.parsed) (parseInt : string -> option Z)
         (calculateDistance : JS.number -> JS.number -> JS.number -> JS.number -> JS.number)
         (times over : Q -> Q -> Q)
         (query : AircraftRoutes.Query) (now : Timestamp) (db : Database.t)
         (data : AircraftRoutes.NearbyData),
    AircraftRoutes.nearby parseFloat parseInt calculateDistance times over query now db
    = AircraftRoutes.Ok data
    <->
    exists (lat lon : string) (la lo : Q) (radiusKm : Z),
      AircraftRoutes.query_lat query = Some lat /\ lat <> EmptyString
      /\ AircraftRoutes.query_lon query = Some lon /\ lon <> EmptyString
      /\ parseFloat lat = AircraftRoutes.Finite la
      /\ parseFloat lon = AircraftRoutes.Finite lo
      /\ match AircraftRoutes.query_radius query with
         | Some radius => parseInt radius
         | None => Some 100%Z
         end = Some radiusKm
      /\ -90 <= la <= 90 /\ -180 <= lo <= 180
      /\ data
         = {| AircraftRoutes.nearby_aircraft :=
                map (AircraftRoutes.transformed times over)
                    (AircraftService.getAircraftNearLocation calculateDistance la lo
                       (inject_Z radiusKm) db);
              AircraftRoutes.user_location := (la, lo);
              AircraftRoutes.search_radius_km := radiusKm;
              AircraftRoutes.nearby_timestamp := now;
              AircraftRoutes.nearby_count :=
                List.length
                  (AircraftService.getAircraftNearLocation calculateDistance la lo
                     (inject_Z radiusKm) db) |}.
Proof. exact NearbyFacts.nearby_Ok_iff. Qed.

Lemma nearby_answers_valid_queries_witness :
  exists data,
    AircraftRoutes.nearby sample_parseFloat sample_parseInt by_latitude Qmult Qdiv
      (from_frankfurt None) 1700000100%Z four_aircraft_table
    = AircraftRoutes.Ok data
    /\ AircraftRoutes.search_radius_km data = 100%Z
    /\ AircraftRoutes.nearby_count data = 2%nat.
Proof.
  eexists. split; [| split].
  - apply nearby_answers_valid_queries.
    exists "50"%string, "8"%string, 50, 8, 100%Z.
    repeat split; try reflexivity; try discriminate.
  - reflexivity.
  - reflexivity.
Defined.

(** X16: in every answer of GET /nearby the aircraft are counted, at most
    a thousand, and each is an aircraft of the proximity query with the
    number [Math.round(d * 100) / 100] of its distance [d] as its reported
    distance, never [NaN]; and they are listed in ascending order of the
    reported distance, for every product and quotient that are monotone as
    those of doubles are. *)
Theorem nearby_reports_rounded_distances :
  forall (parseFloat : string -> AircraftRoutes.parsed) (parseInt : string -> option Z)
         (calculateDistance : JS.number -> JS.number -> JS.number -> JS.number -> JS.number)
         (times over : Q -> Q -> Q)
         (query : AircraftRoutes.Query) (now : Timestamp) (db : Database.t)
         (data : AircraftRoutes.NearbyData),
    AircraftRoutes.nearby parseFloat parseInt calculateDistance times over query now db
    = AircraftRoutes.Ok data ->
    AircraftRoutes.nearby_count data = List.length (AircraftRoutes.nearby_aircraft data)
    /\ (AircraftRoutes.nearby_count data <= 1000)%nat
    /\ (RouteSpec.monotone times -> RouteSpec.monotone over ->
        StronglySorted RouteSpec.reported_ascending (AircraftRoutes.nearby_aircraft data))
    /\ (forall p, In p (AircraftRoutes.nearby_aircraft data) ->
          exists (a : AircraftService.Nearby) (d : Q),
            In a (AircraftService.getAircraftNearLocation calculateDistance
                    (fst (AircraftRoutes.user_location data))
                    (snd (AircraftRoutes.user_location data))
                    (inject_Z (AircraftRoutes.search_radius_km data)) db)
            /\ p = AircraftRoutes.transformed times over a
            /\ AircraftService.distance_km a = Some d
            /\ AircraftRoutes.plane_distance_km p = Some (RouteSpec.reported times over d)).
Proof.
  intros parseFloat parseInt calculateDistance times over query now db data Hdata.
  apply NearbyFacts.nearby_Ok_iff in Hdata.
  destruct Hdata as [lat [lon [la [lo [radiusKm [_ [_ [_ [_ [_ [_ [_ [_ [_ Hdata]]]]]]]]]]]]]].
  subst data. cbn [AircraftRoutes.nearby_count AircraftRoutes.nearby_aircraft
                   AircraftRoutes.user_location AircraftRoutes.search_radius_km fst snd].
  split; [now rewrite length_map | split; [| split]].
  - apply ResultFacts.result_length.
  - intros Htimes Hover.
    apply RouteFacts.map_sorted; trivial. apply ResultFacts.result_sorted.
  - intros p Hp. apply in_map_iff in Hp. destruct Hp as [a [E Ha]].
    destruct (ResultFacts.result_has_distance _ _ _ _ _ _ Ha) as [d Ed].
    exists a, d.
    split; [exact Ha | split; [now symmetry | split; [exact Ed |]]].
    rewrite <- E. now apply RouteFacts.reported_distance.
Qed.

Lemma nearby_reports_rounded_distances_witness :
  exists data,
    AircraftRoutes.nearby sample_parseFloat sample_parseInt by_latitude Qmult Qdiv
      (from_frankfurt (Some "250"%string)) 1700000100%Z four_aircraft_table
    = AircraftRoutes.Ok data
    /\ AircraftRoutes.nearby_count data = 4%nat
    /\ map (fun p => option_map Qred (AircraftRoutes.plane_distance_km p))
           (AircraftRoutes.nearby_aircraft data)
       = [Some (111 # 2); Some 222; Some (555 # 2); Some 444]
    /\ StronglySorted RouteSpec.reported_ascending (AircraftRoutes.nearby_aircraft data).
Proof.
  eexists. split; [reflexivity | split; [reflexivity | split; [reflexivity |]]].
  apply (proj1 (proj2 (proj2
           (nearby_reports_rounded_distances sample_parseFloat sample_parseInt by_latitude
              Qmult Qdiv (from_frankfurt (Some "250"%string)) 1700000100%Z
              four_aircraft_table eq_refl)))).
  - exact RouteFacts.exact_product_monotone.
  - exact RouteFacts.exact_quotient_monotone.
Defined.

(** ** From the provider to the answer *)

Module PipelineFacts.

Import AircraftService AircraftRoutes.

Lemma transformOpenSkyData_callsign (state : StateVector) (a : Aircraft) :
  transformOpenSkyData state = Some a ->
  callsign a = JS.or (JS.index state 1) JS.JNull.
Proof.
  unfold transformOpenSkyData.
  destruct (if JS.truthy (JS.index state 12) then JS.join (JS.index state 12) "," else Some JS.JNull);
    [| discriminate].
  intros E. now inversion E.
Qed.

Lemma read_bind_number (q : Q) : read (Sqlite.bind (JS.JNum q)) = JS.JNum q.
Proof. reflexivity. Qed.

Lemma read_bind_string (s : string) : read (Sqlite.bind (JS.JStr s)) = JS.JStr s.
Proof. reflexivity. Qed.

Lemma or_null_string (s : string) :
  s <> EmptyString -> JS.or (JS.JStr s) JS.JNull = JS.JStr s.
Proof.
  intros H. unfold JS.or. simpl. apply String.eqb_neq in H. now rewrite H.
Qed.

Lemma or_null_falsy (v : JS.value) : JS.truthy v = false -> JS.or v JS.JNull = JS.JNull.
Proof. intros H. unfold JS.or. now rewrite H. Qed.

(** [find] in a table after a write. *)
Lemma find_replaced (now : Timestamp) (values : Fields Sqlite.cell) (db : Database.t) :
  Sqlite.same_key (icao24 values) (icao24 values) = true ->
  find (fun r => Sqlite.same_key (Database.key r) (icao24 values))
       (Database.aircraft (Database.insert_or_replace now values db))
  = Some {| Database.id := (Database.sequence db + 1)%Z;
            Database.columns := values;
            Database.last_updated := now |}.
Proof.
  intros Hkey. unfold Database.insert_or_replace. cbn [Database.aircraft].
  induction (Database.aircraft db) as [| r rows IH]; simpl.
  - unfold Database.key. cbn [Database.columns]. now rewrite Hkey.
  - destruct (Sqlite.same_key (Database.key r) (icao24 values)) eqn:E; simpl; trivial.
    now rewrite E.
Qed.

Lemma find_rows_with (k : Sqlite.cell) (db : Database.t) :
  find (fun r => Sqlite.same_key (Database.key r) k) (Database.aircraft db)
  = hd_error (Spec.rows_with k db).
Proof.
  unfold Spec.rows_with. induction (Database.aircraft db) as [| r rows IH]; simpl; trivial.
  now destruct (Sqlite.same_key (Database.key r) k).
Qed.

Lemma same_key_text (c : Sqlite.cell) (s : string) :
  Sqlite.same_key c (Sqlite.Text s) = true -> c = Sqlite.Text s.
Proof.
  destruct c as [| q | t]; simpl; try discriminate.
  intros H. apply String.eqb_eq in H. now subst.
Qed.

End PipelineFacts.

(** X17: what GET /nearby reports of an OpenSky state vector.  The
    [icao24] string, and the latitude, longitude, altitude and velocity
    that are numbers other than 0, come out as they went in; a callsign
    that is a string comes out as it went in unless it is empty; a missing
    or empty callsign comes out as 'Unknown', and a velocity of 0 as
    [null]. *)
Theorem reported_as_ingested :
  forall (state : AircraftService.StateVector) (a : Aircraft) (n : Z) (now : Timestamp)
         (calculateDistance : JS.number -> JS.number -> JS.number -> JS.number -> JS.number)
         (times over : Q -> Q -> Q) (lat lon : Q),
    AircraftService.transformOpenSkyData state = Some a ->
    let plane :=
      AircraftRoutes.transformed times over
        (AircraftService.with_distance calculateDistance lat lon
           {| Database.id := n;
              Database.columns := AircraftService.parameters a;
              Database.last_updated := now |}) in
    (forall s, JS.index state 0 = JS.JStr s -> AircraftRoutes.plane_icao24 plane = JS.JStr s)
    /\ (forall q, JS.index state 6 = JS.JNum q -> ~ q == 0 ->
                  AircraftRoutes.plane_latitude plane = JS.JNum q)
    /\ (forall q, JS.index state 5 = JS.JNum q -> ~ q == 0 ->
                  AircraftRoutes.plane_longitude plane = JS.JNum q)
    /\ (forall q, JS.index state 7 = JS.JNum q -> ~ q == 0 ->
                  AircraftRoutes.plane_altitude plane = JS.JNum q)
    /\ (forall q, JS.index state 9 = JS.JNum q -> ~ q == 0 ->
                  AircraftRoutes.plane_velocity plane = JS.JNum q)
    /\ (forall q, JS.index state 9 = JS.JNum q -> q == 0 ->
                  AircraftRoutes.plane_velocity plane = JS.JNull)
    /\ (forall s, JS.index state 1 = JS.JStr s -> s <> EmptyString ->
                  AircraftRoutes.plane_callsign plane = JS.JStr s)
    /\ (JS.truthy (JS.index state 1) = false ->
        AircraftRoutes.plane_callsign plane = JS.JStr "Unknown").
Proof.
  intros state a n now calculateDistance times over lat lon Ha plane.
  destruct (NormalizerFacts.transformOpenSkyData_fields _ Ha)
    as [Hkey [Hlon [Hlat [Halt Hvel]]]].
  pose proof (PipelineFacts.transformOpenSkyData_callsign _ Ha) as Hcall.
  unfold plane, AircraftRoutes.transformed, AircraftService.with_distance.
  cbn [AircraftService.row Database.columns AircraftService.parameters
       AircraftRoutes.plane_icao24 AircraftRoutes.plane_latitude
       AircraftRoutes.plane_longitude AircraftRoutes.plane_altitude
       AircraftRoutes.plane_velocity AircraftRoutes.plane_callsign
       icao24 latitude longitude altitude velocity callsign].
  rewrite Hkey, Hlon, Hlat, Halt, Hvel, Hcall.
  repeat split.
  - intros s E. now rewrite E.
  - intros q E Hq. now rewrite E, (NormalizerFacts.or_null_nonzero Hq).
  - intros q E Hq. now rewrite E, (NormalizerFacts.or_null_nonzero Hq).
  - intros q E Hq. now rewrite E, (NormalizerFacts.or_null_nonzero Hq).
  - intros q E Hq. now rewrite E, (NormalizerFacts.or_null_nonzero Hq).
  - intros q E Hq. now rewrite E, (NormalizerFacts.or_null_zero Hq).
  - intros s E Hs. rewrite E, (PipelineFacts.or_null_string Hs). simpl.
    unfold JS.or. simpl. apply String.eqb_neq in Hs. now rewrite Hs.
  - intros Hfalsy. now rewrite (PipelineFacts.or_null_falsy _ Hfalsy).
Qed.

Lemma reported_as_ingested_witness :
  let plane :=
    AircraftRoutes.transformed Qmult Qdiv
      (AircraftService.with_distance by_latitude 50 8
         {| Database.id := 1;
            Database.columns := AircraftService.parameters (record_of parked);
            Database.last_updated := 1700000000%Z |}) in
  AircraftRoutes.plane_icao24 plane = JS.JStr "3c6444"
  /\ AircraftRoutes.plane_latitude plane = JS.JNum 50.0379
  /\ AircraftRoutes.plane_velocity plane = JS.JNull
  /\ AircraftRoutes.plane_callsign plane = JS.JStr "DLH9LF".
Proof.
  intros plane.
  destruct (reported_as_ingested parked (a := record_of parked) 1 1700000000%Z by_latitude
              Qmult Qdiv 50 8 eq_refl)
    as [Hkey [Hlat [_ [_ [_ [Hzero [Hcall _]]]]]]].
  split; [| split; [| split]].
  - now apply Hkey.
  - apply Hlat; [reflexivity | discriminate].
  - now apply (Hzero 0).
  - apply Hcall; [reflexivity | discriminate].
Defined.

(** X18: GET /:icao24 finds what was written.  Right after a record with a
    string [icao24] is stored, the route answers with the row that the
    write left; a key without a row gets 404; and an answer is a row of
    the table with that very [icao24], the only one on a table with one
    row per key. *)
Theorem lookup_finds_what_was_written :
  (forall (s : string) (a : Aircraft) (written asked : Timestamp) (db : Database.t),
      AircraftService.storable a = true ->
      icao24 a = JS.JStr s ->
      AircraftRoutes.by_icao24 s asked (AircraftService.stmt_run written a db)
      = AircraftRoutes.Ok
          ({| Database.id := (Database.sequence db + 1)%Z;
              Database.columns := AircraftService.parameters a;
              Database.last_updated := written |}, asked))
  /\ (forall (s : string) (asked : Timestamp) (db : Database.t),
         s <> EmptyString ->
         Spec.rows_with (Sqlite.Text s) db = [] ->
         AircraftRoutes.by_icao24 s asked db
         = AircraftRoutes.NotFound "Aircraft not found"
             ("No aircraft found with ICAO24: " ++ s))
  /\ (forall (s : string) (asked t : Timestamp) (db : Database.t) (r : Database.Row),
         AircraftRoutes.by_icao24 s asked db = AircraftRoutes.Ok (r, t) ->
         In r (Database.aircraft db) /\ Database.key r = Sqlite.Text s /\ t = asked
         /\ (Spec.one_row_per_key db -> Spec.rows_with (Sqlite.Text s) db = [r])).
Proof.
  split; [| split].
  - intros s a written asked db Ha Hs. unfold AircraftRoutes.by_icao24.
    assert (Hne : String.eqb s EmptyString = false).
    { unfold AircraftService.storable in Ha. rewrite Hs in Ha. simpl in Ha.
      destruct (String.eqb s EmptyString); [discriminate | reflexivity]. }
    rewrite Hne. unfold AircraftService.stmt_run.
    assert (Ekey : Sqlite.Text s = icao24 (AircraftService.parameters a))
      by (simpl; now rewrite Hs).
    rewrite Ekey.
    now rewrite PipelineFacts.find_replaced by now apply StoreFacts.storable_key.
  - intros s asked db Hs Hnone. unfold AircraftRoutes.by_icao24.
    apply String.eqb_neq in Hs. rewrite Hs.
    now rewrite PipelineFacts.find_rows_with, Hnone.
  - intros s asked t db r. unfold AircraftRoutes.by_icao24.
    destruct (String.eqb s EmptyString); [discriminate |].
    destruct (find (fun r0 => Sqlite.same_key (Database.key r0) (Sqlite.Text s))
                   (Database.aircraft db)) as [row |] eqn:E; [| discriminate].
    intros H. inversion H; subst row t.
    pose proof (find_some _ _ E) as [Hin Hkey].
    repeat split; trivial.
    + now apply PipelineFacts.same_key_text.
    + intros Hone. rewrite PipelineFacts.find_rows_with in E.
      specialize (Hone (Sqlite.Text s)).
      destruct (Spec.rows_with (Sqlite.Text s) db) as [| r0 [| r1 rest]];
        simpl in *; try discriminate; [now inversion E | lia].
Qed.

Lemma lookup_finds_what_was_written_witness :
  (exists r, AircraftRoutes.by_icao24 "aaaaaa" 1700000100%Z
               (AircraftService.stmt_run 1700000060%Z (record_of (airborne_at "aaaaaa" 50.6 9100))
                  four_aircraft_table)
             = AircraftRoutes.Ok (r, 1700000100%Z)
             /\ Database.id r = 5%Z /\ Database.last_updated r = 1700000060%Z)
  /\ AircraftRoutes.by_icao24 "ffffff" 1700000100%Z four_aircraft_table
     = AircraftRoutes.NotFound "Aircraft not found" "No aircraft found with ICAO24: ffffff"
  /\ Spec.rows_with (Sqlite.Text "bbbbbb") four_aircraft_table
     = [nth 1 (Database.aircraft four_aircraft_table) (AircraftService.row (candidate_at 0 0))].
Proof.
  destruct lookup_finds_what_was_written as [Hfound [Hmissing Hanswer]].
  split; [| split].
  - eexists. split; [| split].
    + apply (Hfound "aaaaaa"%string); reflexivity.
    + reflexivity.
    + reflexivity.
  - apply Hmissing; [discriminate | reflexivity].
  - apply (Hanswer "bbbbbb"%string 1700000100%Z 1700000100%Z); [reflexivity |].
    apply (StoreFacts.cycle_keeps_one_row_per_key busy_sky (db := Database.empty)).
    intros k. simpl. lia.
Defined.

(** ** The listing and the statistics *)

Module ListingFacts.

Import AircraftService AircraftRoutes Inventory.

Lemma nonzero_not_null (c : Sqlite.cell) : nonzero c = true -> Sqlite.is_not_null c = true.
Proof. destruct c; simpl; trivial. Qed.

Lemma flying_is_airborne (r : Database.Row) :
  positioned r = true -> flying r = airborne r.
Proof.
  unfold positioned, flying, airborne. rewrite !andb_true_iff. intros [[_ Hlat] Hlon].
  rewrite (nonzero_not_null _ Hlat), (nonzero_not_null _ Hlon).
  now rewrite !andb_true_r.
Qed.

Lemma newer_first_smaller (x y : Database.Row) :
  JS.before Database.newer_first y x = true -> newest_first y x.
Proof.
  unfold JS.before, Database.newer_first, newest_first. rewrite ProximityFacts.gt_iff.
  rewrite <- (Zlt_Qlt 0). lia.
Qed.

Lemma newer_first_kept (x y : Database.Row) :
  JS.before Database.newer_first y x = false -> newest_first x y.
Proof.
  unfold JS.before, Database.newer_first, newest_first. intros H.
  destruct (Z_lt_le_dec (Database.last_updated x) (Database.last_updated y)) as [Hlt | Hle];
    [| exact Hle].
  exfalso. rewrite <- not_true_iff_false in H. apply H.
  apply ProximityFacts.gt_iff. rewrite <- (Zlt_Qlt 0). lia.
Qed.

Lemma order_by_sorted (rows : list Database.Row) :
  StronglySorted newest_first (Database.order_by_last_updated_desc rows).
Proof.
  apply Sorted_StronglySorted.
  - intros a b c. unfold newest_first. lia.
  - unfold Database.order_by_last_updated_desc.
    apply SortFacts.sort_Sorted with (dom := fun _ => True).
    + intros x y _ _. apply newer_first_smaller.
    + intros x y _ _. apply newer_first_kept.
    + apply Forall_forall. trivial.
Qed.

Lemma firstn_sorted (n : nat) (rows : list Database.Row) :
  StronglySorted newest_first rows -> StronglySorted newest_first (firstn n rows).
Proof.
  intros H. revert n. induction H as [| r rows Hsorted IH Hall]; intros [| n]; simpl;
    try constructor; trivial.
  rewrite Forall_forall in *. intros x Hx. apply Hall.
  now apply ProximityFacts.In_firstn in Hx.
Qed.

Lemma disjoint_counts (A : Type) (p q : A -> bool) (l : list A) :
  (forall x, p x = true -> q x = false) ->
  (List.length (filter p l) + List.length (filter q l) <= List.length l)%nat.
Proof.
  intros H. induction l as [| x l IH]; simpl; [lia |].
  destruct (p x) eqn:Ep.
  - rewrite (H x Ep). simpl. lia.
  - destruct (q x); simpl; lia.
Qed.

Lemma zero_is_not_one (c : Sqlite.cell) : Sqlite.eq_zero c = true -> eq_one c = false.
Proof.
  destruct c as [| q | s]; simpl; try discriminate.
  intros H. apply Qeq_bool_iff in H.
  destruct (Qeq_bool q 1) eqn:E; trivial.
  apply Qeq_bool_iff in E. rewrite H in E. discriminate.
Qed.

End ListingFacts.

(** X19: GET /all lists the head of the candidates of the proximity query.
    On a table whose rows all have a key and a position, as the tables that
    fetch cycles fill, its list is the first hundred of the thousand rows
    that GET /nearby would scan, newest first. *)
Theorem all_lists_the_newest_candidates :
  forall (now : Timestamp) (db : Database.t),
    Forall (fun r => Inventory.positioned r = true) (Database.aircraft db) ->
    AircraftRoutes.all now db
    = AircraftRoutes.Ok
        {| AircraftRoutes.all_aircraft := firstn 100 (AircraftService.select_flying db);
           AircraftRoutes.all_count :=
             List.length (firstn 100 (AircraftService.select_flying db));
           AircraftRoutes.all_timestamp := now |}
    /\ (List.length (firstn 100 (AircraftService.select_flying db)) <= 100)%nat
    /\ StronglySorted newest_first (firstn 100 (AircraftService.select_flying db)).
Proof.
  intros now db Hdb.
  assert (E : filter AircraftRoutes.airborne (Database.aircraft db)
              = filter AircraftService.flying (Database.aircraft db)).
  { apply filter_ext_in. intros r Hr. symmetry. apply ListingFacts.flying_is_airborne.
    rewrite Forall_forall in Hdb. now apply Hdb. }
  unfold AircraftRoutes.all, AircraftService.select_flying.
  rewrite E, firstn_firstn. change (Init.Nat.min 100 1000) with 100%nat.
  split; [reflexivity | split].
  - apply firstn_le_length.
  - apply ListingFacts.firstn_sorted, ListingFacts.order_by_sorted.
Qed.

Lemma all_lists_the_newest_candidates_witness :
  AircraftRoutes.all 1700000100%Z four_aircraft_table
  = AircraftRoutes.Ok
      {| AircraftRoutes.all_aircraft := firstn 100 (AircraftService.select_flying four_aircraft_table);
         AircraftRoutes.all_count := 4;
         AircraftRoutes.all_timestamp := 1700000100%Z |}.
Proof.
  destruct (all_lists_the_newest_candidates 1700000100%Z four_aircraft_table) as [E _].
  - repeat constructor.
  - exact E.
Defined.

(** X20: the counts of GET /stats/overview fit together: no row is counted
    both as airborne and as on the ground, so that the two counts together
    do not exceed the total, and the rows updated within the last hour do
    not exceed it either. *)
Theorem stats_fit_together :
  forall (now t : Timestamp) (db : Database.t) (stats : AircraftRoutes.Stats),
    AircraftRoutes.stats_overview now db = AircraftRoutes.Ok (stats, t) ->
    AircraftRoutes.total stats = List.length (Database.aircraft db)
    /\ (AircraftRoutes.stats_airborne stats + AircraftRoutes.stats_on_ground stats
        <= AircraftRoutes.total stats)%nat
    /\ (AircraftRoutes.recent_updates stats <= AircraftRoutes.total stats)%nat.
Proof.
  intros now t db stats H. unfold AircraftRoutes.stats_overview in H.
  inversion H; subst stats t. simpl. split; [reflexivity | split].
  - apply ListingFacts.disjoint_counts. intros r Hr.
    unfold AircraftRoutes.airborne in Hr. apply andb_true_iff in Hr.
    now apply ListingFacts.zero_is_not_one.
  - apply filter_length_le.
Qed.

Lemma stats_fit_together_witness :
  AircraftRoutes.stats_overview 1700000100%Z
    (AircraftService.updateDatabase noon [record_of parked] four_aircraft_table)
  = AircraftRoutes.Ok
      ({| AircraftRoutes.total := 5; AircraftRoutes.stats_airborne := 4;
          AircraftRoutes.stats_on_ground := 1; AircraftRoutes.recent_updates := 5 |},
       1700000100%Z)
  /\ (4 + 1 <= 5)%nat.
Proof.
  split; [reflexivity |].
  destruct (@stats_fit_together 1700000100%Z 1700000100%Z
              (AircraftService.updateDatabase noon [record_of parked] four_aircraft_table)
              {| AircraftRoutes.total := 5; AircraftRoutes.stats_airborne := 4;
                 AircraftRoutes.stats_on_ground := 1; AircraftRoutes.recent_updates := 5 |}
              eq_refl)
    as [_ [H _]].
  exact H.
Defined.

(** ** The scan of the proximity query *)

Module ScanFacts.

Import AircraftService Inventory.

Lemma sorted_split (n : nat) (rows : list Database.Row) :
  StronglySorted newest_first rows ->
  forall kept dropped,
    In kept (firstn n rows) -> In dropped (skipn n rows) -> newest_first kept dropped.
Proof.
  intros H. revert n. induction H as [| r rows Hsorted IH Hall]; intros [| n] kept dropped;
    simpl; try tauto.
  intros [E | Hkept] Hdropped.
  - subst kept. rewrite Forall_forall in Hall. apply Hall.
    rewrite <- (firstn_skipn n rows). apply in_or_app. now right.
  - now apply (IH n).
Qed.

Lemma written_row_is_flying (a : Aircraft) (h : Q) (n : Z) (now : Timestamp) :
  storable a = true -> on_ground a = JS.JBool false -> altitude a = JS.JNum h -> 0 < h ->
  flying {| Database.id := n; Database.columns := parameters a;
            Database.last_updated := now |} = true.
Proof.
  intros Ha Hground Haltitude Hh. unfold storable in Ha.
  rewrite !andb_true_iff in Ha. destruct Ha as [[_ Hlat] Hlon].
  unfold flying. cbn [Database.columns parameters on_ground altitude latitude longitude].
  rewrite Hground, Haltitude, (StoreFacts.bind_truthy _ Hlat), (StoreFacts.bind_truthy _ Hlon).
  simpl. rewrite !andb_true_r. apply negb_true_iff, not_true_iff_false.
  rewrite Qle_bool_iff. now apply Qlt_not_le.
Qed.

End ScanFacts.

(** X21: the limit of the scan keeps the newest rows.  A flying row of the
    table that is not among the candidates was not updated later than any
    candidate. *)
Theorem scan_keeps_the_newest :
  forall (db : Database.t) (kept dropped : Database.Row),
    In kept (AircraftService.select_flying db) ->
    In dropped (Database.aircraft db) ->
    AircraftService.flying dropped = true ->
    ~ In dropped (AircraftService.select_flying db) ->
    (Database.last_updated dropped <= Database.last_updated kept)%Z.
Proof.
  intros db kept dropped Hkept Hrow Hflying Hdropped.
  unfold AircraftService.select_flying in *.
  set (rows := Database.order_by_last_updated_desc
                 (filter AircraftService.flying (Database.aircraft db))) in *.
  apply (ScanFacts.sorted_split 1000 (ListingFacts.order_by_sorted _) kept dropped Hkept).
  assert (Hin : In dropped rows).
  { unfold rows, Database.order_by_last_updated_desc.
    apply SortFacts.sort_In. rewrite <- in_rev. now apply filter_In. }
  rewrite <- (firstn_skipn 1000 rows) in Hin. apply in_app_or in Hin. tauto.
Qed.

Lemma scan_keeps_the_newest_witness :
  (Database.last_updated (crowded_row 1) <= Database.last_updated (crowded_row 1001))%Z.
Proof.
  apply (scan_keeps_the_newest crowded_table).
  - assert (E : hd_error (AircraftService.select_flying crowded_table)
                = Some (crowded_row 1001)) by (vm_compute; reflexivity).
    destruct (AircraftService.select_flying crowded_table) as [| r rest];
      [discriminate | inversion E; now left].
  - left. reflexivity.
  - reflexivity.
  - intros H. apply (in_map Database.id) in H.
    assert (E : existsb (Z.eqb (Database.id (crowded_row 1)))
                        (map Database.id (AircraftService.select_flying crowded_table))
                = false) by (vm_compute; reflexivity).
    apply not_true_iff_false in E. apply E.
    apply existsb_exists. exists (Database.id (crowded_row 1)).
    split; [exact H | apply Z.eqb_refl].
Defined.

(** X22: what is stored is found.  Right after the write of an airborne
    record (not on the ground, altitude above 0), on a table with at most
    a thousand flying rows, the proximity query returns the row of that
    record whenever its distance is at most 200 km, whatever the radius. *)
Theorem stored_aircraft_is_found :
  forall (calculateDistance : JS.number -> JS.number -> JS.number -> JS.number -> JS.number)
         (lat lon radiusKm h d : Q) (now : Timestamp) (a : Aircraft) (db : Database.t),
    AircraftService.storable a = true ->
    on_ground a = JS.JBool false ->
    altitude a = JS.JNum h -> 0 < h ->
    (List.length (filter AircraftService.flying
                         (Database.aircraft (AircraftService.stmt_run now a db))) <= 1000)%nat ->
    let r := {| Database.id := (Database.sequence db + 1)%Z;
                Database.columns := AircraftService.parameters a;
                Database.last_updated := now |} in
    AircraftService.distance_km (AircraftService.with_distance calculateDistance lat lon r)
    = Some d ->
    d <= 200 ->
    In (AircraftService.with_distance calculateDistance lat lon r)
       (AircraftService.getAircraftNearLocation calculateDistance lat lon radiusKm
          (AircraftService.stmt_run now a db)).
Proof.
  intros calculateDistance lat lon radiusKm h d now a db Ha Hground Haltitude Hh Hsize r Hd Hnear.
  unfold AircraftService.getAircraftNearLocation.
  rewrite SortFacts.sort_In, filter_In. split.
  - apply in_map. apply ProximityFacts.select_flying_complete; trivial.
    + unfold AircraftService.stmt_run, Database.insert_or_replace. cbn [Database.aircraft].
      apply in_or_app. right. now left.
    + now apply ScanFacts.written_row_is_flying with h.
  - now apply RadiusFacts.visible_local with d.
Qed.

Lemma stored_aircraft_is_found_witness :
  In (Sqlite.Text "eeeeee")
     (map (fun n => icao24 (Database.columns (AircraftService.row n)))
          (AircraftService.getAircraftNearLocation by_latitude 50 8 10
             (AircraftService.stmt_run 1700000060%Z (record_of (airborne_at "eeeeee" 51 7000))
                four_aircraft_table))).
Proof.
  apply in_map_iff.
  exists (AircraftService.with_distance by_latitude 50 8
            {| Database.id := (Database.sequence four_aircraft_table + 1)%Z;
               Database.columns :=
                 AircraftService.parameters (record_of (airborne_at "eeeeee" 51 7000));
               Database.last_updated := 1700000060%Z |}).
  split; [reflexivity |].
  apply (stored_aircraft_is_found by_latitude 50 8 10 (h := 7000) (d := 111));
    try reflexivity; try discriminate.
  simpl. lia.
Defined.

(** ** Ingesting a batch again *)

Module AgainFacts.

Import AircraftService Spec.

(** The columns of the rows of a key after a batch. *)
Lemma forEach_columns (clock : nat -> Timestamp) (k : Sqlite.cell) (batch : list Aircraft) :
  forall (i : nat) (db : Database.t),
    map Database.columns (rows_with k (forEach_from i clock batch db))
    = match last_for k batch with
      | Some a => [parameters a]
      | None => map Database.columns (rows_with k db)
      end.
Proof.
  induction batch as [| a rest IH]; intros i db; cbn [forEach_from last_for]; trivial.
  rewrite IH. destruct (last_for k rest) as [b |]; trivial.
  destruct (storable a) eqn:Ha; cbn [andb]; trivial.
  unfold stmt_run.
  destruct (Sqlite.same_key (icao24 (parameters a)) k) eqn:Hk.
  - now rewrite StoreFacts.rows_with_replaced.
  - now rewrite StoreFacts.rows_with_untouched.
Qed.

Lemma forEach_again (first second : nat -> Timestamp) (k : Sqlite.cell)
      (batch : list Aircraft) (db : Database.t) :
  map Database.columns
      (rows_with k (updateDatabase second batch (updateDatabase first batch db)))
  = map Database.columns (rows_with k (updateDatabase first batch db)).
Proof.
  unfold updateDatabase. rewrite !forEach_columns.
  now destruct (last_for k batch).
Qed.

End AgainFacts.

(** X23: ingesting a batch again changes no aircraft.  Whatever the times
    of the writes, after the second ingestion of the same batch the rows
    of every key have the columns they had after the first; and so after
    a second fetch cycle in which the providers answer as in the first. *)
Theorem ingesting_again_changes_no_column :
  (forall (first second : nat -> Timestamp) (batch : list Aircraft) (db : Database.t)
          (k : Sqlite.cell),
      map Database.columns
          (Spec.rows_with k
             (AircraftService.updateDatabase second batch
                (AircraftService.updateDatabase first batch db)))
      = map Database.columns
            (Spec.rows_with k (AircraftService.updateDatabase first batch db)))
  /\ (forall (w again : AircraftService.World) (db : Database.t) (k : Sqlite.cell),
         AircraftService.opensky again = AircraftService.opensky w ->
         AircraftService.aviationstack again = AircraftService.aviationstack w ->
         AircraftService.AVIATION_API_KEY again = AircraftService.AVIATION_API_KEY w ->
         map Database.columns
             (Spec.rows_with k
                (AircraftService.store
                   (AircraftService.fetchAircraftData again
                      (AircraftService.store (AircraftService.fetchAircraftData w db)))))
         = map Database.columns
               (Spec.rows_with k
                  (AircraftService.store (AircraftService.fetchAircraftData w db)))).
Proof.
  split.
  - intros first second batch db k. apply AgainFacts.forEach_again.
  - intros w again db k Hopensky Haviation Hkey.
    assert (E1 : AircraftService.fetchFromOpenSky again = AircraftService.fetchFromOpenSky w)
      by (unfold AircraftService.fetchFromOpenSky; now rewrite Hopensky).
    assert (E2 : AircraftService.fetchFromAviationStack again
                 = AircraftService.fetchFromAviationStack w)
      by (unfold AircraftService.fetchFromAviationStack; now rewrite Haviation).
    unfold AircraftService.fetchAircraftData. rewrite E1, E2, Hkey.
    destruct (0 <? List.length (AircraftService.fetchFromOpenSky w))%nat; simpl.
    + apply AgainFacts.forEach_again.
    + destruct (JS.env_truthy (AircraftService.AVIATION_API_KEY w)); simpl; trivial.
      destruct (0 <? List.length (AircraftService.fetchFromAviationStack w))%nat; simpl;
        trivial.
      apply AgainFacts.forEach_again.
Qed.

Lemma ingesting_again_changes_no_column_witness :
  map Database.columns
      (Spec.rows_with (Sqlite.Text "cccccc")
         (AircraftService.store
            (AircraftService.fetchAircraftData
               {| AircraftService.opensky := AircraftService.opensky busy_sky;
                  AircraftService.aviationstack := AircraftService.aviationstack busy_sky;
                  AircraftService.AVIATION_API_KEY := AircraftService.AVIATION_API_KEY busy_sky;
                  AircraftService.clock := fun i => (1700000030 + Z.of_nat i)%Z |}
               four_aircraft_table)))
  = map Database.columns (Spec.rows_with (Sqlite.Text "cccccc") four_aircraft_table).
Proof.
  destruct ingesting_again_changes_no_column as [_ Hcycle].
  apply (Hcycle busy_sky _ Database.empty); reflexivity.
Defined.


(** ** The location routes *)

Module LocationFacts.

Import AircraftRoutes LocationRoutes LocationSpec.

Section Store.

Variable parseFloat : string -> parsed.

(** What POST /store does, case by case. *)
Lemma store_cases (body : StoreBody) (now : Timestamp) (table : Table) :
  (exists error message,
      store parseFloat body now table = (BadRequest error message, table)
      /\ ~ (JS.truthy (body_user_id body) = true
            /\ exists la lo,
                parseFloat_of parseFloat (body_latitude body) = Finite la
                /\ parseFloat_of parseFloat (body_longitude body) = Finite lo
                /\ -90 <= la <= 90 /\ -180 <= lo <= 180))
  \/ (exists la lo,
         JS.truthy (body_user_id body) = true
         /\ parseFloat_of parseFloat (body_latitude body) = Finite la
         /\ parseFloat_of parseFloat (body_longitude body) = Finite lo
         /\ (-90 <= la <= 90 /\ -180 <= lo <= 180)
         /\ store parseFloat body now table =
            (Ok {| stored_user_id := body_user_id body;
                   stored_latitude := la;
                   stored_longitude := lo;
                   stored_timestamp := now |},
             insert_or_replace now (Sqlite.bind (body_user_id body)) la lo table)).
Proof.
  unfold store.
  destruct (JS.truthy (body_user_id body)) eqn:Huser; simpl.
  2:{ left. do 2 eexists. split; [reflexivity |]. intros [H _]. discriminate. }
  destruct (is_undefined (body_latitude body)) eqn:Hlat; simpl.
  { left. do 2 eexists. split; [reflexivity |]. intros [_ (la & lo & E & _)].
    destruct (body_latitude body); simpl in *; discriminate. }
  destruct (is_undefined (body_longitude body)) eqn:Hlon; simpl.
  { left. do 2 eexists. split; [reflexivity |]. intros [_ (la & lo & _ & E & _)].
    destruct (body_longitude body); simpl in *; discriminate. }
  destruct (parseFloat_of parseFloat (body_latitude body)) as [| n1 | la] eqn:Ela; simpl.
  - left. do 2 eexists. split; [reflexivity |]. intros [_ (? & ? & E & _)]. discriminate.
  - left. destruct (parseFloat_of parseFloat (body_longitude body)); simpl;
      do 2 eexists; (split; [reflexivity |]); intros [_ (? & ? & E & _)]; discriminate.
  - destruct (parseFloat_of parseFloat (body_longitude body)) as [| n2 | lo] eqn:Elo; simpl.
    + left. do 2 eexists. split; [reflexivity |]. intros [_ (? & ? & _ & E & _)]. discriminate.
    + left. do 2 eexists. split; [reflexivity |]. intros [_ (? & ? & _ & E & _)]. discriminate.
    + destruct (negb (Qle_bool (-90) la)) eqn:H1; simpl.
      { left. do 2 eexists. split; [reflexivity |].
        intros [_ (la' & lo' & E1 & E2 & [Hl _] & _)]. injection E1 as <-.
        apply negb_true_iff in H1. apply Qle_bool_iff in Hl. congruence. }
      destruct (negb (Qle_bool la 90)) eqn:H2; simpl.
      { left. do 2 eexists. split; [reflexivity |].
        intros [_ (la' & lo' & E1 & E2 & [_ Hl] & _)]. injection E1 as <-.
        apply negb_true_iff in H2. apply Qle_bool_iff in Hl. congruence. }
      destruct (negb (Qle_bool (-180) lo)) eqn:H3; simpl.
      { left. do 2 eexists. split; [reflexivity |].
        intros [_ (la' & lo' & E1 & E2 & _ & [Hl _])]. injection E2 as <-.
        apply negb_true_iff in H3. apply Qle_bool_iff in Hl. congruence. }
      destruct (negb (Qle_bool lo 180)) eqn:H4; simpl.
      { left. do 2 eexists. split; [reflexivity |].
        intros [_ (la' & lo' & E1 & E2 & _ & [_ Hl])]. injection E2 as <-.
        apply negb_true_iff in H4. apply Qle_bool_iff in Hl. congruence. }
      right. exists la, lo. apply negb_false_iff in H1, H2, H3, H4.
      rewrite Qle_bool_iff in *. repeat split; trivial.
Qed.

End Store.

End LocationFacts.


Module UserTableFacts.

Import AircraftRoutes LocationRoutes LocationSpec.

Section Replace.

Variable now : Timestamp.
Variable user : Sqlite.cell.
Variable lat lon : Q.
Variable table : Table.

Let fresh_row : UserLocation :=
  {| location_id := (location_sequence table + 1)%Z;
     user_id := user;
     user_latitude := lat;
     user_longitude := lon;
     location_timestamp := now |}.

Lemma locations_of_replaced (k : Sqlite.cell) :
  Sqlite.same_key user k = true ->
  locations_of k (insert_or_replace now user lat lon table) = [fresh_row].
Proof.
  intros Hk. unfold locations_of, insert_or_replace. cbn [user_locations].
  rewrite filter_app. cbn [filter user_id]. rewrite Hk.
  replace (filter _ (filter _ (user_locations table))) with (@nil UserLocation); trivial.
  symmetry. induction (user_locations table) as [| r rest IH]; simpl; trivial.
  destruct (Sqlite.same_key (user_id r) user) eqn:E; simpl; trivial.
  destruct (Sqlite.same_key (user_id r) k) eqn:E'; trivial.
  rewrite StoreFacts.same_key_sym in Hk.
  rewrite (StoreFacts.same_key_trans _ _ _ E' Hk) in E. discriminate.
Qed.

Lemma locations_of_untouched (k : Sqlite.cell) :
  Sqlite.same_key user k = false ->
  locations_of k (insert_or_replace now user lat lon table) = locations_of k table.
Proof.
  intros Hk. unfold locations_of, insert_or_replace. cbn [user_locations].
  rewrite filter_app. cbn [filter user_id]. rewrite Hk, app_nil_r.
  induction (user_locations table) as [| r rest IH]; simpl; trivial.
  destruct (Sqlite.same_key (user_id r) user) eqn:E; simpl.
  - destruct (Sqlite.same_key (user_id r) k) eqn:E'; trivial.
    rewrite StoreFacts.same_key_sym in E.
    rewrite (StoreFacts.same_key_trans _ _ _ E E') in Hk. discriminate.
  - now rewrite IH.
Qed.

Lemma replace_keeps_one_location_per_user :
  one_location_per_user table ->
  one_location_per_user (insert_or_replace now user lat lon table).
Proof.
  intros Htable k. destruct (Sqlite.same_key user k) eqn:E.
  - now rewrite locations_of_replaced.
  - rewrite locations_of_untouched; trivial.
Qed.

End Replace.

Section Requests.

Variable parseFloat : string -> parsed.

Lemma store_keeps_one_location_per_user (body : StoreBody) (now : Timestamp) (table : Table) :
  one_location_per_user table ->
  one_location_per_user (snd (store parseFloat body now table)).
Proof.
  intros Htable.
  destruct (LocationFacts.store_cases parseFloat body now table)
    as [(e & m & E & _) | (la & lo & _ & _ & _ & _ & E)]; rewrite E; simpl; trivial.
  now apply replace_keeps_one_location_per_user.
Qed.

Lemma requests_keep_one_location_per_user (requests : list (StoreBody * Timestamp)) :
  forall table,
    one_location_per_user table ->
    one_location_per_user (after_requests parseFloat requests table).
Proof.
  induction requests as [| [body now] rest IH]; simpl; intros table Htable; trivial.
  apply IH. now apply store_keeps_one_location_per_user.
Qed.

(** A request of another user leaves the rows of the user [s] alone. *)
Lemma store_of_another_user (s : string) (request : StoreBody * Timestamp) (table : Table) :
  of_another_user s request ->
  locations_of (Sqlite.Text s) (snd (store parseFloat (fst request) (snd request) table))
  = locations_of (Sqlite.Text s) table.
Proof.
  intros (t & Ht & Hne).
  destruct (LocationFacts.store_cases parseFloat (fst request) (snd request) table)
    as [(e & m & E & _) | (la & lo & _ & _ & _ & _ & E)]; rewrite E; simpl; trivial.
  apply locations_of_untouched. rewrite Ht. simpl.
  apply String.eqb_neq. exact Hne.
Qed.

Lemma requests_of_other_users (s : string) (requests : list (StoreBody * Timestamp)) :
  forall table,
    Forall (of_another_user s) requests ->
    locations_of (Sqlite.Text s) (after_requests parseFloat requests table)
    = locations_of (Sqlite.Text s) table.
Proof.
  induction requests as [| [body now] rest IH]; simpl; intros table Hall; trivial.
  inversion Hall as [| ? ? Hfirst Hrest]; subst.
  rewrite IH; trivial.
  exact (store_of_another_user table Hfirst).
Qed.

End Requests.

Lemma location_of_single (s : string) (row : UserLocation) (table : Table) :
  s <> EmptyString ->
  locations_of (Sqlite.Text s) table = [row] ->
  location_of s table = Ok row.
Proof.
  intros Hs E. unfold location_of.
  apply String.eqb_neq in Hs. rewrite Hs.
  unfold locations_of in E. rewrite E. reflexivity.
Qed.

End UserTableFacts.

(** X24: POST /store, for a request whose user id is a string or is not
    given, accepts it exactly when the user id is truthy and latitude and
    longitude parse to numbers between -90 and 90 and between -180 and
    180; it then answers with the parsed coordinates and replaces the row
    of the user.  Every other such request is answered with 400 and leaves
    the table as it was. *)
Theorem store_accepts_exactly_valid_requests :
  forall (parseFloat : string -> AircraftRoutes.parsed)
         (body : LocationRoutes.StoreBody) (now : Timestamp) (table : LocationRoutes.Table),
    LocationSpec.string_if_given body ->
    (forall d table',
        LocationRoutes.store parseFloat body now table = (AircraftRoutes.Ok d, table')
        <-> exists s la lo,
              LocationRoutes.body_user_id body = JS.JStr s /\ s <> EmptyString
              /\ LocationRoutes.parseFloat_of parseFloat (LocationRoutes.body_latitude body)
                 = AircraftRoutes.Finite la
              /\ LocationRoutes.parseFloat_of parseFloat (LocationRoutes.body_longitude body)
                 = AircraftRoutes.Finite lo
              /\ (-90 <= la <= 90 /\ -180 <= lo <= 180)
              /\ d = {| LocationRoutes.stored_user_id := JS.JStr s;
                        LocationRoutes.stored_latitude := la;
                        LocationRoutes.stored_longitude := lo;
                        LocationRoutes.stored_timestamp := now |}
              /\ table' = LocationRoutes.insert_or_replace now (Sqlite.Text s) la lo table)
    /\ (forall response table',
           LocationRoutes.store parseFloat body now table = (response, table') ->
           (forall d, response <> AircraftRoutes.Ok d) ->
           table' = table /\ exists error message, response = AircraftRoutes.BadRequest error message).
Proof.
  intros parseFloat body now table Hstring.
  destruct (LocationFacts.store_cases parseFloat body now table)
    as [(e & m & E & Hnot) | (la & lo & Huser & Ela & Elo & Hrange & E)].
  - split.
    + intros d table'. rewrite E. split; [discriminate |].
      intros (s & la & lo & Es & Hs & Ela & Elo & [H1 H2] & _). exfalso. apply Hnot.
      split.
      * rewrite Es. simpl. apply negb_true_iff, String.eqb_neq. exact Hs.
      * exists la, lo. tauto.
    + intros response table'. rewrite E. intros [= <- <-] _. split; trivial. now exists e, m.
  - destruct (Hstring Huser) as [s Es]. split.
    + intros d table'. rewrite E, Es. split.
      * intros [= <- <-]. exists s, la, lo.
        rewrite Es in Huser. simpl in Huser. apply negb_true_iff, String.eqb_neq in Huser.
        simpl. tauto.
      * intros (s' & la' & lo' & [= <-] & _ & Ela' & Elo' & _ & -> & ->).
        rewrite Ela in Ela'. rewrite Elo in Elo'.
        injection Ela' as <-. injection Elo' as <-. reflexivity.
    + intros response table'. rewrite E. intros [= <- <-] Hno.
      exfalso. eapply Hno. reflexivity.
Qed.

Lemma store_accepts_exactly_valid_requests_witness :
  (exists table',
      LocationRoutes.store sample_parseFloat (on_null_island "ann") 1200%Z
                           LocationRoutes.no_locations
      = (AircraftRoutes.Ok
           {| LocationRoutes.stored_user_id := JS.JStr "ann";
              LocationRoutes.stored_latitude := 0;
              LocationRoutes.stored_longitude := 0;
              LocationRoutes.stored_timestamp := 1200%Z |}, table')
      /\ List.length (LocationRoutes.user_locations table') = 1%nat)
  /\ snd (LocationRoutes.store sample_parseFloat (beyond_the_pole "ann") 1200%Z
                               LocationRoutes.no_locations)
     = LocationRoutes.no_locations
  /\ snd (LocationRoutes.store sample_parseFloat without_user 1200%Z
                               LocationRoutes.no_locations)
     = LocationRoutes.no_locations.
Proof.
  split; [| split].
  - eexists. split.
    + apply (proj1 (store_accepts_exactly_valid_requests sample_parseFloat
                      (body := on_null_island "ann") 1200%Z LocationRoutes.no_locations
                      (fun _ => ex_intro _ "ann"%string eq_refl))).
      exists "ann"%string, 0, 0.
      repeat split; try reflexivity; discriminate.
    + reflexivity.
  - apply (proj2 (store_accepts_exactly_valid_requests sample_parseFloat
                    (body := beyond_the_pole "ann") 1200%Z LocationRoutes.no_locations
                    (fun _ => ex_intro _ "ann"%string eq_refl))
                 (fst (LocationRoutes.store sample_parseFloat (beyond_the_pole "ann") 1200%Z
                                            LocationRoutes.no_locations))).
    + reflexivity.
    + intros d. discriminate.
  - refine (proj1 (proj2 (store_accepts_exactly_valid_requests sample_parseFloat
                    (body := without_user) 1200%Z LocationRoutes.no_locations _)
                 (fst (LocationRoutes.store sample_parseFloat without_user 1200%Z
                                            LocationRoutes.no_locations)) _ _ _)).
    + intros H. discriminate H.
    + reflexivity.
    + intros d. discriminate.
Defined.

(** X25: the location stored for a user is the one GET /:user_id returns,
    whatever other users store afterwards: after an accepted request of
    the user [s], and any later requests that name other users, the route
    answers with one row that holds [s], the accepted coordinates and the
    time of the request. *)
Theorem stored_location_is_returned :
  forall (parseFloat : string -> AircraftRoutes.parsed)
         (s : string) (body : LocationRoutes.StoreBody) (now : Timestamp)
         (table table' : LocationRoutes.Table) (d : LocationRoutes.Stored)
         (later : list (LocationRoutes.StoreBody * Timestamp)),
    LocationRoutes.body_user_id body = JS.JStr s ->
    LocationRoutes.store parseFloat body now table = (AircraftRoutes.Ok d, table') ->
    Forall (LocationSpec.of_another_user s) later ->
    exists row,
      LocationRoutes.location_of s (LocationSpec.after_requests parseFloat later table')
      = AircraftRoutes.Ok row
      /\ LocationRoutes.user_id row = Sqlite.Text s
      /\ LocationRoutes.user_latitude row = LocationRoutes.stored_latitude d
      /\ LocationRoutes.user_longitude row = LocationRoutes.stored_longitude d
      /\ LocationRoutes.location_timestamp row = now.
Proof.
  intros parseFloat s body now table table' d later Hs E Hlater.
  destruct (LocationFacts.store_cases parseFloat body now table)
    as [(e & m & E' & _) | (la & lo & Huser & _ & _ & _ & E')];
    rewrite E' in E; [discriminate |].
  injection E as <- <-.
  rewrite Hs in Huser. simpl in Huser. apply negb_true_iff, String.eqb_neq in Huser.
  eexists. split.
  - apply UserTableFacts.location_of_single; trivial.
    rewrite UserTableFacts.requests_of_other_users; trivial.
    apply UserTableFacts.locations_of_replaced.
    rewrite Hs. simpl. apply String.eqb_refl.
  - rewrite Hs. simpl. repeat split.
Qed.

Lemma stored_location_is_returned_witness :
  exists row,
    LocationRoutes.location_of "ann"
      (LocationSpec.after_requests sample_parseFloat
         [(on_null_island "bob", 1300%Z); (beyond_the_pole "bob", 1400%Z); (in_frankfurt "bob", 1500%Z)]
         (snd (LocationRoutes.store sample_parseFloat (in_frankfurt "ann") 1200%Z
                 (snd (LocationRoutes.store sample_parseFloat (on_null_island "ann") 1100%Z
                         LocationRoutes.no_locations)))))
    = AircraftRoutes.Ok row
    /\ LocationRoutes.user_id row = Sqlite.Text "ann"
    /\ LocationRoutes.user_latitude row = 50
    /\ LocationRoutes.user_longitude row = 8
    /\ LocationRoutes.location_timestamp row = 1200%Z.
Proof.
  refine (@stored_location_is_returned sample_parseFloat "ann" (in_frankfurt "ann") 1200%Z
            (snd (LocationRoutes.store sample_parseFloat (on_null_island "ann") 1100%Z
                    LocationRoutes.no_locations))
            (snd (LocationRoutes.store sample_parseFloat (in_frankfurt "ann") 1200%Z
                    (snd (LocationRoutes.store sample_parseFloat (on_null_island "ann") 1100%Z
                            LocationRoutes.no_locations))))
            {| LocationRoutes.stored_user_id := JS.JStr "ann";
               LocationRoutes.stored_latitude := 50;
               LocationRoutes.stored_longitude := 8;
               LocationRoutes.stored_timestamp := 1200%Z |}
            [(on_null_island "bob", 1300%Z); (beyond_the_pole "bob", 1400%Z);
             (in_frankfurt "bob", 1500%Z)]
            eq_refl _ _).
  - vm_compute. reflexivity.
  - repeat constructor; exists "bob"%string; (split; [reflexivity | discriminate]).
Defined.


(** X26: the table of locations holds at most one row per user: from the
    empty table, whatever requests POST /store serves that name their user
    by a string, no two rows hold the same user id. *)
Theorem one_location_per_user_always :
  forall (parseFloat : string -> AircraftRoutes.parsed)
         (requests : list (LocationRoutes.StoreBody * Timestamp)),
    Forall LocationSpec.named requests ->
    LocationSpec.one_location_per_user
      (LocationSpec.after_requests parseFloat requests LocationRoutes.no_locations).
Proof.
  intros parseFloat requests _.
  apply UserTableFacts.requests_keep_one_location_per_user.
  intros k. simpl. lia.
Qed.

Lemma one_location_per_user_always_witness :
  let table :=
    LocationSpec.after_requests sample_parseFloat
      [(on_null_island "ann", 1100%Z); (in_frankfurt "bob", 1200%Z);
       (in_frankfurt "ann", 1300%Z)]
      LocationRoutes.no_locations in
  LocationSpec.one_location_per_user table
  /\ map LocationRoutes.user_id (LocationRoutes.user_locations table)
     = [Sqlite.Text "bob"; Sqlite.Text "ann"].
Proof.
  split.
  - apply one_location_per_user_always.
    repeat constructor; eexists; reflexivity.
  - reflexivity.
Defined.

(** ** The distance route *)

Module DistanceFacts.

Import AircraftRoutes LocationRoutes DistanceRoute.

Local Open Scope R_scope.

Lemma not_truthy_zero (q : Q) : q == 0 -> JS.truthy (JS.JNum q) = false.
Proof.
  intros H. simpl. apply negb_false_iff. now apply Qeq_bool_iff.
Qed.

End DistanceFacts.

(** X27: POST /distance refuses a coordinate that is not truthy, and so
    the number 0: a request with 0 as one of its four coordinates is
    answered with 400 and no distance.  It checks no range: a request whose
    coordinates are truthy and parse to something other than [NaN] is
    answered, and with an infinite coordinate the distance is [NaN]. *)
Theorem distance_refuses_zero_and_checks_no_range :
  forall (parseFloat : string -> AircraftRoutes.parsed) (body : DistanceRoute.DistanceBody),
    (forall q : Q,
        q == 0 ->
        DistanceRoute.lat1 body = JS.JNum q \/ DistanceRoute.lon1 body = JS.JNum q
        \/ DistanceRoute.lat2 body = JS.JNum q \/ DistanceRoute.lon2 body = JS.JNum q ->
        DistanceRoute.distance parseFloat body
        = AircraftRoutes.BadRequest "Missing required parameters"
                                    "lat1, lon1, lat2, and lon2 are required")
    /\ ((exists d, DistanceRoute.distance parseFloat body = AircraftRoutes.Ok d)
        <-> Forall (fun v => JS.truthy v = true
                             /\ AircraftRoutes.isNaN (LocationRoutes.parseFloat_of parseFloat v)
                                = false)
                   [DistanceRoute.lat1 body; DistanceRoute.lon1 body;
                    DistanceRoute.lat2 body; DistanceRoute.lon2 body])
    /\ (forall d negative,
           DistanceRoute.distance parseFloat body = AircraftRoutes.Ok d ->
           In (AircraftRoutes.Infinite negative)
              (map (LocationRoutes.parseFloat_of parseFloat)
                   [DistanceRoute.lat1 body; DistanceRoute.lon1 body;
                    DistanceRoute.lat2 body; DistanceRoute.lon2 body]) ->
           DistanceRoute.distance_km d = None /\ DistanceRoute.distance_miles d = None).
Proof.
  intros parseFloat body. split; [| split].
  - intros q Hq H. unfold DistanceRoute.distance.
    pose proof (DistanceFacts.not_truthy_zero Hq) as Hz.
    destruct H as [H | [H | [H | H]]]; rewrite H, Hz; simpl;
      rewrite ?orb_true_r; reflexivity.
  - unfold DistanceRoute.distance. split.
    + intros [d E].
      destruct (JS.truthy (DistanceRoute.lat1 body)) eqn:T1; [| discriminate].
      destruct (JS.truthy (DistanceRoute.lon1 body)) eqn:T2; [| discriminate].
      destruct (JS.truthy (DistanceRoute.lat2 body)) eqn:T3; [| discriminate].
      destruct (JS.truthy (DistanceRoute.lon2 body)) eqn:T4; [| discriminate].
      simpl in E.
      destruct (AircraftRoutes.isNaN
                  (LocationRoutes.parseFloat_of parseFloat (DistanceRoute.lat1 body))) eqn:N1;
        [discriminate |].
      destruct (AircraftRoutes.isNaN
                  (LocationRoutes.parseFloat_of parseFloat (DistanceRoute.lon1 body))) eqn:N2;
        [discriminate |].
      destruct (AircraftRoutes.isNaN
                  (LocationRoutes.parseFloat_of parseFloat (DistanceRoute.lat2 body))) eqn:N3;
        [discriminate |].
      destruct (AircraftRoutes.isNaN
                  (LocationRoutes.parseFloat_of parseFloat (DistanceRoute.lon2 body))) eqn:N4;
        [discriminate |].
      repeat constructor; assumption.
    + intros H.
      inversion H as [| ? ? [T1 N1] H1]; subst.
      inversion H1 as [| ? ? [T2 N2] H2]; subst.
      inversion H2 as [| ? ? [T3 N3] H3]; subst.
      inversion H3 as [| ? ? [T4 N4] _]; subst.
      rewrite T1, T2, T3, T4. simpl. rewrite N1, N2, N3, N4. simpl.
      eexists. reflexivity.
  - intros d negative E Hin. unfold DistanceRoute.distance in E.
    destruct (negb (JS.truthy (DistanceRoute.lat1 body))
              || negb (JS.truthy (DistanceRoute.lon1 body))
              || negb (JS.truthy (DistanceRoute.lat2 body))
              || negb (JS.truthy (DistanceRoute.lon2 body)))%bool; [discriminate |].
    destruct (existsb _ _); [discriminate |].
    injection E as <-. cbn [DistanceRoute.distance_km DistanceRoute.distance_miles].
    simpl in Hin.
    destruct Hin as [H | [H | [H | [H | []]]]]; rewrite H; simpl;
      repeat match goal with
             | |- context [DistanceRoute.real_of ?p] =>
                 destruct (DistanceRoute.real_of p)
             end; split; reflexivity.
Qed.

Lemma distance_refuses_zero_and_checks_no_range_witness :
  DistanceRoute.distance sample_parseFloat
    (between (JS.JNum 0) (JS.JNum 8) (JS.JNum 50) (JS.JNum 8))
  = AircraftRoutes.BadRequest "Missing required parameters"
                              "lat1, lon1, lat2, and lon2 are required"
  /\ (exists d,
         DistanceRoute.distance sample_parseFloat
           (between (JS.JStr "91") (JS.JNum 400) (JS.JStr "Infinity") (JS.JNum 8))
         = AircraftRoutes.Ok d
         /\ DistanceRoute.distance_km d = None /\ DistanceRoute.distance_miles d = None).
Proof.
  split.
  - apply (proj1 (distance_refuses_zero_and_checks_no_range sample_parseFloat
                    (between (JS.JNum 0) (JS.JNum 8) (JS.JNum 50) (JS.JNum 8))) 0).
    + reflexivity.
    + left. reflexivity.
  - destruct (proj2 (proj1 (proj2 (distance_refuses_zero_and_checks_no_range sample_parseFloat
                (between (JS.JStr "91") (JS.JNum 400) (JS.JStr "Infinity") (JS.JNum 8))))))
      as [d E].
    + repeat constructor.
    + exists d. split; [exact E |].
      apply (proj2 (proj2 (distance_refuses_zero_and_checks_no_range sample_parseFloat
                (between (JS.JStr "91") (JS.JNum 400) (JS.JStr "Infinity") (JS.JNum 8))))
               d false E).
      simpl. tauto.
Defined.
